(** * FrostBit: the frost-risk computation pipeline

    A shallow embedding of [server/app/mathModel.py] (record normalisation,
    physical quantities, the logistic damage model, the per-station pass
    that derives the cooling rate), of the database read of
    [server/app/CIMIS.py], and of the endpoint [get_frost_risk] of
    [server/app/main.py] with its daily aggregation and risk
    classification.

    Numbers.  Python floats are embedded as real numbers: rounding is not
    modelled, and neither is silent saturation to [inf].  What is modelled
    is every place where CPython raises instead of returning a float:
    [math.sqrt] and [math.log] outside their domain, [/] by zero,
    [math.exp] and [**] when the result leaves the binary64 range, and
    [**] of a negative base to a fractional power, which leaves the reals.

    Three effects of rounding matter to the statements below and are not
    in the definitions.  A quotient can underflow to [0.0]: in
    [dew_point_temperature], [log(rh / 100.0)] then raises ValueError for
    a humidity below about 1e-321.  A difference can cancel to [0.0]: the
    divisor [a - gamma] of [dew_point_temperature] does for an air
    temperature of about 1e18 and more, and the division raises
    ZeroDivisionError.  A result can round to a bound that the real
    value stays away from: [damage_curve] returns exactly [1.0] from an
    exponent of about 37, and [x / y * y] need not give back [x].
    Therefore a statement that nothing is raised is made on a range
    where the quantities that must not vanish stay far from 0, a
    statement that holds for the floats as well uses [<=] where the
    real value is strictly inside, and a strict inequality or an
    equality between computed values is a statement of exact real
    arithmetic and says so.

    Builtins.  [float(v)], [str(v)] and [datetime.fromisoformat(s)] belong
    to the Python runtime, not to the repository.  The normaliser takes
    them as parameters, so its lemmas hold for every implementation; the
    instances [py_float], [py_str] and [py_fromisoformat] cover plain
    decimal literals and the [YYYY-MM-DD HH:MM] form and are used to run
    the normaliser on concrete documents.  The formatting [f"{x:.2f}"] of
    a float is a parameter of the database read in the same way.

    Database.  A session is embedded as the function that answers the one
    query of [get_cimis_data]; nothing is assumed about the rows it
    returns. *)

From Stdlib Require Import Reals Lra Lia ZArith String Ascii List Bool
  DecimalString Sorted Permutation.
Import ListNotations.

Open Scope R_scope.

(** ** Outcomes of a Python call *)

Inductive exn : Set :=
| ValueError
| TypeError
| AttributeError
| ZeroDivisionError
| OverflowError
| ComplexResult. (* not an exception: the value is a Python [complex],
                    which [math.exp] later rejects with TypeError *)

Inductive result (A : Type) : Type :=
| Ok (a : A)
| Raise (e : exn).

Arguments Ok {A} a.
Arguments Raise {A} e.

Definition bind {A B : Type} (m : result A) (k : A -> result B) : result B :=
  match m with
  | Ok a => k a
  | Raise e => Raise e
  end.

Notation "x <- m ;; k" := (bind m (fun x => k))
  (at level 61, m at next level, right associativity).

(** ** Float operations that can raise *)

Module PyFloat.

(** Reals of this magnitude or more round to infinity in binary64
    (round to nearest): [2^1024 - 2^970]. *)
Definition DBL_OVERFLOW : R := IZR (2 ^ 1024 - 2 ^ 970).

(** [math.exp(x)]: OverflowError ("math range error") when the result
    is not a finite double. *)
Definition math_exp (x : R) : result R :=
  if Rle_dec DBL_OVERFLOW (exp x) then Raise OverflowError else Ok (exp x).

(** [math.sqrt(x)]: ValueError ("math domain error") on negatives. *)
Definition math_sqrt (x : R) : result R :=
  if Rlt_dec x 0 then Raise ValueError else Ok (sqrt x).

(** [math.log(x)]: ValueError on non-positive arguments. *)
Definition math_log (x : R) : result R :=
  if Rle_dec x 0 then Raise ValueError else Ok (ln x).

(** [x / y] on floats. *)
Definition truediv (x y : R) : result R :=
  if Req_dec_T y 0 then Raise ZeroDivisionError else Ok (x / y).

(** [x ** 1.5]: a negative base gives a complex number, a result out of
    range raises OverflowError; otherwise [x * sqrt x]. *)
Definition pow_1_5 (x : R) : result R :=
  if Rlt_dec x 0 then Raise ComplexResult
  else if Rle_dec DBL_OVERFLOW (x * sqrt x) then Raise OverflowError
  else Ok (x * sqrt x).

End PyFloat.

Import PyFloat.

(** ** Stage configuration ([StageLT], [CropLTConfig], [ALMOND_LT_CONFIG]) *)

Record StageLT : Type := mkStageLT { lt10_c : R; lt90_c : R }.

Record CropLTConfig : Type := mkCropLTConfig {
  crop_name : string;
  stages : list (string * StageLT) (* insertion order of the dict *)
}.

Definition stage_names (c : CropLTConfig) : list string := map fst (stages c).

Definition ALMOND_LT_CONFIG : CropLTConfig :=
  mkCropLTConfig "almond"
    [ ("pinkbud"%string,   mkStageLT (-3.5) (-5.5));
      ("fullbloom"%string, mkStageLT (-3.0) (-4.5));
      ("petalfall"%string, mkStageLT (-2.8) (-5.0));
      ("fruitset"%string,  mkStageLT (-2.5) (-4.7));
      ("smallnut"%string,  mkStageLT (-2.8) (-4.5)) ].

(** ** Physical quantities *)

Definition wet_bulb_temperature (temperature_c relative_humidity : R) : result R :=
  s <- math_sqrt (relative_humidity + 8.313659) ;;
  p <- pow_1_5 relative_humidity ;;
  Ok (temperature_c * atan (0.151977 * s)
      + atan (temperature_c + relative_humidity)
      - atan (relative_humidity - 1.676331)
      + 0.00391838 * p * atan (0.023101 * relative_humidity)
      - 4.686035).

Definition blossom_temp (temperature_c relative_humidity delta_orchard_c : R)
  : result R :=
  wb <- wet_bulb_temperature temperature_c relative_humidity ;;
  Ok (temperature_c - delta_orchard_c - (temperature_c - wb)).

Definition cooling_rate (temperature_prev_c temperature_c delta_t_hours : R)
  : R :=
  if Req_dec_T delta_t_hours 0 then 0.0
  else (temperature_prev_c - temperature_c) / delta_t_hours.

Definition dew_point_temperature (temperature_c relative_humidity : R)
  : result R :=
  if Rle_dec relative_humidity 0 then Ok temperature_c
  else
    let a := 17.27 in
    let b := 237.7 in
    q <- truediv (a * temperature_c) (b + temperature_c) ;;
    h <- truediv relative_humidity 100.0 ;;
    l <- math_log h ;;
    let gamma := q + l in
    truediv (b * gamma) (a - gamma).

(** ** Stage damage model *)

Definition lower_ascii (c : ascii) : ascii :=
  let n := nat_of_ascii c in
  if (65 <=? n)%nat && (n <=? 90)%nat then ascii_of_nat (n + 32) else c.

(** [str.lower()] on ASCII text; bytes above 127 are left as they are. *)
Fixpoint lower (s : string) : string :=
  match s with
  | EmptyString => EmptyString
  | String c s' => String (lower_ascii c) (lower s')
  end.

Definition get_damage_parameters (stage : string) : result (R * R) :=
  let s := lower stage in
  if (s =? "pinkbud")%string then Ok (10.0, 1.5)
  else if (s =? "fullbloom")%string then Ok (9.0, 1.4)
  else if (s =? "petalfall")%string then Ok (8.0, 1.3)
  else if (s =? "fruitset")%string then Ok (7.0, 1.2)
  else if (s =? "smallnut")%string then Ok (6.0, 1.1)
  else Raise ValueError.

Definition damage_curve (temp_c : R) (stage : string) : result R :=
  ab <- get_damage_parameters stage ;;
  let z := fst ab + snd ab * temp_c in
  e <- math_exp (- z) ;;
  truediv 1.0 (1.0 + e).

Definition estimate_damage_at_temperature (temperature_c : R) (stage : string)
  : result R :=
  damage_curve temperature_c stage.

(** ** JSON values and Python dictionaries *)

#[local] Unset Elimination Schemes.

Inductive json : Type :=
| JNull
| JBool (b : bool)
| JInt (n : Z)
| JFloat (x : R)
| JStr (s : string)
| JList (l : list json)
| JDict (d : list (string * json)).

#[local] Set Elimination Schemes.

(** A [dict] with string keys, which are distinct, in insertion order. *)
Definition dict : Type := list (string * json).

Fixpoint dict_get (d : dict) (k : string) : option json :=
  match d with
  | [] => None
  | (k', v) :: d' => if (k' =? k)%string then Some v else dict_get d' k
  end.

(** [x.get(k)]: [None] (here [JNull]) when the key is missing;
    AttributeError when [x] is not a dict. *)
Definition py_get (x : json) (k : string) : result json :=
  match x with
  | JDict d => Ok (match dict_get d k with Some v => v | None => JNull end)
  | _ => Raise AttributeError
  end.

(** [x.get(k, default)]. *)
Definition py_get_default (x : json) (k : string) (default : json)
  : result json :=
  match x with
  | JDict d => Ok (match dict_get d k with Some v => v | None => default end)
  | _ => Raise AttributeError
  end.

Fixpoint chars_of (s : string) : list json :=
  match s with
  | EmptyString => []
  | String c s' => JStr (String c EmptyString) :: chars_of s'
  end.

(** [for x in v]: the elements of a list, the keys of a dict, the
    characters of a string; TypeError for the other values. *)
Definition py_iter (v : json) : result (list json) :=
  match v with
  | JList l => Ok l
  | JDict d => Ok (map (fun kv => JStr (fst kv)) d)
  | JStr s => Ok (chars_of s)
  | _ => Raise TypeError
  end.

(** Truth value, as [or] tests it. *)
Definition truthy (v : json) : bool :=
  match v with
  | JNull => false
  | JBool b => b
  | JInt n => negb (n =? 0)%Z
  | JFloat x => if Req_dec_T x 0 then false else true
  | JStr s => negb (s =? "")%string
  | JList l => match l with [] => false | _ => true end
  | JDict d => match d with [] => false | _ => true end
  end.

(** ** Naive [datetime] values *)

Module datetime.

Record t : Set := mk {
  year : Z; month : Z; day : Z; hour : Z; minute : Z; second : Z
}.

Definition is_leap (y : Z) : bool :=
  ((y mod 4 =? 0) && (negb (y mod 100 =? 0) || (y mod 400 =? 0)))%Z.

Definition days_in_month (y m : Z) : Z :=
  if (m =? 2)%Z then (if is_leap y then 29 else 28)%Z
  else if ((m =? 4) || (m =? 6) || (m =? 9) || (m =? 11))%Z then 30%Z
  else 31%Z.

Definition days_before_year (y : Z) : Z :=
  let y1 := (y - 1)%Z in
  (y1 * 365 + y1 / 4 - y1 / 100 + y1 / 400)%Z.

Definition days_before_month (y m : Z) : Z :=
  (nth (Z.to_nat m) [0; 0; 31; 59; 90; 120; 151; 181; 212; 243; 273; 304; 334] 0
   + (if (2 <? m) && is_leap y then 1 else 0))%Z.

Definition toordinal (d : t) : Z :=
  (days_before_year (year d) + days_before_month (year d) (month d) + day d)%Z.

(** [(a - b).total_seconds()]. *)
Definition total_seconds_between (a b : t) : Z :=
  ((toordinal a - toordinal b) * 86400
   + (hour a - hour b) * 3600 + (minute a - minute b) * 60
   + (second a - second b))%Z.

Definition cmp_key (d : t) : list Z :=
  [year d; month d; day d; hour d; minute d; second d].

Fixpoint lex_ltb (a b : list Z) : bool :=
  match a, b with
  | x :: a', y :: b' => (x <? y)%Z || ((x =? y)%Z && lex_ltb a' b')
  | [], _ :: _ => true
  | _, [] => false
  end.

Definition ltb (a b : t) : bool := lex_ltb (cmp_key a) (cmp_key b).

Fixpoint zeros (n : nat) : string :=
  match n with O => EmptyString | S n' => String "0" (zeros n') end.

(** ["%0<w>d"] for a non-negative number. *)
Definition pad (w : nat) (n : Z) : string :=
  let s := NilZero.string_of_int (Z.to_int n) in
  (zeros (w - String.length s) ++ s)%string.

(** [isoformat()] with the default separator. *)
Definition isoformat (d : t) : string :=
  (pad 4 (year d) ++ "-" ++ pad 2 (month d) ++ "-" ++ pad 2 (day d) ++ "T"
   ++ pad 2 (hour d) ++ ":" ++ pad 2 (minute d) ++ ":" ++ pad 2 (second d))%string.

End datetime.

(** ** String helpers used by the normaliser *)

Definition endswith (s suffix : string) : bool :=
  let n := String.length s in
  let k := String.length suffix in
  (k <=? n)%nat && (substring (n - k) k s =? suffix)%string.

(** [s.zfill(2)]: a leading sign stays in front of the padding. *)
Definition zfill2 (s : string) : string :=
  match s with
  | EmptyString => "00"%string
  | String c EmptyString =>
      if (Ascii.eqb c "+" || Ascii.eqb c "-")%bool
      then String c "0"%string
      else String "0" s
  | _ => s
  end.

(** ** Normalised rows (the dicts built by [cimis_json_to_records]) *)

Module Row.

Record t : Type := mk {
  station : json;          (* [JNull] stands for [None] *)
  date : json;
  hour : string;
  timestamp : datetime.t;
  air_temp_c : option R;
  rel_hum : option R
}.

End Row.

(** Python [==] and [<] on station identifiers.  Strings compare with
    strings, numbers ([bool], [int], [float]) with numbers, [None] equals
    [None]; ordering any other pair raises TypeError.  Lists and dicts
    are not compared structurally: they cannot be dictionary keys, and
    the pass below raises TypeError on them. *)
Definition num_val (v : json) : option R :=
  match v with
  | JBool b => Some (if b then 1 else 0)
  | JInt n => Some (IZR n)
  | JFloat x => Some x
  | _ => None
  end.

Definition py_eqb (a b : json) : bool :=
  match a, b with
  | JStr s, JStr t => (s =? t)%string
  | JInt m, JInt n => (m =? n)%Z
  | JNull, JNull => true
  | _, _ =>
      match num_val a, num_val b with
      | Some x, Some y => if Req_dec_T x y then true else false
      | _, _ => false
      end
  end.

Definition py_ltb (a b : json) : result bool :=
  match a, b with
  | JStr s, JStr t => Ok (String.ltb s t)
  | JInt m, JInt n => Ok (m <? n)%Z
  | _, _ =>
      match num_val a, num_val b with
      | Some x, Some y => Ok (if Rlt_dec x y then true else false)
      | _, _ => Raise TypeError
      end
  end.

(** [<] on the sort key [(station, timestamp)]: equal stations fall
    through to the timestamps. *)
Definition sort_key_ltb (a b : Row.t) : result bool :=
  if py_eqb (Row.station a) (Row.station b)
  then Ok (datetime.ltb (Row.timestamp a) (Row.timestamp b))
  else py_ltb (Row.station a) (Row.station b).

(** [list.sort] is stable: a row goes in front of the first later row
    that is not smaller than it. *)
Fixpoint sort_insert (r : Row.t) (sorted : list Row.t) : result (list Row.t) :=
  match sorted with
  | [] => Ok [r]
  | x :: rest =>
      c <- sort_key_ltb x r ;;
      if (c : bool) then (rest' <- sort_insert r rest ;; Ok (x :: rest'))
      else Ok (r :: x :: rest)
  end.

Fixpoint rows_sort (rows : list Row.t) : result (list Row.t) :=
  match rows with
  | [] => Ok []
  | r :: rows' => sorted <- rows_sort rows' ;; sort_insert r sorted
  end.

(** ** The record normaliser *)

Section Normaliser.

(** [float(v)]: the value, or the exception raised. *)
Variable float_of : json -> result R.
(** [str(v)], also what an f-string inserts. *)
Variable str_of : json -> string.
(** [datetime.fromisoformat(s)]; [None] stands for ValueError. *)
Variable fromisoformat : string -> option datetime.t.

Fixpoint _get_cimis_value (rec : dict) (keys : list string)
  : result (option R) :=
  match keys with
  | [] => Ok None
  | key :: keys' =>
      match dict_get rec key with
      | Some (JDict obj) =>
          match dict_get obj "Value" with
          | None | Some JNull => Ok None
          | Some v =>
              if (match v with JStr s => (s =? "")%string | _ => false end)
              then Ok None
              else
                match float_of v with
                | Ok x => Ok (Some x)
                | Raise ValueError | Raise TypeError =>
                    _get_cimis_value rec keys'
                | Raise e => Raise e
                end
          end
      | _ => _get_cimis_value rec keys'
      end
  end.

(** Hour codes: ["0300"] gives ["03"], anything else is zero-filled. *)
Definition hour_str_of (hour_raw_str : string) : string :=
  if (String.length hour_raw_str =? 4)%nat && endswith hour_raw_str "00"
  then substring 0 2 hour_raw_str
  else zfill2 hour_raw_str.

(** The body of the inner loop: [None] when the record is skipped. *)
Definition record_to_row (provider rec : json) : result (option Row.t) :=
  rec_station <- py_get rec "Station" ;;
  station <- (if truthy rec_station then Ok rec_station
              else (ps <- py_get_default provider "Station" (JDict []) ;;
                    py_get ps "StationNbr")) ;;
  date_str <- py_get rec "Date" ;;
  hour_raw <- py_get rec "Hour" ;;
  match date_str, hour_raw, rec with
  | JNull, _, _ | _, JNull, _ => Ok None
  | _, _, JDict fields =>
      let hour_raw_str := str_of hour_raw in
      let hour_str := hour_str_of hour_raw_str in
      let timestamp_str :=
        (str_of date_str ++ " " ++ hour_str ++ ":00")%string in
      match fromisoformat timestamp_str with
      | None => Ok None
      | Some timestamp =>
          air_temp_c <-
            _get_cimis_value fields ["HlyAirTmp"; "hly-air-tmp"]%string ;;
          rel_hum <-
            _get_cimis_value fields ["HlyRelHum"; "hly-rel-hum"]%string ;;
          Ok (Some (Row.mk station date_str hour_str timestamp
                      air_temp_c rel_hum))
      end
  | _, _, _ => Raise AttributeError
  end.

Fixpoint records_to_rows (provider : json) (recs : list json)
  : result (list Row.t) :=
  match recs with
  | [] => Ok []
  | rec :: recs' =>
      row <- record_to_row provider rec ;;
      rows <- records_to_rows provider recs' ;;
      Ok (match row with Some r => r :: rows | None => rows end)
  end.

Fixpoint providers_to_rows (providers : list json) : result (list Row.t) :=
  match providers with
  | [] => Ok []
  | provider :: providers' =>
      recs <- py_get_default provider "Records" (JList []) ;;
      recs <- py_iter recs ;;
      rows <- records_to_rows provider recs ;;
      rows' <- providers_to_rows providers' ;;
      Ok (rows ++ rows')
  end.

Definition cimis_json_to_records (raw_json : json) : result (list Row.t) :=
  data <- py_get_default raw_json "Data" (JDict []) ;;
  providers <- py_get_default data "Providers" (JList []) ;;
  providers <- py_iter providers ;;
  rows <- providers_to_rows providers ;;
  rows_sort rows.

End Normaliser.

(** ** The per-station pass of [compute_frost_risk_from_cimis] *)

Record StageInfo : Type := mkStageInfo {
  LT10_C : R;
  LT90_C : R;
  damage_prob : R
}.

Module Enriched.

Record t : Type := mk {
  station : json;
  timestamp : string;
  air_temperature_c : option R;
  relative_humidity : option R;
  dew_point_c : option R;
  wet_bulb_c : option R;
  blossom_temp_c : option R;
  cooling_rate_c_per_hr : R;
  stages : list (string * StageInfo)
}.

End Enriched.

(** Dictionaries keyed by station. *)
Fixpoint pd_get {V : Type} (d : list (json * V)) (k : json) : option V :=
  match d with
  | [] => None
  | (k', v) :: d' => if py_eqb k' k then Some v else pd_get d' k
  end.

Fixpoint pd_set {V : Type} (d : list (json * V)) (k : json) (v : V)
  : list (json * V) :=
  match d with
  | [] => [(k, v)]
  | (k', v') :: d' =>
      if py_eqb k' k then (k', v) :: d' else (k', v') :: pd_set d' k v
  end.

(** Hashing a list or a dict raises TypeError. *)
Definition hashable (k : json) : result unit :=
  match k with
  | JList _ | JDict _ => Raise TypeError
  | _ => Ok tt
  end.

Record pass_state : Type := mkState {
  prev_temp : list (json * option R);
  prev_time : list (json * datetime.t)
}.

Definition initial_state : pass_state := mkState [] [].

Definition derived_quantities (air_temp rel_hum : option R) (delta_orchard_c : R)
  : result (option R * option R * option R) :=
  match air_temp, rel_hum with
  | Some a, Some h =>
      wet_bulb_c <- wet_bulb_temperature a h ;;
      blossom_temp_c <- blossom_temp a h delta_orchard_c ;;
      dew_point_c <- dew_point_temperature a h ;;
      Ok (Some wet_bulb_c, Some blossom_temp_c, Some dew_point_c)
  | _, _ => Ok (None, None, None)
  end.

Definition cooling_rate_vs_previous (st : pass_state) (station : json)
  (timestamp : datetime.t) (air_temp : option R) : result R :=
  match pd_get (prev_temp st) station with
  | Some (Some prev) =>
      let dt_hours :=
        match pd_get (prev_time st) station with
        | Some t0 =>
            let dt :=
              IZR (datetime.total_seconds_between timestamp t0) / 3600.0 in
            if Rlt_dec 0 dt then dt else 1.0
        | None => 1.0
        end in
      match air_temp with
      | Some a => truediv (prev - a) dt_hours
      | None => Ok 0.0
      end
  | _ => Ok 0.0
  end.

Fixpoint stage_data (blossom_temp_c : R) (cfg : list (string * StageLT))
  : result (list (string * StageInfo)) :=
  match cfg with
  | [] => Ok []
  | (stage_name, stage_lt) :: cfg' =>
      p <- estimate_damage_at_temperature blossom_temp_c stage_name ;;
      rest <- stage_data blossom_temp_c cfg' ;;
      Ok ((stage_name, mkStageInfo (lt10_c stage_lt) (lt90_c stage_lt) p) :: rest)
  end.

(** One iteration of [for r in records]. *)
Definition pass_step (delta_orchard_c : R) (st : pass_state) (r : Row.t)
  : result (pass_state * Enriched.t) :=
  let station := Row.station r in
  let timestamp := Row.timestamp r in
  let air_temp := Row.air_temp_c r in
  let rel_hum := Row.rel_hum r in
  q <- derived_quantities air_temp rel_hum delta_orchard_c ;;
  let '(wet_bulb_c, blossom_temp_c, dew_point_c) := q in
  _ <- hashable station ;;
  cooling <- cooling_rate_vs_previous st station timestamp air_temp ;;
  let st' := mkState (pd_set (prev_temp st) station air_temp)
                     (pd_set (prev_time st) station timestamp) in
  per_stage <- match blossom_temp_c with
               | Some bt => stage_data bt (stages ALMOND_LT_CONFIG)
               | None => Ok []
               end ;;
  Ok (st', Enriched.mk station (datetime.isoformat timestamp) air_temp rel_hum
             dew_point_c wet_bulb_c blossom_temp_c cooling per_stage).

Fixpoint pass (delta_orchard_c : R) (st : pass_state) (records : list Row.t)
  : result (list Enriched.t) :=
  match records with
  | [] => Ok []
  | r :: records' =>
      o <- pass_step delta_orchard_c st r ;;
      results <- pass delta_orchard_c (fst o) records' ;;
      Ok (snd o :: results)
  end.

(** [raw_json] is what [get_cimis_data] returned for the request. *)
Definition compute_frost_risk_from_cimis
  (float_of : json -> result R) (str_of : json -> string)
  (fromisoformat : string -> option datetime.t)
  (raw_json : json) (delta_orchard_c : R) : result (list Enriched.t) :=
  records <- cimis_json_to_records float_of str_of fromisoformat raw_json ;;
  match records with
  | [] => Ok []
  | _ => pass delta_orchard_c initial_state records
  end.

(** ** Daily aggregation and risk level ([get_frost_risk], steps 3 and 4) *)

(** [max(a, b)]: the second argument only when it is larger. *)
Definition py_max (a b : R) : R := if Rlt_dec a b then b else a.

Fixpoint stage_lookup (d : list (string * StageInfo)) (k : string)
  : option StageInfo :=
  match d with
  | [] => None
  | (k', v) :: d' => if (k' =? k)%string then Some v else stage_lookup d' k
  end.

Definition stage_probs (records : list Enriched.t) (stage_name : string)
  : list R :=
  flat_map (fun r => match stage_lookup (Enriched.stages r) stage_name with
                     | Some s_info => [damage_prob s_info]
                     | None => []
                     end) records.

Definition stage_max (records : list Enriched.t) (stage_name : string) : R :=
  match stage_probs records stage_name with
  | [] => 0.0
  | p :: ps => fold_left py_max ps p
  end.

Definition max_damage_overall (records : list Enriched.t) : R :=
  fold_left (fun acc st => py_max acc (stage_max records (fst st)))
            (stages ALMOND_LT_CONFIG) 0.0.

Definition risk_level (max_damage_overall : R) : string :=
  if Rlt_dec max_damage_overall 0.3 then "low"
  else if Rlt_dec max_damage_overall 0.6 then "moderate"
  else "high".

Definition get_frost_risk_level (records : list Enriched.t) : string :=
  risk_level (max_damage_overall records).

(** ** Instances of the builtins *)

Module Builtins.

Definition is_digit (c : ascii) : bool :=
  let n := nat_of_ascii c in (48 <=? n)%nat && (n <=? 57)%nat.

Definition digit_val (c : ascii) : Z := Z.of_nat (nat_of_ascii c - 48).

Definition is_space (c : ascii) : bool :=
  let n := nat_of_ascii c in
  (n =? 32)%nat || ((9 <=? n)%nat && (n <=? 13)%nat).

Fixpoint lstrip (cs : list ascii) : list ascii :=
  match cs with
  | c :: cs' => if is_space c then lstrip cs' else cs
  | [] => []
  end.

Definition strip (cs : list ascii) : list ascii :=
  rev (lstrip (rev (lstrip cs))).

(** The longest prefix of digits, as a number, with its length and the
    rest of the text. *)
Fixpoint digits (acc : Z) (len : nat) (cs : list ascii)
  : Z * nat * list ascii :=
  match cs with
  | c :: cs' =>
      if is_digit c then digits (acc * 10 + digit_val c)%Z (S len) cs'
      else (acc, len, cs)
  | [] => (acc, len, [])
  end.

Definition sign_of (cs : list ascii) : bool * list ascii :=
  match cs with
  | "-"%char :: cs' => (true, cs')
  | "+"%char :: cs' => (false, cs')
  | _ => (false, cs)
  end.

(** Optional exponent part: [None] when it is malformed. *)
Definition exponent (cs : list ascii) : option (Z * list ascii) :=
  match cs with
  | c :: cs' =>
      if (Ascii.eqb c "e" || Ascii.eqb c "E")%bool then
        let '(neg, cs1) := sign_of cs' in
        let '(e, len, cs2) := digits 0 0 cs1 in
        match len with
        | O => None
        | _ => Some (if (neg : bool) then (- e)%Z else e, cs2)
        end
      else Some (0%Z, cs)
  | [] => Some (0%Z, [])
  end.

(** Decimal literals: optional sign, digits with an optional fraction,
    optional exponent, blanks around.  [inf], [nan] and digit groups
    with [_] are not covered and count as malformed here.  The parts
    are the sign, the digits read as one integer and the power of ten
    that scales it. *)
Definition decimal_parts (s : string) : option (bool * Z * Z) :=
  let cs := strip (list_ascii_of_string s) in
  let '(neg, cs1) := sign_of cs in
  let '(ip, ilen, cs2) := digits 0 0 cs1 in
  let '(m, flen, cs3) :=
    match cs2 with
    | "."%char :: cs2' => digits ip 0 cs2'
    | _ => (ip, O, cs2)
    end in
  match (ilen + flen)%nat with
  | O => None
  | _ =>
      match exponent cs3 with
      | Some (e, []) => Some (neg, m, (e - Z.of_nat flen)%Z)
      | _ => None
      end
  end.

Definition real_of_parts (p : bool * Z * Z) : R :=
  let '(neg, m, e) := p in
  let v := if (0 <=? e)%Z then IZR (m * 10 ^ e) else IZR m / IZR (10 ^ (- e)) in
  if (neg : bool) then - v else v.

Definition parse_decimal (s : string) : option R :=
  option_map real_of_parts (decimal_parts s).

Definition py_float (v : json) : result R :=
  match v with
  | JStr s =>
      match parse_decimal s with
      | Some x => Ok x
      | None => Raise ValueError
      end
  | JInt n =>
      if (2 ^ 1024 - 2 ^ 970 <=? Z.abs n)%Z then Raise OverflowError
      else Ok (IZR n)
  | JFloat x => Ok x
  | JBool b => Ok (if b then 1 else 0)
  | JNull | JList _ | JDict _ => Raise TypeError
  end.

(** [str(v)].  The text of a float, a list or a dict is not computed:
    the normaliser only parses the result as a date or an hour, which
    fails for these as it does for the placeholders. *)
Definition py_str (v : json) : string :=
  match v with
  | JStr s => s
  | JInt n => NilZero.string_of_int (Z.to_int n)
  | JBool true => "True"
  | JBool false => "False"
  | JNull => "None"
  | JFloat _ => "<float>"
  | JList _ => "[...]"
  | JDict _ => "{...}"
  end.

(** A fixed-width field of digits. *)
Definition field (s : string) (start len : nat) : option Z :=
  let cs := list_ascii_of_string (substring start len s) in
  if (length cs =? len)%nat && forallb is_digit cs
  then Some (fst (fst (digits 0 0 cs)))
  else None.

Definition char_at (s : string) (i : nat) : option ascii := String.get i s.

Definition is_char (o : option ascii) (c : ascii) : bool :=
  match o with Some c' => Ascii.eqb c' c | None => false end.

(** [YYYY-MM-DD], then optionally one separator character and [HH],
    [HH:MM] or [HH:MM:SS].  Fractions of a second and UTC offsets are
    not covered and count as malformed here. *)
Definition py_fromisoformat (s : string) : option datetime.t :=
  match field s 0 4, field s 5 2, field s 8 2 with
  | Some y, Some m, Some d =>
      if (is_char (char_at s 4) "-" && is_char (char_at s 7) "-"
          && (1 <=? y)%Z && (1 <=? m)%Z && (m <=? 12)%Z
          && (1 <=? d)%Z && (d <=? datetime.days_in_month y m)%Z)%bool
      then
        let n := String.length s in
        if (n =? 10)%nat then Some (datetime.mk y m d 0 0 0)
        else
          let hh := field s 11 2 in
          let mm := if (n =? 13)%nat then Some 0%Z else field s 14 2 in
          let ss := if (n <=? 16)%nat then Some 0%Z else field s 17 2 in
          let shape :=
            ((n =? 13)%nat
             || ((n =? 16)%nat && is_char (char_at s 13) ":")
             || ((n =? 19)%nat && is_char (char_at s 13) ":"
                 && is_char (char_at s 16) ":"))%bool in
          match hh, mm, ss with
          | Some h, Some mi, Some se =>
              if (shape && (h <? 24)%Z && (mi <? 60)%Z && (se <? 60)%Z)%bool
              then Some (datetime.mk y m d h mi se)
              else None
          | _, _, _ => None
          end
      else None
  | _, _, _ => None
  end.

End Builtins.

(** ** Data used by the closed statements below *)

Local Open Scope string_scope.

(** A stage of the almond table. *)
Definition configured (stage : string) : Prop :=
  In stage (stage_names ALMOND_LT_CONFIG).

Definition hourly_record (station date hour : string) (fields : dict) : json :=
  JDict (("Station", JStr station) :: ("Date", JStr date)
         :: ("Hour", JStr hour) :: fields).

Definition cimis_value (value unit : string) : json :=
  JDict [("Value", JStr value); ("Qc", JStr "V"); ("Unit", JStr unit)].

(** The payload shape built by [get_cimis_data]: one provider. *)
Definition document (records : list json) : json :=
  JDict [("Data", JDict [("Providers", JList [
    JDict [("Name", JStr "local-db"); ("Type", JStr "station");
           ("Owner", JStr "frostbyte"); ("Records", JList records)]])])].

Definition one_record_document : json :=
  document [hourly_record "12" "2024-01-01" "0300"
              [("HlyAirTmp", cimis_value "5.00" "(C)");
               ("HlyRelHum", cimis_value "80" "(%)")]].

(** Two observations of station 12 for the same hour. *)
Definition same_hour_document : json :=
  document [hourly_record "12" "2024-01-01" "0300"
              [("HlyAirTmp", cimis_value "10.0" "(C)")];
            hourly_record "12" "2024-01-01" "0300"
              [("HlyAirTmp", cimis_value "8.0" "(C)")]].

Definition row_at_3 (air : R) : Row.t :=
  Row.mk (JStr "12") (JStr "2024-01-01") "03" (datetime.mk 2024 1 1 3 0 0)
         (Some air) None.

Definition state_after_10 : pass_state :=
  mkState [(JStr "12", Some 10.0%R)] [(JStr "12", datetime.mk 2024 1 1 3 0 0)].

(** The primary key holds an empty value, the fallback key a number. *)
Definition rec_empty_then_value : dict :=
  [ ("HlyAirTmp", JDict [("Value", JStr ""); ("Qc", JStr "M")]);
    ("hly-air-tmp", JDict [("Value", JStr "12.3"); ("Qc", JStr "V")]) ].

(** ** The database read ([server/app/CIMIS.py]) *)

Import Builtins.

(** Calendar dates ([datetime.date]). *)
Module pydate.

Record t : Set := mk { year : Z; month : Z; day : Z }.

Definition isoformat (d : t) : string :=
  datetime.pad 4 (year d) ++ "-" ++ datetime.pad 2 (month d) ++ "-"
  ++ datetime.pad 2 (day d).

(** [datetime.date()] *)
Definition of_datetime (d : datetime.t) : t :=
  mk (datetime.year d) (datetime.month d) (datetime.day d).

(** A date object always denotes a day of the calendar. *)
Definition valid (d : t) : Prop :=
  (1 <= year d <= 9999 /\ 1 <= month d <= 12 /\
   1 <= day d <= datetime.days_in_month (year d) (month d))%Z.

End pydate.

(** The columns of a [CimisHourly] row that [get_cimis_data] reads.
    [station_id] is a [String] column, [hour] and [humidity] are
    [Integer] columns, so [str(r.station_id)], [int(r.hour)] and
    [int(r.humidity)] return their argument. *)
Module CimisHourly.

Record t : Type := mk {
  station_id : string;
  date : pydate.t;
  hour : option Z;
  air_temp : option R;
  humidity : option Z
}.

End CimisHourly.

(** A session answers the one query of [get_cimis_data]: the rows of the
    given stations between two dates.  Nothing is assumed about which
    rows it returns or in which order. *)
Definition Session : Type :=
  list string -> pydate.t -> pydate.t -> list CimisHourly.t.

(** A date argument: text or a date object. *)
Inductive date_arg : Type :=
| DateStr (s : string)
| DateObj (d : pydate.t).

(** ["%02d"]: two digits at least, the sign counted in the width. *)
Definition format_02d (n : Z) : string :=
  if (n <? 0)%Z then "-" ++ datetime.pad 1 (- n) else datetime.pad 2 n.

Section Database.

Variable float_of : json -> result R.
Variable str_of : json -> string.
Variable fromisoformat : string -> option datetime.t.
(** [f"{x:.2f}"] *)
Variable format_2f : R -> string.

Definition _normalize_station_list (stations : json) : list string :=
  match stations with
  | JList l => map str_of l
  | _ => [str_of stations]
  end.

Definition _parse_iso_date (d : date_arg) : result pydate.t :=
  match d with
  | DateObj d' => Ok d'
  | DateStr s =>
      match fromisoformat s with
      | Some dt => Ok (pydate.of_datetime dt)
      | None => Raise ValueError
      end
  end.

(** The record built for one row: the items the row has are added after
    the three identifying entries. *)
Definition hourly_rec (r : CimisHourly.t) (h : Z) : json :=
  let rec0 := [("Station", JStr (CimisHourly.station_id r));
               ("Date", JStr (pydate.isoformat (CimisHourly.date r)));
               ("Hour", JStr (format_02d h ++ "00"))] in
  let rec1 :=
    match CimisHourly.air_temp r with
    | Some x => (rec0 ++ [("HlyAirTmp",
                           JDict [("Value", JStr (format_2f x));
                                  ("Qc", JStr "V"); ("Unit", JStr "(C)")])])%list
    | None => rec0
    end in
  let rec2 :=
    match CimisHourly.humidity r with
    | Some n => (rec1 ++ [("HlyRelHum",
                           JDict [("Value",
                                   JStr (NilZero.string_of_int (Z.to_int n)));
                                  ("Qc", JStr "V"); ("Unit", JStr "(%)")])])%list
    | None => rec1
    end in
  JDict rec2.

(** [for r in rows]: a row without hour is skipped. *)
Fixpoint hourly_records (rows : list CimisHourly.t) : list json :=
  match rows with
  | [] => []
  | r :: rows' =>
      match CimisHourly.hour r with
      | None => hourly_records rows'
      | Some h => hourly_rec r h :: hourly_records rows'
      end
  end.

(** [data_items] and [unit] are not read by the function. *)
Definition get_cimis_data (db : option Session) (stations : json)
  (start_date end_date : date_arg) (scope : string) : result json :=
  match db with
  | None => Raise ValueError
  | Some query =>
      if negb ((scope =? "hourly") || (scope =? "both"))
      then Raise ValueError
      else
        let station_ids := _normalize_station_list stations in
        start <- _parse_iso_date start_date ;;
        end_ <- _parse_iso_date end_date ;;
        let rows := query station_ids start end_ in
        Ok (document (hourly_records rows))
  end.

(** [compute_frost_risk_from_cimis] together with its database read. *)
Definition compute_frost_risk_from_db (db : option Session) (stations : json)
  (start_date end_date : date_arg) (delta_orchard_c : R)
  : result (list Enriched.t) :=
  raw_json <- get_cimis_data db stations start_date end_date "hourly" ;;
  compute_frost_risk_from_cimis float_of str_of fromisoformat raw_json
    delta_orchard_c.

End Database.

(** ** The endpoint ([get_frost_risk] in [server/app/main.py]) *)

(** The response models of [server/app/schemas.py].  Their fields are
    built from values of the declared types, so the validation of the
    models is not part of the embedding. *)
Record CropStage : Type := mkCropStage {
  probability : R;
  frostProbabilityIndex : R;
  lt10 : R;
  lt90 : R;
  parameterA : R;
  parameterB : R
}.

Record Crop : Type := mkCrop {
  name : string;
  variety : string;
  crop_stages : list (string * CropStage) (* the [stages] dict, in order *)
}.

Record CimisData : Type := mkCimisData {
  stationId : string;
  stationName : string;
  cimis_date : pydate.t;
  airTempMin : R;
  airTempMax : R;
  dewPointMin : R;
  dewPointMax : R;
  humidityMin : Z;
  humidityMax : Z;
  windSpeedAvg : R;
  et0 : R;
  raw : list Enriched.t (* the value of the one key ["records"] *)
}.

Record FeatureProperties : Type := mkFeatureProperties {
  temp : R;
  riskLevel : string;
  location : string;
  crop : Crop;
  cimis : CimisData
}.

Record PointGeometry : Type := mkPointGeometry {
  geometry_type : string;
  coordinates : R * R
}.

Record FrostRiskFeature : Type := mkFrostRiskFeature {
  feature_type : string;
  properties : FeatureProperties;
  geometry : PointGeometry
}.

(** What a request ends in: the response, an [HTTPException], or another
    exception that leaves the handler. *)
Inductive outcome (A : Type) : Type :=
| Returned (a : A)
| HTTPException (status_code : Z) (detail : string)
| Uncaught (e : exn).

Arguments Returned {A} a.
Arguments HTTPException {A} status_code detail.
Arguments Uncaught {A} e.

Definition upper_ascii (c : ascii) : ascii :=
  let n := nat_of_ascii c in
  if (97 <=? n)%nat && (n <=? 122)%nat then ascii_of_nat (n - 32) else c.

(** [str.capitalize()] on ASCII text. *)
Definition capitalize (s : string) : string :=
  match s with
  | EmptyString => EmptyString
  | String c s' => String (upper_ascii c) (lower s')
  end.

(** [min(a, b)]: the second argument only when it is smaller. *)
Definition py_min (a b : R) : R := if Rlt_dec b a then b else a.

(** [min(l) if l else default] and [max(l) if l else default]. *)
Definition min_or (default : R) (l : list R) : R :=
  match l with
  | [] => default
  | x :: l' => fold_left py_min l' x
  end.

Definition max_or (default : R) (l : list R) : R :=
  match l with
  | [] => default
  | x :: l' => fold_left py_max l' x
  end.

(** [int(x)] on a float: truncation towards zero. *)
Definition py_int (x : R) : Z :=
  if Rle_dec 0 x then Int_part x else (- Int_part (- x))%Z.

(** [[v for v in l if v is not None]] *)
Definition present (l : list (option R)) : list R :=
  flat_map (fun o => match o with Some x => [x] | None => [] end) l.

(** The loop over the stage table: the running overall maximum and the
    entries of [crop_stages].  The display names of the configured
    stages differ, so no entry of the dict is overwritten. *)
Fixpoint aggregate_stages (records : list Enriched.t)
  (cfg : list (string * StageLT)) (max_damage_overall : R)
  : result (R * list (string * CropStage)) :=
  match cfg with
  | [] => Ok (max_damage_overall, [])
  | (stage_name, stage_lt) :: cfg' =>
      let p := stage_max records stage_name in
      let max_damage_overall := py_max max_damage_overall p in
      ab <- get_damage_parameters stage_name ;;
      let display_name := capitalize stage_name in
      rest <- aggregate_stages records cfg' max_damage_overall ;;
      Ok (fst rest,
          (display_name,
           mkCropStage p p (lt10_c stage_lt) (lt90_c stage_lt) (fst ab) (snd ab))
          :: snd rest)
  end.

(** [station_id or "145"] *)
Definition requested_station (station_id : option string) : string :=
  match station_id with
  | Some s => if s =? "" then "145" else s
  | None => "145"
  end.

Section Endpoint.

Variable float_of : json -> result R.
Variable str_of : json -> string.
Variable fromisoformat : string -> option datetime.t.
Variable format_2f : R -> string.

(** [db] comes from [Depends(get_db)] and is never [None]. *)
Definition get_frost_risk (lat lon : R) (date_param : pydate.t)
  (crop variety : string) (station_id : option string) (db : Session)
  : outcome FrostRiskFeature :=
  if negb (lower crop =? "almond")
  then HTTPException 400 "Only 'almond' crop is supported right now."
  else
    let station := requested_station station_id in
    match compute_frost_risk_from_db float_of str_of fromisoformat format_2f
            (Some db) (JList [JStr station])
            (DateStr (pydate.isoformat date_param))
            (DateStr (pydate.isoformat date_param)) 1.0 with
    | Raise e => Uncaught e
    | Ok [] =>
        HTTPException 404 "No CIMIS data found for requested station/date."
    | Ok records =>
        let records :=
          filter (fun r => str_of (Enriched.station r) =? str_of (JStr station))
                 records in
        match records with
        | [] => HTTPException 404 "No records for requested station."
        | _ =>
            let temps := present (map Enriched.air_temperature_c records) in
            let rhs := present (map Enriched.relative_humidity records) in
            let dew_points := present (map Enriched.dew_point_c records) in
            let air_min := min_or 0.0 temps in
            let air_max := max_or 0.0 temps in
            let hum_min := match rhs with [] => 0%Z | _ => py_int (min_or 0 rhs) end in
            let hum_max := match rhs with [] => 0%Z | _ => py_int (max_or 0 rhs) end in
            let dew_min := min_or 0.0 dew_points in
            let dew_max := max_or 0.0 dew_points in
            match aggregate_stages records (stages ALMOND_LT_CONFIG) 0.0 with
            | Raise e => Uncaught e
            | Ok (max_damage_overall, crop_stages) =>
                let cimis_data :=
                  mkCimisData (str_of (JStr station))
                    ("CIMIS Station " ++ str_of (JStr station)) date_param
                    air_min air_max dew_min dew_max hum_min hum_max
                    0.0 0.0 records in
                let crop_obj := mkCrop crop variety crop_stages in
                let props :=
                  mkFeatureProperties air_min (risk_level max_damage_overall)
                    "Unknown" crop_obj cimis_data in
                let geometry := mkPointGeometry "Point" (lon, lat) in
                Returned (mkFrostRiskFeature "Feature" props geometry)
            end
        end
    end.

End Endpoint.

(** ** Predicates of the statements below *)

(** A key that the extraction passes over: absent, not a dict, or with a
    value that [float] rejects with ValueError or TypeError. *)
Definition skipped_key (float_of : json -> result R) (rec : dict) (key : string)
  : Prop :=
  (forall obj, dict_get rec key <> Some (JDict obj)) \/
  (exists obj v,
     dict_get rec key = Some (JDict obj) /\
     dict_get obj "Value" = Some v /\ v <> JNull /\ v <> JStr "" /\
     (float_of v = Raise ValueError \/ float_of v = Raise TypeError)).

(** A key whose dict holds the number [x]. *)
Definition holds_number (float_of : json -> result R) (rec : dict)
  (key : string) (x : R) : Prop :=
  exists obj v,
    dict_get rec key = Some (JDict obj) /\
    dict_get obj "Value" = Some v /\ v <> JNull /\ v <> JStr "" /\
    float_of v = Ok x.

(** [a] may stand before [b] in the sorted output: the sort key of [b] is
    not smaller than the one of [a]. *)
Definition key_le (a b : Row.t) : Prop := sort_key_ltb b a = Ok false.

Definition string_station (r : Row.t) : Prop :=
  exists s, Row.station r = JStr s.

Definition string_key_le (a b : Row.t) : Prop :=
  string_station a /\ string_station b /\ key_le a b.

(** The fields of a row agree: the timestamp is the one parsed from the
    date and the normalised hour. *)
Definition consistent_row (str_of : json -> string)
  (fromisoformat : string -> option datetime.t) (r : Row.t) : Prop :=
  Row.date r <> JNull /\
  (2 <= String.length (Row.hour r))%nat /\
  fromisoformat (str_of (Row.date r) ++ " " ++ Row.hour r ++ ":00")
    = Some (Row.timestamp r).

(** A [datetime] object: a day of the calendar and a time of the day. *)
Definition valid_datetime (d : datetime.t) : Prop :=
  (1 <= datetime.month d <= 12 /\
   1 <= datetime.day d
     <= datetime.days_in_month (datetime.year d) (datetime.month d) /\
   0 <= datetime.hour d < 24 /\ 0 <= datetime.minute d < 60 /\
   0 <= datetime.second d < 60)%Z.

(** A row whose observations, when both are present, are in the range of
    a weather station: a temperature between -100 and 100 degrees and a
    humidity in percent that is 0 or at least 0.001. *)
Definition physical_row (r : Row.t) : Prop :=
  string_station r /\
  match Row.air_temp_c r, Row.rel_hum r with
  | Some a, Some h => -100 <= a <= 100 /\ (h = 0 \/ 0.001 <= h <= 100)
  | _, _ => True
  end.

(** The observation fields of an enriched record are those of its row. *)
Definition carries_row (r : Row.t) (o : Enriched.t) : Prop :=
  Enriched.station o = Row.station r /\
  Enriched.timestamp o = datetime.isoformat (Row.timestamp r) /\
  Enriched.air_temperature_c o = Row.air_temp_c r /\
  Enriched.relative_humidity o = Row.rel_hum r.

(** The derived fields of an enriched record: all present, computed from
    the two observations, or all absent.  The probability of a stage is
    the value of the damage curve at the blossom temperature; it is
    positive and at most 1 (the real value is below 1, the float can be
    exactly 1.0). *)
Definition derived_fields (delta_orchard_c : R) (o : Enriched.t) : Prop :=
  match Enriched.air_temperature_c o, Enriched.relative_humidity o with
  | Some a, Some h =>
      exists wb bt td,
        wet_bulb_temperature a h = Ok wb /\
        blossom_temp a h delta_orchard_c = Ok bt /\
        dew_point_temperature a h = Ok td /\
        Enriched.wet_bulb_c o = Some wb /\
        Enriched.blossom_temp_c o = Some bt /\
        Enriched.dew_point_c o = Some td /\
        map fst (Enriched.stages o) = stage_names ALMOND_LT_CONFIG /\
        Forall (fun e =>
                  estimate_damage_at_temperature bt (fst e)
                    = Ok (damage_prob (snd e)) /\
                  0 < damage_prob (snd e) <= 1) (Enriched.stages o)
  | _, _ =>
      Enriched.wet_bulb_c o = None /\
      Enriched.blossom_temp_c o = None /\
      Enriched.dew_point_c o = None /\
      Enriched.stages o = []
  end.

(** The latest of the rows seen so far that belongs to a station. *)
Definition previous_of (station : json) (seen : list Row.t) : option Row.t :=
  find (fun x => py_eqb (Row.station x) station) (rev seen).

(** The hours between a row and the one before it, with the default of
    one hour when no time has passed. *)
Definition elapsed_hours (prev r : Row.t) : R :=
  let dt := IZR (datetime.total_seconds_between (Row.timestamp r)
                   (Row.timestamp prev)) / 3600.0 in
  if Rlt_dec 0 dt then dt else 1.0.

(** The cooling rate of a row, given the previous row of its station. *)
Definition cooling_rate_after (prev : option Row.t) (r : Row.t) : R :=
  match prev with
  | Some x =>
      match Row.air_temp_c x, Row.air_temp_c r with
      | Some p, Some a => (p - a) / elapsed_hours x r
      | _, _ => 0.0
      end
  | None => 0.0
  end.

(** The state holds, for each station, the observation of its latest row. *)
Definition tracks (st : pass_state) (seen : list Row.t) : Prop :=
  Forall (fun e => exists s, fst e = JStr s) (prev_temp st) /\
  Forall (fun e => exists s, fst e = JStr s) (prev_time st) /\
  forall s,
    pd_get (prev_temp st) (JStr s)
      = option_map Row.air_temp_c (previous_of (JStr s) seen) /\
    pd_get (prev_time st) (JStr s)
      = option_map Row.timestamp (previous_of (JStr s) seen).

(** The damage probabilities that the records hold for configured stages. *)
Definition observed_prob (records : list Enriched.t) (p : R) : Prop :=
  exists stage_name, In stage_name (stage_names ALMOND_LT_CONFIG) /\
                     In p (stage_probs records stage_name).

(** [s] is a field of [len] digits that reads [v]. *)
Definition field_is (s : string) (len : nat) (v : Z) : bool :=
  (String.length s =? len)%nat &&
  match field s 0 len with Some v' => (v' =? v)%Z | None => false end.

(** The provider of the payload of [get_cimis_data]. *)
Definition local_provider (records : list json) : json :=
  JDict [("Name", JStr "local-db"); ("Type", JStr "station");
         ("Owner", JStr "frostbyte"); ("Records", JList records)].

(** What the normaliser reads from the text of a stored value. *)
Definition read_back (o : option string) : option R :=
  match o with
  | Some s => if s =? "" then None else parse_decimal s
  | None => None
  end.

(** The timestamp of a stored row. *)
Definition stored_timestamp (r : CimisHourly.t) (h : Z) : datetime.t :=
  datetime.mk (pydate.year (CimisHourly.date r))
              (pydate.month (CimisHourly.date r))
              (pydate.day (CimisHourly.date r)) h 0 0.

(** A stored row as the table holds it: a calendar date, a station name
    and an hour, when there is one, of at most two digits. *)
Definition storable (r : CimisHourly.t) : Prop :=
  pydate.valid (CimisHourly.date r) /\
  CimisHourly.station_id r <> "" /\
  forall h, CimisHourly.hour r = Some h -> (0 <= h <= 99)%Z.

(** Station and timestamp of the stored rows whose hour is a clock hour. *)
Fixpoint clock_hour_keys (rows : list CimisHourly.t)
  : list (json * datetime.t) :=
  match rows with
  | [] => []
  | r :: rows' =>
      match CimisHourly.hour r with
      | Some h =>
          if (h <=? 23)%Z
          then (JStr (CimisHourly.station_id r), stored_timestamp r h)
               :: clock_hour_keys rows'
          else clock_hour_keys rows'
      | None => clock_hour_keys rows'
      end
  end.

Definition row_key (row : Row.t) : json * datetime.t :=
  (Row.station row, Row.timestamp row).

(** ** More data for closed statements *)

(** Two hours of station 12, the later one first. *)
Definition unordered_document : json :=
  document [hourly_record "12" "2024-01-01" "0400"
              [("HlyAirTmp", cimis_value "4.00" "(C)");
               ("HlyRelHum", cimis_value "85" "(%)")];
            hourly_record "12" "2024-01-01" "0300"
              [("HlyAirTmp", cimis_value "5.00" "(C)");
               ("HlyRelHum", cimis_value "80" "(%)")]].

Definition observation (hour : string) (h : Z) (air hum : R) : Row.t :=
  Row.mk (JStr "12") (JStr "2024-01-01") hour (datetime.mk 2024 1 1 h 0 0)
         (Some air) (Some hum).

(** The primary key holds text that is no number, the fallback key a
    number. *)
Definition rec_unparseable_then_value : dict :=
  [ ("HlyAirTmp", cimis_value "n/a" "(C)");
    ("hly-air-tmp", cimis_value "12.3" "(C)") ].

(** The value is an integer beyond the range of a double. *)
Definition rec_huge_value : dict :=
  [ ("HlyAirTmp", JDict [("Value", JInt (10 ^ 400))]) ].

(** A stored hour of station 145, and a store that holds it. *)
Definition stored_hour_3 : CimisHourly.t :=
  CimisHourly.mk "145" (pydate.mk 2024 1 1) (Some 3%Z) (Some 5.00) (Some 80%Z).

Definition one_hour_db : Session := fun _ _ _ => [stored_hour_3].

(** The text of the one stored temperature. *)
Definition format_5_00 (x : R) : string := "5.00".

(** A store whose only row has an hour that is no clock hour. *)
Definition hour_24_db : Session :=
  fun _ _ _ =>
    [CimisHourly.mk "145" (pydate.mk 2024 1 1) (Some 24%Z) None (Some 80%Z)].

(** * Properties *)

Local Open Scope R_scope.

Ltac is_configured := unfold configured; simpl; tauto.

(** ** The exception monad *)

Lemma bind_ok {A B : Type} (m : result A) (k : A -> result B) (b : B) :
  bind m k = Ok b -> exists a, m = Ok a /\ k a = Ok b.
Proof.
  destruct m as [a|e]; simpl; [eauto | discriminate].
Qed.

(** ** Range of the exponential *)

Lemma exp_INR (n : nat) : exp (INR n) = exp 1 ^ n.
Proof.
  induction n as [|n IH].
  - simpl. apply exp_0.
  - rewrite S_INR, exp_plus, IH. simpl. ring.
Qed.

Lemma exp_1_gt_2 : 2 < exp 1.
Proof. pose proof (exp_ineq1 1). lra. Qed.

Lemma exp_nat_lower (n : nat) : 2 ^ n <= exp (INR n).
Proof.
  rewrite exp_INR. apply pow_incr. pose proof exp_1_gt_2. lra.
Qed.

Lemma exp_nat_upper (n : nat) : exp (INR n) <= 3 ^ n.
Proof.
  rewrite exp_INR. apply pow_incr. split.
  - left. apply exp_pos.
  - apply exp_le_3.
Qed.

(** [e^645 < 3^645 < 2^1023]: arguments up to 645 are safe. *)
Lemma exp_below_overflow (x : R) : x <= 645 -> exp x < DBL_OVERFLOW.
Proof.
  intros Hx.
  apply Rle_lt_trans with (exp (INR 645)).
  - destruct Hx as [Hx | ->].
    + left. apply exp_increasing. rewrite INR_IZR_INZ. exact Hx.
    + right. f_equal. rewrite INR_IZR_INZ. reflexivity.
  - apply Rle_lt_trans with (3 ^ 645); [apply exp_nat_upper|].
    unfold DBL_OVERFLOW. rewrite pow_IZR. apply IZR_lt. vm_compute. reflexivity.
Qed.

(** [e^1024 > 2^1024]: arguments from 1024 on overflow. *)
Lemma exp_above_overflow (x : R) : 1024 <= x -> DBL_OVERFLOW <= exp x.
Proof.
  intros Hx.
  apply Rle_trans with (exp (INR 1024)).
  - apply Rle_trans with (2 ^ 1024); [|apply exp_nat_lower].
    unfold DBL_OVERFLOW. rewrite pow_IZR. apply IZR_le. vm_compute. discriminate.
  - destruct Hx as [Hx | <-].
    + left. apply exp_increasing. rewrite INR_IZR_INZ. exact Hx.
    + right. f_equal. rewrite INR_IZR_INZ. reflexivity.
Qed.

Lemma overflow_above_1000 : 1000 < DBL_OVERFLOW.
Proof. unfold DBL_OVERFLOW. apply IZR_lt. vm_compute. reflexivity. Qed.

(** ** The raising float operations *)

Lemma math_exp_ok (x : R) : exp x < DBL_OVERFLOW -> math_exp x = Ok (exp x).
Proof.
  intros H. unfold math_exp.
  destruct (Rle_dec DBL_OVERFLOW (exp x)); [lra | reflexivity].
Qed.

Lemma math_exp_overflow (x : R) :
  DBL_OVERFLOW <= exp x -> math_exp x = Raise OverflowError.
Proof.
  intros H. unfold math_exp.
  destruct (Rle_dec DBL_OVERFLOW (exp x)); [reflexivity | lra].
Qed.

Lemma truediv_ok (x y : R) : y <> 0 -> truediv x y = Ok (x / y).
Proof.
  intros H. unfold truediv.
  destruct (Req_dec_T y 0); [contradiction | reflexivity].
Qed.

Lemma truediv_zero (x : R) : truediv x 0 = Raise ZeroDivisionError.
Proof.
  unfold truediv. destruct (Req_dec_T 0 0); [reflexivity | congruence].
Qed.

Lemma math_sqrt_ok (x : R) : 0 <= x -> math_sqrt x = Ok (sqrt x).
Proof.
  intros H. unfold math_sqrt. destruct (Rlt_dec x 0); [lra | reflexivity].
Qed.

Lemma math_sqrt_negative (x : R) : x < 0 -> math_sqrt x = Raise ValueError.
Proof.
  intros H. unfold math_sqrt. destruct (Rlt_dec x 0); [reflexivity | lra].
Qed.

Lemma math_log_ok (x : R) : 0 < x -> math_log x = Ok (ln x).
Proof.
  intros H. unfold math_log. destruct (Rle_dec x 0); [lra | reflexivity].
Qed.

Lemma pow_1_5_ok (x : R) : 0 <= x <= 100 -> pow_1_5 x = Ok (x * sqrt x).
Proof.
  intros [H0 H1]. unfold pow_1_5.
  destruct (Rlt_dec x 0); [lra|].
  destruct (Rle_dec DBL_OVERFLOW (x * sqrt x)) as [Hov|]; [|reflexivity].
  exfalso.
  assert (Hs : sqrt x <= 10).
  { replace 10 with (sqrt (10 * 10)) by (apply sqrt_square; lra).
    apply sqrt_le_1; lra. }
  pose proof (sqrt_pos x). pose proof overflow_above_1000. nra.
Qed.

(** On positive bases the model of [x ** 1.5] is the real power. *)
Lemma pow_1_5_is_Rpower (x : R) : 0 < x -> x * sqrt x = Rpower x 1.5.
Proof.
  intros Hx. replace 1.5 with (1 + / 2) by lra.
  rewrite Rpower_plus, Rpower_1, Rpower_sqrt by exact Hx. reflexivity.
Qed.

(** ** Stage lookup *)

Lemma lower_ascii_idempotent (c : ascii) :
  lower_ascii (lower_ascii c) = lower_ascii c.
Proof.
  destruct c as [[] [] [] [] [] [] [] []]; reflexivity.
Qed.

Lemma lower_idempotent (s : string) : lower (lower s) = lower s.
Proof.
  induction s as [|c s IH]; simpl; [reflexivity|].
  rewrite lower_ascii_idempotent, IH. reflexivity.
Qed.

Lemma get_damage_parameters_lower (stage : string) :
  get_damage_parameters stage = get_damage_parameters (lower stage).
Proof.
  unfold get_damage_parameters. rewrite lower_idempotent. reflexivity.
Qed.

Lemma get_damage_parameters_cases (stage : string) :
  (In (lower stage) (stage_names ALMOND_LT_CONFIG) /\
   exists a b, get_damage_parameters stage = Ok (a, b)) \/
  (~ In (lower stage) (stage_names ALMOND_LT_CONFIG) /\
   get_damage_parameters stage = Raise ValueError).
Proof.
  unfold get_damage_parameters. simpl.
  repeat match goal with
  | |- context [String.eqb (lower stage) ?n] =>
      destruct (String.eqb_spec (lower stage) n) as [-> | ?]
  end;
  try (left; split; [simpl; tauto | eexists; eexists; reflexivity]).
  right. split; [|reflexivity]. intuition congruence.
Qed.

Lemma configured_parameters (stage : string) :
  configured stage ->
  exists a b,
    get_damage_parameters stage = Ok (a, b) /\ 6 <= a <= 10 /\ 1.1 <= b <= 1.5.
Proof.
  unfold configured. simpl.
  intros [<- | [<- | [<- | [<- | [<- | []]]]]];
    eexists; eexists; (split; [reflexivity | lra]).
Qed.

(** ** The logistic curve *)

Lemma damage_curve_value (stage : string) (a b t : R) :
  get_damage_parameters stage = Ok (a, b) ->
  exp (- (a + b * t)) < DBL_OVERFLOW ->
  damage_curve t stage = Ok (1 / (1 + exp (- (a + b * t)))).
Proof.
  intros Hp Hov. unfold damage_curve. rewrite Hp. simpl.
  rewrite (math_exp_ok _ Hov). simpl.
  pose proof (exp_pos (- (a + b * t))).
  rewrite truediv_ok by lra. f_equal. f_equal; lra.
Qed.

Lemma damage_curve_raises (stage : string) (a b t : R) :
  get_damage_parameters stage = Ok (a, b) ->
  DBL_OVERFLOW <= exp (- (a + b * t)) ->
  damage_curve t stage = Raise OverflowError.
Proof.
  intros Hp Hov. unfold damage_curve. rewrite Hp. simpl.
  rewrite (math_exp_overflow _ Hov). reflexivity.
Qed.

Lemma logistic_open_unit (e : R) : 0 < e -> 0 < 1 / (1 + e) < 1.
Proof.
  intros He. split.
  - apply Rdiv_lt_0_compat; lra.
  - apply Rmult_lt_reg_r with (1 + e); [lra|]. field_simplify; lra.
Qed.

Lemma logistic_decreasing (e1 e2 : R) :
  0 < e2 -> e2 < e1 -> 1 / (1 + e1) < 1 / (1 + e2).
Proof.
  intros H2 H12. unfold Rdiv. rewrite !Rmult_1_l.
  apply Rinv_lt_contravar; nra.
Qed.

(** Every temperature from -400 degrees on, which is below absolute zero,
    keeps the exponential in range for the five stages. *)
Lemma damage_curve_physical_range (stage : string) (t : R) :
  configured stage -> -400 <= t ->
  exists p, damage_curve t stage = Ok p /\ 0 < p < 1.
Proof.
  intros Hs Ht.
  destruct (configured_parameters stage Hs) as (a & b & Hp & Ha & Hb).
  eexists. split.
  - apply damage_curve_value; [eassumption|].
    apply exp_below_overflow. nra.
  - apply logistic_open_unit, exp_pos.
Qed.

(** C2 (as amended). For a configured stage with parameters [(a, b)] and a
    temperature [t] at which [math.exp(-(a + b*t))] stays in the double
    range, [damage_curve] returns a probability strictly between 0 and 1.
    The code has no guard: outside that range the call raises. *)
Theorem damage_curve_open_unit (stage : string) (a b t : R) :
  configured stage ->
  get_damage_parameters stage = Ok (a, b) ->
  exp (- (a + b * t)) < DBL_OVERFLOW ->
  exists p, damage_curve t stage = Ok p /\ 0 < p < 1.
Proof.
  intros _ Hp Hov. eexists. split.
  - apply damage_curve_value; eassumption.
  - apply logistic_open_unit, exp_pos.
Qed.

Lemma damage_curve_open_unit_witness :
  exists p, damage_curve 0 "pinkbud" = Ok p /\ 0 < p < 1.
Proof.
  apply (damage_curve_open_unit "pinkbud" 10.0 1.5 0).
  - is_configured.
  - reflexivity.
  - apply exp_below_overflow. lra.
Defined.

(** C2 (counterexample). At -1000 degrees the pinkbud exponent is 1490
    and [math.exp] raises OverflowError. *)
Lemma damage_curve_overflow :
  configured "pinkbud" /\
  damage_curve (-1000) "pinkbud" = Raise OverflowError.
Proof.
  split; [is_configured|].
  apply (damage_curve_raises "pinkbud" 10.0 1.5); [reflexivity|].
  apply exp_above_overflow. lra.
Qed.

(** C6 (as amended). For a configured stage and [t1 < t2], when the
    exponential at [t1] stays in the double range, both calls return and
    the probability at [t1] is strictly below the one at [t2]. *)
Theorem damage_curve_increasing (stage : string) (a b t1 t2 : R) :
  configured stage ->
  get_damage_parameters stage = Ok (a, b) ->
  exp (- (a + b * t1)) < DBL_OVERFLOW ->
  t1 < t2 ->
  exists p1 p2,
    damage_curve t1 stage = Ok p1 /\ damage_curve t2 stage = Ok p2 /\ p1 < p2.
Proof.
  intros Hs Hp Hov Hlt.
  destruct (configured_parameters stage Hs) as (a' & b' & Hp' & Ha & Hb).
  rewrite Hp in Hp'. injection Hp' as <- <-.
  assert (He : exp (- (a + b * t2)) < exp (- (a + b * t1))).
  { apply exp_increasing. nra. }
  exists (1 / (1 + exp (- (a + b * t1)))), (1 / (1 + exp (- (a + b * t2)))).
  repeat split.
  - apply damage_curve_value; assumption.
  - apply damage_curve_value; [assumption | lra].
  - apply logistic_decreasing; [apply exp_pos | exact He].
Qed.

Lemma damage_curve_increasing_witness :
  exists p1 p2,
    damage_curve (-2) "fullbloom" = Ok p1 /\
    damage_curve 1 "fullbloom" = Ok p2 /\ p1 < p2.
Proof.
  apply (damage_curve_increasing "fullbloom" 9.0 1.4 (-2) 1).
  - is_configured.
  - reflexivity.
  - apply exp_below_overflow. lra.
  - lra.
Defined.

(** C6 (counterexample). With [t1 = -1000 < t2 = 0] at pinkbud there is
    no pair of returned probabilities to compare: the first call raises. *)
Lemma damage_curve_not_comparable :
  configured "pinkbud" /\ -1000 < 0 /\
  ~ (exists p1 p2,
       damage_curve (-1000) "pinkbud" = Ok p1 /\
       damage_curve 0 "pinkbud" = Ok p2 /\ p1 < p2).
Proof.
  split; [is_configured|]. split; [lra|].
  intros (p1 & p2 & H1 & _).
  rewrite (damage_curve_raises "pinkbud" 10.0 1.5) in H1;
    [discriminate | reflexivity |].
  apply exp_above_overflow. lra.
Qed.

(** C8 (as amended). A stage name whose lower-cased form is none of the
    five configured names raises ValueError; each configured name gives
    its fixed pair. *)
Theorem get_damage_parameters_unknown_stage :
  (forall stage : string,
     ~ In (lower stage) (stage_names ALMOND_LT_CONFIG) ->
     get_damage_parameters stage = Raise ValueError) /\
  get_damage_parameters "pinkbud" = Ok (10.0, 1.5) /\
  get_damage_parameters "fullbloom" = Ok (9.0, 1.4) /\
  get_damage_parameters "petalfall" = Ok (8.0, 1.3) /\
  get_damage_parameters "fruitset" = Ok (7.0, 1.2) /\
  get_damage_parameters "smallnut" = Ok (6.0, 1.1).
Proof.
  split; [|repeat split].
  intros stage Hn.
  destruct (get_damage_parameters_cases stage) as [[Hin _] | [_ H]];
    [contradiction | exact H].
Qed.

Lemma get_damage_parameters_unknown_stage_witness :
  get_damage_parameters "dormant" = Raise ValueError.
Proof.
  apply (proj1 get_damage_parameters_unknown_stage "dormant"%string).
  simpl. intuition discriminate.
Defined.

(** C8 (counterexample). ["PINKBUD"] is not one of the five configured
    names, and the lookup returns the pinkbud pair for it. *)
Lemma get_damage_parameters_accepts_uppercase :
  ~ In "PINKBUD"%string (stage_names ALMOND_LT_CONFIG) /\
  get_damage_parameters "PINKBUD" = Ok (10.0, 1.5).
Proof.
  split; [simpl; intuition discriminate | reflexivity].
Qed.

(** C10. The lookup, and with it [damage_curve], sees a stage name only
    through its lower-cased form: a name whose lower-casing is configured
    succeeds with the pair of the lower-case name, and the lookup raises
    only when the lower-cased name is none of the five. *)
Theorem get_damage_parameters_case_insensitive (stage : string) :
  get_damage_parameters stage = get_damage_parameters (lower stage) /\
  (forall t, damage_curve t stage = damage_curve t (lower stage)) /\
  (In (lower stage) (stage_names ALMOND_LT_CONFIG) ->
   exists a b, get_damage_parameters stage = Ok (a, b)) /\
  (forall e, get_damage_parameters stage = Raise e ->
             ~ In (lower stage) (stage_names ALMOND_LT_CONFIG)) /\
  get_damage_parameters "Pinkbud" = get_damage_parameters "pinkbud" /\
  get_damage_parameters "FULLBLOOM" = get_damage_parameters "fullbloom".
Proof.
  split; [apply get_damage_parameters_lower|].
  split.
  { intros t. unfold damage_curve.
    rewrite <- get_damage_parameters_lower. reflexivity. }
  split; [|split; [|split; reflexivity]].
  - intros Hin.
    destruct (get_damage_parameters_cases stage) as [[_ H] | [Hn _]];
      [exact H | contradiction].
  - intros e He.
    destruct (get_damage_parameters_cases stage) as [[_ (a & b & H)] | [Hn _]];
      [rewrite H in He; discriminate | exact Hn].
Qed.

Lemma get_damage_parameters_case_insensitive_witness :
  exists a b, get_damage_parameters "PetalFall" = Ok (a, b).
Proof.
  apply (get_damage_parameters_case_insensitive "PetalFall"%string).
  simpl. tauto.
Defined.

(** ** Physical quantities *)

Lemma wet_bulb_defined (t rh : R) :
  0 <= rh <= 100 -> exists w, wet_bulb_temperature t rh = Ok w.
Proof.
  intros H. unfold wet_bulb_temperature.
  rewrite math_sqrt_ok by lra. simpl.
  rewrite pow_1_5_ok by exact H. simpl. eexists. reflexivity.
Qed.

Lemma wet_bulb_sqrt_domain (t rh : R) :
  rh < -8.313659 -> wet_bulb_temperature t rh = Raise ValueError.
Proof.
  intros H. unfold wet_bulb_temperature.
  rewrite math_sqrt_negative by lra. reflexivity.
Qed.

Lemma wet_bulb_complex (t rh : R) :
  -8.313659 <= rh < 0 -> wet_bulb_temperature t rh = Raise ComplexResult.
Proof.
  intros H. unfold wet_bulb_temperature.
  rewrite math_sqrt_ok by lra. simpl.
  unfold pow_1_5. destruct (Rlt_dec rh 0); [reflexivity | lra].
Qed.

Lemma dew_point_fallback (t rh : R) :
  rh <= 0 -> dew_point_temperature t rh = Ok t.
Proof.
  intros H. unfold dew_point_temperature.
  destruct (Rle_dec rh 0); [reflexivity | lra].
Qed.

Lemma dew_point_defined (t rh : R) :
  0 < rh <= 100 -> -237.7 < t ->
  exists td, dew_point_temperature t rh = Ok td.
Proof.
  intros [H0 H1] Ht. unfold dew_point_temperature.
  destruct (Rle_dec rh 0); [lra|].
  rewrite truediv_ok by lra. simpl.
  rewrite truediv_ok by lra. simpl.
  rewrite math_log_ok by (apply Rdiv_lt_0_compat; lra). simpl.
  assert (Hl : ln (rh / 100.0) <= 0).
  { assert (Hh : 0 < rh / 100.0 <= 1).
    { split; [apply Rdiv_lt_0_compat; lra|].
      apply Rmult_le_reg_r with 100.0; [lra|]. field_simplify; lra. }
    destruct Hh as [Hpos [Hlt | Heq]].
    - left. rewrite <- ln_1. apply ln_increasing; assumption.
    - right. rewrite Heq. apply ln_1. }
  assert (Hq : 17.27 * t / (237.7 + t) < 17.27).
  { apply Rmult_lt_reg_r with (237.7 + t); [lra|]. field_simplify; lra. }
  rewrite truediv_ok by lra. eexists. reflexivity.
Qed.

Lemma dew_point_pole (rh : R) :
  0 < rh -> dew_point_temperature (-237.7) rh = Raise ZeroDivisionError.
Proof.
  intros H. unfold dew_point_temperature.
  destruct (Rle_dec rh 0); [lra|].
  replace (237.7 + -237.7) with 0 by lra.
  rewrite truediv_zero. reflexivity.
Qed.

(** On the range of C3 the two quantities of [dew_point_temperature]
    that must not vanish stay away from 0: the argument of the logarithm
    is at least 0.00001 and the last divisor at least 3. *)
Lemma dew_point_margins (t rh : R) :
  0.001 <= rh <= 100 -> -237.7 < t <= 1000 ->
  0.00001 <= rh / 100.0 /\
  3 <= 17.27 - (17.27 * t / (237.7 + t) + ln (rh / 100.0)).
Proof.
  intros Hrh Ht.
  assert (Hq : 0.00001 <= rh / 100.0 <= 1).
  { split.
    - apply Rmult_le_reg_r with 100.0; [lra|].
      replace (rh / 100.0 * 100.0) with rh by (field; lra). lra.
    - apply Rmult_le_reg_r with 100.0; [lra|].
      replace (rh / 100.0 * 100.0) with rh by (field; lra). lra. }
  split; [apply Hq|].
  assert (Hl : ln (rh / 100.0) <= 0).
  { destruct Hq as [Hlow [Hlt | Heq]].
    - left. rewrite <- ln_1. apply ln_increasing; lra.
    - right. rewrite Heq. apply ln_1. }
  assert (Hd : 17.27 - 17.27 * t / (237.7 + t) = 17.27 * 237.7 / (237.7 + t))
    by (field; lra).
  assert (Hm : 3 <= 17.27 * 237.7 / (237.7 + t)).
  { apply Rmult_le_reg_r with (237.7 + t); [lra|].
    replace (17.27 * 237.7 / (237.7 + t) * (237.7 + t)) with (17.27 * 237.7)
      by (field; lra).
    lra. }
  lra.
Qed.

(** C3 (as amended). For a relative humidity between 0 and 100 the wet-bulb
    and blossom temperatures are defined for every air temperature and
    orchard offset; the dew point is defined when the humidity is not
    positive (the fallback), and when the humidity is between 0.001 and
    100 and the air temperature above -237.7 and at most 1000. *)
Theorem physical_quantities_defined_on_domain :
  (forall t rh d : R,
     0 <= rh <= 100 ->
     (exists w, wet_bulb_temperature t rh = Ok w) /\
     (exists bt, blossom_temp t rh d = Ok bt)) /\
  (forall t rh : R,
     rh <= 0 \/ (0.001 <= rh <= 100 /\ -237.7 < t <= 1000) ->
     exists td, dew_point_temperature t rh = Ok td).
Proof.
  split.
  - intros t rh d H. destruct (wet_bulb_defined t rh H) as [w Hw]. split.
    + exists w. exact Hw.
    + unfold blossom_temp. rewrite Hw. simpl. eexists. reflexivity.
  - intros t rh [H | [Hrh Ht]].
    + exists t. apply dew_point_fallback, H.
    + apply dew_point_defined; lra.
Qed.

Lemma physical_quantities_defined_witness :
  (exists w, wet_bulb_temperature 5 80 = Ok w) /\
  (exists bt, blossom_temp 5 80 1 = Ok bt) /\
  (exists td, dew_point_temperature 5 80 = Ok td).
Proof.
  destruct physical_quantities_defined_on_domain as [Hw Hd].
  destruct (Hw 5 80 1) as [H1 H2]; [lra|].
  repeat split; [exact H1 | exact H2 |].
  apply Hd. right. lra.
Defined.

(** C3 (counterexample). A humidity of -10 makes the square root of the
    wet-bulb formula raise ValueError, also through [blossom_temp]; an air
    temperature of -237.7 makes the Magnus quotient divide by zero. *)
Lemma physical_quantities_not_total :
  wet_bulb_temperature 20 (-10) = Raise ValueError /\
  blossom_temp 20 (-10) 1 = Raise ValueError /\
  dew_point_temperature (-237.7) 50 = Raise ZeroDivisionError.
Proof.
  assert (Hw : wet_bulb_temperature 20 (-10) = Raise ValueError)
    by (apply wet_bulb_sqrt_domain; lra).
  repeat split.
  - exact Hw.
  - unfold blossom_temp. rewrite Hw. reflexivity.
  - apply dew_point_pole. lra.
Qed.



(** ** Risk classification *)

Lemma risk_level_cases (p : R) :
  (p < 0.3 /\ risk_level p = "low"%string) \/
  (0.3 <= p < 0.6 /\ risk_level p = "moderate"%string) \/
  (0.6 <= p /\ risk_level p = "high"%string).
Proof.
  unfold risk_level.
  destruct (Rlt_dec p 0.3); [left; split; [lra | reflexivity]|].
  destruct (Rlt_dec p 0.6); [right; left; split; [lra | reflexivity]|].
  right; right; split; [lra | reflexivity].
Qed.

Ltac by_risk_case p :=
  destruct (risk_level_cases p) as [[? ?E] | [[? ?E] | [? ?E]]];
  try assumption; try lra; try congruence.

(** C5. The risk level of the overall maximum damage [p] is [low] exactly
    when [p < 0.3], [moderate] exactly when [0.3 <= p < 0.6] and [high]
    exactly when [0.6 <= p]; so 0.3 is moderate and 0.6 is high. *)
Theorem risk_level_thresholds (p : R) :
  (risk_level p = "low"%string <-> p < 0.3) /\
  (risk_level p = "moderate"%string <-> 0.3 <= p < 0.6) /\
  (risk_level p = "high"%string <-> 0.6 <= p) /\
  risk_level 0.3 = "moderate"%string /\
  risk_level 0.6 = "high"%string /\
  (forall records,
     get_frost_risk_level records = risk_level (max_damage_overall records)).
Proof.
  split; [split; intros H; by_risk_case p|].
  split; [split; intros H; by_risk_case p|].
  split; [split; intros H; by_risk_case p|].
  split; [by_risk_case 0.3|].
  split; [by_risk_case 0.6|].
  reflexivity.
Qed.

(** ** Numeric field extraction *)

Section GetCimisValue.

Variable float_of : json -> result R.

(** A key that is absent, or whose value is not a dict, is skipped. *)
Lemma get_cimis_value_skips_missing
  (rec : dict) (key : string) (keys : list string) :
  (forall obj, dict_get rec key <> Some (JDict obj)) ->
  _get_cimis_value float_of rec (key :: keys)
    = _get_cimis_value float_of rec keys.
Proof.
  intros H. simpl. destruct (dict_get rec key) as [[]|]; try reflexivity.
  exfalso. eapply H. reflexivity.
Qed.

(** A value that [float] rejects is skipped as well. *)
Lemma get_cimis_value_skips_unparseable
  (rec obj : dict) (key : string) (keys : list string) (v : json) :
  dict_get rec key = Some (JDict obj) ->
  dict_get obj "Value" = Some v ->
  v <> JNull -> v <> JStr "" ->
  float_of v = Raise ValueError \/ float_of v = Raise TypeError ->
  _get_cimis_value float_of rec (key :: keys)
    = _get_cimis_value float_of rec keys.
Proof.
  intros Hk Hv Hn He Hf. simpl. rewrite Hk, Hv.
  destruct v; try congruence;
    try (destruct Hf as [-> | ->]; reflexivity).
  destruct (String.eqb_spec s ""); [subst; congruence|].
  destruct Hf as [-> | ->]; reflexivity.
Qed.

Lemma get_cimis_value_parsed
  (rec obj : dict) (key : string) (keys : list string) (v : json) (x : R) :
  dict_get rec key = Some (JDict obj) ->
  dict_get obj "Value" = Some v ->
  v <> JNull -> v <> JStr "" ->
  float_of v = Ok x ->
  _get_cimis_value float_of rec (key :: keys) = Ok (Some x).
Proof.
  intros Hk Hv Hn He Hf. simpl. rewrite Hk, Hv.
  destruct v; try congruence; try (rewrite Hf; reflexivity).
  destruct (String.eqb_spec s ""); [subst; congruence|].
  rewrite Hf. reflexivity.
Qed.

(** An empty or null [Value] ends the search: the keys after it are not
    looked at. *)
Lemma get_cimis_value_empty_stops
  (rec obj : dict) (key : string) (keys : list string) :
  dict_get rec key = Some (JDict obj) ->
  dict_get obj "Value" = None \/ dict_get obj "Value" = Some JNull \/
  dict_get obj "Value" = Some (JStr "") ->
  _get_cimis_value float_of rec (key :: keys) = Ok None.
Proof.
  intros Hk [Hv | [Hv | Hv]]; simpl; rewrite Hk, Hv; reflexivity.
Qed.

(** Only ValueError and TypeError are caught: any other exception of
    [float], such as OverflowError on an integer beyond the double range,
    leaves the function. *)
Lemma get_cimis_value_propagates
  (rec obj : dict) (key : string) (keys : list string) (v : json) (e : exn) :
  dict_get rec key = Some (JDict obj) ->
  dict_get obj "Value" = Some v ->
  v <> JNull -> v <> JStr "" ->
  float_of v = Raise e -> e <> ValueError -> e <> TypeError ->
  _get_cimis_value float_of rec (key :: keys) = Raise e.
Proof.
  intros Hk Hv Hn He Hf H1 H2. simpl. rewrite Hk, Hv.
  destruct v; try congruence;
    try (rewrite Hf; destruct e; congruence).
  destruct (String.eqb_spec s ""); [subst; congruence|].
  rewrite Hf; destruct e; congruence.
Qed.

End GetCimisValue.

(** C1 (the code at the failing input). The record holds an empty value
    under the primary key and 12.3 under the fallback key: asked for both
    keys the extraction returns null, although the fallback key alone
    gives 12.3. *)
Theorem get_cimis_value_empty_first_key_blocks_fallback :
  _get_cimis_value Builtins.py_float rec_empty_then_value
    ["HlyAirTmp"; "hly-air-tmp"]%string = Ok None /\
  _get_cimis_value Builtins.py_float rec_empty_then_value
    ["hly-air-tmp"]%string = Ok (Some 12.3).
Proof.
  split; reflexivity.
Qed.

(** ** The normaliser on one record *)

(** C7. The document with the single record of station 12 for 2024-01-01,
    hour code 0300, air temperature 5.00 and humidity 80 normalises to
    exactly one row: hour field ["03"], timestamp 2024-01-01T03:00:00
    whose hour is 3. *)
Theorem normalise_one_hourly_record :
  exists row,
    cimis_json_to_records Builtins.py_float Builtins.py_str
      Builtins.py_fromisoformat one_record_document = Ok [row] /\
    Row.station row = JStr "12" /\
    Row.hour row = "03"%string /\
    datetime.hour (Row.timestamp row) = 3%Z /\
    Row.timestamp row = datetime.mk 2024 1 1 3 0 0 /\
    datetime.isoformat (Row.timestamp row) = "2024-01-01T03:00:00"%string /\
    Row.air_temp_c row = Some 5.00 /\
    Row.rel_hum row = Some 80.
Proof.
  exists (Row.mk (JStr "12") (JStr "2024-01-01") "03"
            (datetime.mk 2024 1 1 3 0 0) (Some 5.00) (Some 80)).
  repeat split; reflexivity.
Qed.

(** ** Cooling rate in the per-station pass *)

Lemma pd_get_set_absent {V : Type} (d : list (json * V)) (k k' : json) (v : V) :
  pd_get d k = None -> py_eqb k' k = false ->
  pd_get (pd_set d k' v) k = None.
Proof.
  intros Hd Hk. induction d as [|[k'' v''] d IH]; simpl in *.
  - rewrite Hk. reflexivity.
  - destruct (py_eqb k'' k) eqn:E; [discriminate|].
    destruct (py_eqb k'' k'); simpl; rewrite E; auto.
Qed.

(** The helper [cooling_rate], which the pass does not call, gives 0.0
    only when the elapsed time is exactly zero. *)
Lemma cooling_rate_zero_elapsed (prev cur : R) : cooling_rate prev cur 0 = 0.0.
Proof.
  unfold cooling_rate. destruct (Req_dec_T 0 0); [reflexivity | congruence].
Qed.

(** What a successful iteration leaves behind. *)
Lemma pass_step_ok
  (delta : R) (st st' : pass_state) (r : Row.t) (o : Enriched.t) :
  pass_step delta st r = Ok (st', o) ->
  st' = mkState (pd_set (prev_temp st) (Row.station r) (Row.air_temp_c r))
                (pd_set (prev_time st) (Row.station r) (Row.timestamp r)) /\
  cooling_rate_vs_previous st (Row.station r) (Row.timestamp r)
    (Row.air_temp_c r) = Ok (Enriched.cooling_rate_c_per_hr o).
Proof.
  unfold pass_step. intros H.
  apply bind_ok in H as ([[wb bt] dp] & _ & H).
  apply bind_ok in H as (_ & _ & H).
  apply bind_ok in H as (c & Hc & H).
  apply bind_ok in H as (ps & _ & H).
  injection H as <- <-. split; [reflexivity | exact Hc].
Qed.

Lemma cooling_first_of_station (st : pass_state) (station : json)
  (timestamp : datetime.t) (air_temp : option R) :
  pd_get (prev_temp st) station = None ->
  cooling_rate_vs_previous st station timestamp air_temp = Ok 0.0.
Proof.
  intros H. unfold cooling_rate_vs_previous. rewrite H. reflexivity.
Qed.

(** With no time elapsed, or a negative one, the divisor is the default
    of one hour. *)
Lemma cooling_nonpositive_elapsed (st : pass_state) (station : json)
  (timestamp t0 : datetime.t) (prev a : R) :
  pd_get (prev_temp st) station = Some (Some prev) ->
  pd_get (prev_time st) station = Some t0 ->
  (datetime.total_seconds_between timestamp t0 <= 0)%Z ->
  cooling_rate_vs_previous st station timestamp (Some a) = Ok (prev - a).
Proof.
  intros Hp Ht Hle. unfold cooling_rate_vs_previous. rewrite Hp, Ht.
  destruct (Rlt_dec 0 _) as [Hpos | _].
  - exfalso. apply IZR_le in Hle.
    assert (0 < IZR (datetime.total_seconds_between timestamp t0)).
    { apply Rmult_lt_reg_r with (/ 3600.0); [lra|]. unfold Rdiv in Hpos. lra. }
    lra.
  - rewrite truediv_ok by lra. f_equal. lra.
Qed.

Lemma pass_first_of_station (delta : R) (pre : list Row.t) :
  forall (st : pass_state) (r : Row.t) (post : list Row.t)
         (outs : list Enriched.t),
    pd_get (prev_temp st) (Row.station r) = None ->
    (forall x, In x pre -> py_eqb (Row.station x) (Row.station r) = false) ->
    pass delta st (pre ++ r :: post) = Ok outs ->
    exists o, nth_error outs (length pre) = Some o /\
              Enriched.cooling_rate_c_per_hr o = 0.0.
Proof.
  induction pre as [|x pre IH]; intros st r post outs Hst Hpre Hrun;
    simpl in Hrun.
  - apply bind_ok in Hrun as ([st' o] & Hstep & Hrun).
    apply bind_ok in Hrun as (results & _ & Hrun).
    injection Hrun as <-. exists o. split; [reflexivity|].
    apply pass_step_ok in Hstep as [_ Hc].
    rewrite (cooling_first_of_station _ _ _ _ Hst) in Hc. congruence.
  - apply bind_ok in Hrun as ([st' ox] & Hstep & Hrun).
    apply bind_ok in Hrun as (results & Hrest & Hrun).
    injection Hrun as <-. simpl in Hrest.
    apply pass_step_ok in Hstep as [-> _].
    apply (IH _ r post results) in Hrest.
    + exact Hrest.
    + simpl. apply pd_get_set_absent; [exact Hst|]. apply Hpre. left. reflexivity.
    + intros y Hy. apply Hpre. right. exact Hy.
Qed.

Lemma pass_two (delta : R) (st st1 st2 : pass_state) (r1 r2 : Row.t)
  (o1 o2 : Enriched.t) :
  pass_step delta st r1 = Ok (st1, o1) ->
  pass_step delta st1 r2 = Ok (st2, o2) ->
  pass delta st [r1; r2] = Ok [o1; o2].
Proof.
  intros H1 H2. simpl. rewrite H1. simpl. rewrite H2. reflexivity.
Qed.

(** The second of two observations of one station for the same hour. *)
Lemma pass_step_same_hour :
  exists o,
    pass_step 1.0 state_after_10 (row_at_3 8.0)
      = Ok (mkState [(JStr "12", Some 8.0)]
                    [(JStr "12", datetime.mk 2024 1 1 3 0 0)], o) /\
    Enriched.cooling_rate_c_per_hr o = 10.0 - 8.0.
Proof.
  unfold pass_step. simpl.
  rewrite (cooling_nonpositive_elapsed state_after_10 (JStr "12")
             (datetime.mk 2024 1 1 3 0 0) (datetime.mk 2024 1 1 3 0 0)
             10.0 8.0);
    [ | reflexivity | reflexivity | vm_compute; discriminate ].
  simpl. eexists. split; reflexivity.
Qed.

(** C4 (as amended). In a run of the pass the record that is the first of
    its station is emitted with a cooling rate of 0.0.  When the station
    has a previous temperature and the elapsed time is zero or negative,
    the elapsed time counts as one hour: the emitted rate is the previous
    temperature minus the current one. *)
Theorem cooling_rate_first_record_and_degenerate_elapsed :
  (forall (delta : R) (pre : list Row.t) (r : Row.t) (post : list Row.t)
          (outs : list Enriched.t),
     (forall x, In x pre -> py_eqb (Row.station x) (Row.station r) = false) ->
     pass delta initial_state (pre ++ r :: post) = Ok outs ->
     exists o, nth_error outs (length pre) = Some o /\
               Enriched.cooling_rate_c_per_hr o = 0.0) /\
  (forall (delta : R) (st st' : pass_state) (r : Row.t) (o : Enriched.t)
          (t0 : datetime.t) (prev a : R),
     pd_get (prev_temp st) (Row.station r) = Some (Some prev) ->
     pd_get (prev_time st) (Row.station r) = Some t0 ->
     (datetime.total_seconds_between (Row.timestamp r) t0 <= 0)%Z ->
     Row.air_temp_c r = Some a ->
     pass_step delta st r = Ok (st', o) ->
     Enriched.cooling_rate_c_per_hr o = prev - a).
Proof.
  split.
  - intros delta pre r post outs Hpre Hrun.
    apply (pass_first_of_station delta pre initial_state r post outs);
      [reflexivity | exact Hpre | exact Hrun].
  - intros delta st st' r o t0 prev a Hp Ht Hle Ha Hstep.
    apply pass_step_ok in Hstep as [_ Hc]. rewrite Ha in Hc.
    rewrite (cooling_nonpositive_elapsed _ _ _ _ _ _ Hp Ht Hle) in Hc.
    congruence.
Qed.

Lemma cooling_rate_first_record_and_degenerate_elapsed_witness :
  (exists o,
     nth_error [Enriched.mk (JStr "12") "2024-01-01T03:00:00" (Some 10.0)
                  None None None None 0.0 []] 0 = Some o /\
     Enriched.cooling_rate_c_per_hr o = 0.0) /\
  (exists o st',
     pass_step 1.0 state_after_10 (row_at_3 8.0) = Ok (st', o) /\
     Enriched.cooling_rate_c_per_hr o = 10.0 - 8.0).
Proof.
  destruct cooling_rate_first_record_and_degenerate_elapsed as [HA HB].
  split.
  - apply (HA 1.0 [] (row_at_3 10.0) []).
    + intros x [].
    + reflexivity.
  - destruct pass_step_same_hour as (o & Hstep & _).
    exists o. eexists. split; [exact Hstep|].
    eapply (HB 1.0 state_after_10 _ (row_at_3 8.0) o
               (datetime.mk 2024 1 1 3 0 0) 10.0 8.0);
      [reflexivity | reflexivity | vm_compute; discriminate | reflexivity
      | exact Hstep].
Defined.

(** C4 (counterexample). Two observations of station 12 for the same hour,
    at 10.0 and 8.0 degrees: no time has elapsed between them, and the
    second one is emitted with a cooling rate of 2, not 0.0. *)
Lemma cooling_rate_nonzero_without_elapsed_time :
  exists o1 o2,
    compute_frost_risk_from_cimis Builtins.py_float Builtins.py_str
      Builtins.py_fromisoformat same_hour_document 1.0 = Ok [o1; o2] /\
    Enriched.station o1 = Enriched.station o2 /\
    Enriched.timestamp o1 = Enriched.timestamp o2 /\
    Enriched.cooling_rate_c_per_hr o2 = 2 /\
    Enriched.cooling_rate_c_per_hr o2 <> 0.0.
Proof.
  destruct pass_step_same_hour as (o2 & Hstep & Hrate).
  exists (Enriched.mk (JStr "12") "2024-01-01T03:00:00" (Some 10.0) None
            None None None 0.0 []), o2.
  assert (Hshape : Enriched.station o2 = JStr "12" /\
                   Enriched.timestamp o2 = "2024-01-01T03:00:00"%string).
  { unfold pass_step in Hstep. simpl in Hstep.
    apply bind_ok in Hstep as (c & _ & Hstep). simpl in Hstep.
    injection Hstep as <-. split; reflexivity. }
  destruct Hshape as [Hs Ht].
  split; [|split; [|split; [|split]]].
  - unfold compute_frost_risk_from_cimis.
    replace (cimis_json_to_records _ _ _ same_hour_document)
      with (Ok [row_at_3 10.0; row_at_3 8.0]) by reflexivity.
    cbn [bind].
    eapply pass_two with (st1 := state_after_10); [reflexivity | exact Hstep].
  - rewrite Hs. reflexivity.
  - rewrite Ht. reflexivity.
  - rewrite Hrate. lra.
  - rewrite Hrate. lra.
Qed.

(** * Further properties of the frost model ([server/app/mathModel.py]) *)

Local Close Scope string_scope.

(** ** Wet bulb, blossom and dew point *)

Lemma div_lt_cross (x y x' y' : R) :
  0 < y -> 0 < y' -> x * y' < x' * y -> x / y < x' / y'.
Proof.
  intros Hy Hy' H.
  apply Rmult_lt_reg_r with (y * y'); [nra|].
  replace (x / y * (y * y')) with (x * y') by (field; lra).
  replace (x' / y' * (y * y')) with (x' * y) by (field; lra).
  exact H.
Qed.

Lemma dew_point_value (t rh : R) :
  0 < rh <= 100 -> -237.7 < t ->
  let gamma := 17.27 * t / (237.7 + t) + ln (rh / 100.0) in
  dew_point_temperature t rh = Ok (237.7 * gamma / (17.27 - gamma)) /\
  ln (rh / 100.0) <= 0 /\ gamma < 17.27.
Proof.
  intros [H0 H1] Ht gamma. subst gamma.
  assert (Hl : ln (rh / 100.0) <= 0).
  { assert (Hh : 0 < rh / 100.0 <= 1).
    { split; [apply Rdiv_lt_0_compat; lra|].
      apply Rmult_le_reg_r with 100.0; [lra|]. field_simplify; lra. }
    destruct Hh as [Hpos [Hlt | Heq]].
    - left. rewrite <- ln_1. apply ln_increasing; assumption.
    - right. rewrite Heq. apply ln_1. }
  assert (Hq : 17.27 * t / (237.7 + t) < 17.27).
  { apply Rmult_lt_reg_r with (237.7 + t); [lra|]. field_simplify; lra. }
  split; [|split; [exact Hl | lra]].
  unfold dew_point_temperature.
  destruct (Rle_dec rh 0); [lra|].
  rewrite truediv_ok by lra. simpl.
  rewrite truediv_ok by lra. simpl.
  rewrite math_log_ok by (apply Rdiv_lt_0_compat; lra). simpl.
  rewrite truediv_ok by lra. reflexivity.
Qed.

Lemma wet_bulb_value (t rh : R) :
  0 <= rh <= 100 ->
  wet_bulb_temperature t rh =
    Ok (t * atan (0.151977 * sqrt (rh + 8.313659))
        + atan (t + rh) - atan (rh - 1.676331)
        + 0.00391838 * (rh * sqrt rh) * atan (0.023101 * rh) - 4.686035).
Proof.
  intros H. unfold wet_bulb_temperature.
  rewrite math_sqrt_ok by lra. simpl.
  rewrite pow_1_5_ok by exact H. reflexivity.
Qed.

(** X1. For a humidity between 0 and 100 the wet-bulb temperature and the
    blossom temperature both return and are strictly increasing in the
    air temperature. *)
Theorem wet_bulb_increasing_in_air_temperature (t1 t2 rh d : R) :
  0 <= rh <= 100 -> t1 < t2 ->
  exists w1 w2 b1 b2,
    wet_bulb_temperature t1 rh = Ok w1 /\ wet_bulb_temperature t2 rh = Ok w2 /\
    blossom_temp t1 rh d = Ok b1 /\ blossom_temp t2 rh d = Ok b2 /\
    w1 < w2 /\ b1 < b2.
Proof.
  intros Hrh Hlt.
  pose proof (wet_bulb_value t1 rh Hrh) as H1.
  pose proof (wet_bulb_value t2 rh Hrh) as H2.
  assert (HA : 0 < atan (0.151977 * sqrt (rh + 8.313659))).
  { rewrite <- atan_0. apply atan_increasing.
    assert (0 < sqrt (rh + 8.313659)) by (apply sqrt_lt_R0; lra). nra. }
  assert (HB : atan (t1 + rh) < atan (t2 + rh)) by (apply atan_increasing; lra).
  do 4 eexists.
  split; [exact H1|]. split; [exact H2|].
  split; [unfold blossom_temp; rewrite H1; reflexivity|].
  split; [unfold blossom_temp; rewrite H2; reflexivity|].
  split; nra.
Qed.

Lemma wet_bulb_increasing_in_air_temperature_witness :
  exists w1 w2 b1 b2,
    wet_bulb_temperature 0 80 = Ok w1 /\ wet_bulb_temperature 5 80 = Ok w2 /\
    blossom_temp 0 80 1 = Ok b1 /\ blossom_temp 5 80 1 = Ok b2 /\
    w1 < w2 /\ b1 < b2.
Proof.
  apply (wet_bulb_increasing_in_air_temperature 0 5 80 1); lra.
Defined.



(** X3. At a fixed air temperature above -237.7 and at most 1000 the dew
    point returns for every humidity from 0.001 to 100 and, in exact
    real arithmetic, is strictly increasing in the humidity there. *)
Theorem dew_point_increasing_in_humidity (t rh1 rh2 : R) :
  -237.7 < t <= 1000 -> 0.001 <= rh1 -> rh1 < rh2 -> rh2 <= 100 ->
  exists td1 td2,
    dew_point_temperature t rh1 = Ok td1 /\
    dew_point_temperature t rh2 = Ok td2 /\ td1 < td2.
Proof.
  intros Ht H1 H12 H2.
  destruct (dew_point_value t rh1) as (Hv1 & Hl1 & Hg1); [lra | lra |].
  destruct (dew_point_value t rh2) as (Hv2 & Hl2 & Hg2); [lra | lra |].
  assert (Hl : ln (rh1 / 100.0) < ln (rh2 / 100.0)).
  { apply ln_increasing; [apply Rdiv_lt_0_compat; lra|].
    unfold Rdiv. apply Rmult_lt_compat_r; [apply Rinv_0_lt_compat; lra | lra]. }
  set (l1 := ln (rh1 / 100.0)) in *. set (l2 := ln (rh2 / 100.0)) in *.
  set (q := 17.27 * t / (237.7 + t)) in *.
  eexists. eexists. split; [exact Hv1|]. split; [exact Hv2|].
  apply div_lt_cross; [lra | lra | nra].
Qed.

Lemma dew_point_increasing_in_humidity_witness :
  exists td1 td2,
    dew_point_temperature 5 50 = Ok td1 /\
    dew_point_temperature 5 80 = Ok td2 /\ td1 < td2.
Proof.
  apply (dew_point_increasing_in_humidity 5 50 80); lra.
Defined.

(** X4. The helper [cooling_rate] and the pass agree.  For a station
    with a previous temperature and a previous time, the rate that the
    pass computes for a row with a temperature is the value of
    [cooling_rate] at the elapsed hours that the pass uses: the hours
    since the previous row, or 1.0 when these are not positive.  So the
    zero branch of the helper is never the case of the pass.  For a
    positive elapsed time the rate of the helper is not negative when the
    temperature did not rise and not positive when it did not fall, and
    exchanging the two temperatures changes the sign of the rate. *)
Theorem cooling_rate_properties (prev cur : R) :
  (forall (st : pass_state) (station : json) (timestamp t0 : datetime.t),
     pd_get (prev_temp st) station = Some (Some prev) ->
     pd_get (prev_time st) station = Some t0 ->
     cooling_rate_vs_previous st station timestamp (Some cur)
     = Ok (cooling_rate prev cur
             (if Rlt_dec 0
                   (IZR (datetime.total_seconds_between timestamp t0) / 3600.0)
              then IZR (datetime.total_seconds_between timestamp t0) / 3600.0
              else 1.0))) /\
  (forall dt, 0 < dt ->
     (cur <= prev -> 0 <= cooling_rate prev cur dt) /\
     (prev <= cur -> cooling_rate prev cur dt <= 0)) /\
  (forall dt, cooling_rate cur prev dt = - cooling_rate prev cur dt).
Proof.
  split; [|split].
  - intros st station timestamp t0 Hp Ht.
    unfold cooling_rate_vs_previous, cooling_rate. rewrite Hp, Ht.
    generalize (IZR (datetime.total_seconds_between timestamp t0) / 3600.0).
    intros dt. destruct (Rlt_dec 0 dt) as [Hpos|_].
    + destruct (Req_dec_T dt 0); [lra|]. apply truediv_ok. lra.
    + destruct (Req_dec_T 1.0 0); [lra|]. apply truediv_ok. lra.
  - intros dt Hdt. unfold cooling_rate.
    destruct (Req_dec_T dt 0); [lra|].
    assert (Hi : 0 < / dt) by (apply Rinv_0_lt_compat; exact Hdt).
    unfold Rdiv. split; intros H; nra.
  - intros dt. unfold cooling_rate.
    destruct (Req_dec_T dt 0); [lra|]. field. assumption.
Qed.

(** ** The damage curve *)

Lemma damage_curve_inv (stage : string) (t p : R) :
  damage_curve t stage = Ok p ->
  exists a b,
    get_damage_parameters stage = Ok (a, b) /\
    exp (- (a + b * t)) < DBL_OVERFLOW /\
    p = 1 / (1 + exp (- (a + b * t))).
Proof.
  intros H.
  destruct (get_damage_parameters stage) as [[a b]|e] eqn:Hp;
    [|unfold damage_curve in H; rewrite Hp in H; discriminate].
  exists a, b. split; [reflexivity|].
  destruct (Rlt_dec (exp (- (a + b * t))) DBL_OVERFLOW) as [Hov|Hov].
  - split; [exact Hov|].
    rewrite (damage_curve_value stage a b t Hp Hov) in H. congruence.
  - rewrite (damage_curve_raises stage a b t Hp) in H; [discriminate | lra].
Qed.

(** Any returned probability is strictly between 0 and 1, whatever the
    spelling of the stage. *)
Lemma damage_curve_returns_probability (stage : string) (t p : R) :
  damage_curve t stage = Ok p -> 0 < p < 1.
Proof.
  intros H. destruct (damage_curve_inv stage t p H) as (a & b & _ & _ & ->).
  apply logistic_open_unit, exp_pos.
Qed.

Lemma logistic_half (e : R) : 0 < e -> (1 / 2 <= 1 / (1 + e) <-> e <= 1).
Proof.
  intros He. split; intros H.
  - apply Rnot_lt_le. intros Hlt.
    assert (1 / (1 + e) < 1 / (1 + 1)) by (apply logistic_decreasing; lra).
    lra.
  - destruct H as [H | ->]; [|lra].
    assert (1 / (1 + 1) < 1 / (1 + e)) by (apply logistic_decreasing; lra).
    lra.
Qed.

(** X5. For a configured stage with parameters [(a, b)] and a temperature
    from -400 on, the damage curve returns, and in exact real arithmetic
    the probability is at least one half exactly when the temperature is
    at least [-a / b]: the curve has its midpoint there. *)
Theorem damage_curve_midpoint (stage : string) (a b t : R) :
  configured stage ->
  get_damage_parameters stage = Ok (a, b) ->
  -400 <= t ->
  exists p, damage_curve t stage = Ok p /\ (0.5 <= p <-> - a / b <= t).
Proof.
  intros Hs Hp Ht.
  destruct (configured_parameters stage Hs) as (a' & b' & Hp' & Ha & Hb).
  rewrite Hp in Hp'. injection Hp' as <- <-.
  assert (Hov : exp (- (a + b * t)) < DBL_OVERFLOW)
    by (apply exp_below_overflow; nra).
  eexists. split; [apply damage_curve_value; eassumption|].
  replace 0.5 with (1 / 2) by lra.
  rewrite logistic_half by apply exp_pos.
  assert (Hz : - a / b <= t <-> 0 <= a + b * t).
  { split; intros H.
    - apply Rmult_le_compat_l with (r := b) in H; [|lra].
      replace (b * (- a / b)) with (- a) in H by (field; lra). lra.
    - apply Rmult_le_reg_l with b; [lra|].
      replace (b * (- a / b)) with (- a) by (field; lra). lra. }
  rewrite Hz. rewrite <- exp_0. split; intros H.
  - destruct H as [H | H].
    + apply exp_lt_inv in H. lra.
    + apply exp_inv in H. lra.
  - destruct H as [H | H].
    + left. apply exp_increasing. lra.
    + right. f_equal. lra.
Qed.

Lemma damage_curve_midpoint_witness :
  exists p, damage_curve (-5) "pinkbud" = Ok p /\ (0.5 <= p <-> - (10.0) / 1.5 <= -5).
Proof.
  apply (damage_curve_midpoint "pinkbud" 10.0 1.5 (-5)).
  - is_configured.
  - reflexivity.
  - lra.
Defined.

(** X6. From -10 on the damage curve returns for the five configured
    stages.  In exact real arithmetic the five curves meet at -10: there
    all stages have the same probability, and above -10 the stages are
    strictly ordered, pinkbud being the most sensitive and smallnut the
    least.  (The floats of a warm hour are all exactly 1.0.) *)
Theorem damage_curves_cross_at_minus_ten (t : R) :
  -10 <= t ->
  exists p1 p2 p3 p4 p5,
    damage_curve t "pinkbud" = Ok p1 /\
    damage_curve t "fullbloom" = Ok p2 /\
    damage_curve t "petalfall" = Ok p3 /\
    damage_curve t "fruitset" = Ok p4 /\
    damage_curve t "smallnut" = Ok p5 /\
    (t = -10 -> p1 = p2 /\ p2 = p3 /\ p3 = p4 /\ p4 = p5) /\
    (-10 < t -> p5 < p4 /\ p4 < p3 /\ p3 < p2 /\ p2 < p1).
Proof.
  intros Ht.
  assert (H1 := damage_curve_value "pinkbud" 10.0 1.5 t eq_refl).
  assert (H2 := damage_curve_value "fullbloom" 9.0 1.4 t eq_refl).
  assert (H3 := damage_curve_value "petalfall" 8.0 1.3 t eq_refl).
  assert (H4 := damage_curve_value "fruitset" 7.0 1.2 t eq_refl).
  assert (H5 := damage_curve_value "smallnut" 6.0 1.1 t eq_refl).
  do 5 eexists.
  split; [apply H1, exp_below_overflow; lra|].
  split; [apply H2, exp_below_overflow; lra|].
  split; [apply H3, exp_below_overflow; lra|].
  split; [apply H4, exp_below_overflow; lra|].
  split; [apply H5, exp_below_overflow; lra|].
  split.
  - intros ->. repeat split; do 3 f_equal; lra.
  - intros Hlt.
    repeat split; (apply logistic_decreasing; [apply exp_pos|]);
      apply exp_increasing; lra.
Qed.

Lemma damage_curves_cross_at_minus_ten_witness :
  exists p1 p2 p3 p4 p5,
    damage_curve 0 "pinkbud" = Ok p1 /\
    damage_curve 0 "fullbloom" = Ok p2 /\
    damage_curve 0 "petalfall" = Ok p3 /\
    damage_curve 0 "fruitset" = Ok p4 /\
    damage_curve 0 "smallnut" = Ok p5 /\
    (0 = -10 -> p1 = p2 /\ p2 = p3 /\ p3 = p4 /\ p4 = p5) /\
    (-10 < 0 -> p5 < p4 /\ p4 < p3 /\ p3 < p2 /\ p2 < p1).
Proof. apply (damage_curves_cross_at_minus_ten 0). lra. Defined.

Lemma stage_data_inv (bt : R) (cfg : list (string * StageLT)) :
  forall l, stage_data bt cfg = Ok l ->
    map fst l = map fst cfg /\
    Forall2 (fun c e =>
               fst e = fst c /\
               LT10_C (snd e) = lt10_c (snd c) /\
               LT90_C (snd e) = lt90_c (snd c) /\
               damage_curve bt (fst c) = Ok (damage_prob (snd e))) cfg l.
Proof.
  induction cfg as [|[name lt] cfg IH]; intros l H; simpl in H.
  - injection H as <-. split; [reflexivity | constructor].
  - apply bind_ok in H as (p & Hp & H).
    apply bind_ok in H as (rest & Hrest & H).
    injection H as <-. destruct (IH rest Hrest) as [Hn Hf].
    split; [simpl; f_equal; exact Hn|].
    constructor; [|exact Hf]. simpl. auto.
Qed.

(** ** Extraction of a value ([_get_cimis_value]) *)

Section Extraction.

Variable float_of : json -> result R.

Lemma get_cimis_value_skip (rec : dict) (key : string) (keys : list string) :
  skipped_key float_of rec key ->
  _get_cimis_value float_of rec (key :: keys)
    = _get_cimis_value float_of rec keys.
Proof.
  intros [H | (obj & v & Hk & Hv & Hn & He & Hf)].
  - apply get_cimis_value_skips_missing, H.
  - eapply get_cimis_value_skips_unparseable; eassumption.
Qed.

(** X7. The first usable key wins: when every key before [key] is absent,
    no dict, or holds a value that [float] rejects with ValueError or
    TypeError, and [key] holds the number [x], then the result is [x],
    whatever follows. *)
Theorem get_cimis_value_first_usable_key
  (rec : dict) (pre post : list string) (key : string) (x : R) :
  Forall (skipped_key float_of rec) pre ->
  holds_number float_of rec key x ->
  _get_cimis_value float_of rec (pre ++ key :: post) = Ok (Some x).
Proof.
  intros Hpre (obj & v & Hk & Hv & Hn & He & Hf).
  induction Hpre as [|k pre Hk' _ IH].
  - simpl app. eapply get_cimis_value_parsed; eassumption.
  - simpl app. rewrite get_cimis_value_skip by exact Hk'. exact IH.
Qed.

(** X8. A returned number is the value of one of the given keys: the key
    maps to a dict whose ["Value"] is neither null nor empty and [float]
    of it is the number. *)
Theorem get_cimis_value_sound (rec : dict) (keys : list string) (x : R) :
  _get_cimis_value float_of rec keys = Ok (Some x) ->
  exists key, In key keys /\ holds_number float_of rec key x.
Proof.
  induction keys as [|key keys IH]; simpl; [discriminate|].
  intros H.
  assert (Hrest : _get_cimis_value float_of rec keys = Ok (Some x) ->
                  exists k, (key = k \/ In k keys) /\ holds_number float_of rec k x).
  { intros H'. destruct (IH H') as (k & Hin & Hk). exists k. auto. }
  destruct (dict_get rec key) as [[| | | | |l|obj]|] eqn:Hk; auto.
  destruct (dict_get obj "Value") as [v|] eqn:Hv; [|discriminate].
  assert (Hfloat : v <> JNull -> v <> JStr "" ->
            match float_of v with
            | Ok x0 => Ok (Some x0)
            | Raise ValueError | Raise TypeError => _get_cimis_value float_of rec keys
            | Raise e => Raise e
            end = Ok (Some x) ->
            exists k, (key = k \/ In k keys) /\ holds_number float_of rec k x).
  { intros Hn He H'. destruct (float_of v) as [y|e] eqn:Hf.
    - injection H' as ->. exists key. split; [auto|].
      exists obj, v. auto.
    - destruct e; try discriminate; auto. }
  destruct v; try discriminate; try (apply Hfloat; [discriminate | discriminate | exact H]).
  destruct (String.eqb_spec s ""); [discriminate|].
  apply Hfloat; [discriminate | congruence | exact H].
Qed.

(** X9. ValueError and TypeError never leave the extraction: an exception
    of [_get_cimis_value] is another exception of [float]. *)
Theorem get_cimis_value_catches_parse_errors
  (rec : dict) (keys : list string) (e : exn) :
  _get_cimis_value float_of rec keys = Raise e ->
  e <> ValueError /\ e <> TypeError.
Proof.
  induction keys as [|key keys IH]; simpl; [discriminate|].
  intros H.
  destruct (dict_get rec key) as [[| | | | |l|obj]|]; auto.
  destruct (dict_get obj "Value") as [v|]; [|discriminate].
  assert (Hfloat :
            match float_of v with
            | Ok x0 => Ok (Some x0)
            | Raise ValueError | Raise TypeError => _get_cimis_value float_of rec keys
            | Raise e => Raise e
            end = Raise e -> e <> ValueError /\ e <> TypeError).
  { destruct (float_of v) as [y|e'] eqn:Hf; [discriminate|].
    destruct e'; auto; intros H'; injection H' as <-; split; discriminate. }
  destruct v; try discriminate; try (apply Hfloat; exact H).
  destruct (String.eqb s ""); [discriminate | apply Hfloat; exact H].
Qed.

(** X10. When every key is absent, no dict, or holds a value that [float]
    rejects with ValueError or TypeError, the result is null and nothing
    is raised. *)
Theorem get_cimis_value_null_without_usable_key (rec : dict) (keys : list string) :
  Forall (skipped_key float_of rec) keys ->
  _get_cimis_value float_of rec keys = Ok None.
Proof.
  induction 1 as [|key keys Hk _ IH]; [reflexivity|].
  rewrite get_cimis_value_skip by exact Hk. exact IH.
Qed.

End Extraction.

Lemma get_cimis_value_first_usable_key_witness :
  exists x,
    _get_cimis_value py_float rec_unparseable_then_value
      (["HlyAirTmp"%string] ++ "hly-air-tmp"%string :: []) = Ok (Some x).
Proof.
  eexists.
  apply (get_cimis_value_first_usable_key py_float rec_unparseable_then_value
           ["HlyAirTmp"%string] [] "hly-air-tmp"%string).
  - constructor; [|constructor]. right. do 2 eexists.
    split; [reflexivity|]. split; [reflexivity|].
    split; [discriminate|]. split; [discriminate|]. left. reflexivity.
  - do 2 eexists.
    split; [reflexivity|]. split; [reflexivity|].
    split; [discriminate|]. split; [discriminate|]. reflexivity.
Defined.

Lemma get_cimis_value_sound_witness :
  exists x key,
    In key ["HlyAirTmp"%string; "hly-air-tmp"%string] /\
    holds_number py_float rec_unparseable_then_value key x.
Proof.
  eexists.
  apply (get_cimis_value_sound py_float rec_unparseable_then_value
           ["HlyAirTmp"%string; "hly-air-tmp"%string]).
  reflexivity.
Defined.

Lemma get_cimis_value_catches_parse_errors_witness :
  _get_cimis_value py_float rec_huge_value ["HlyAirTmp"%string]
    = Raise OverflowError /\
  OverflowError <> ValueError /\ OverflowError <> TypeError.
Proof.
  assert (H : _get_cimis_value py_float rec_huge_value ["HlyAirTmp"%string]
              = Raise OverflowError) by reflexivity.
  split; [exact H|].
  apply (get_cimis_value_catches_parse_errors py_float rec_huge_value
           ["HlyAirTmp"%string] OverflowError H).
Defined.

Lemma get_cimis_value_null_without_usable_key_witness :
  _get_cimis_value py_float rec_unparseable_then_value
    ["HlyAirTmp"%string; "HlyRelHum"%string] = Ok None.
Proof.
  apply (get_cimis_value_null_without_usable_key py_float
           rec_unparseable_then_value).
  constructor; [|constructor; [|constructor]].
  - right. do 2 eexists.
    split; [reflexivity|]. split; [reflexivity|].
    split; [discriminate|]. split; [discriminate|]. left. reflexivity.
  - left. intros obj. discriminate.
Defined.

(** ** Order of the normalised rows ([cimis_json_to_records]) *)

Lemma lex_ltb_asym (a b : list Z) :
  length a = length b -> datetime.lex_ltb a b = true -> datetime.lex_ltb b a = false.
Proof.
  revert b. induction a as [|x a IH]; intros [|y b] Hlen H; simpl in *;
    try discriminate; try reflexivity.
  injection Hlen as Hlen.
  destruct (x <? y)%Z eqn:E1; simpl in H.
  - apply Z.ltb_lt in E1.
    replace (y <? x)%Z with false by (symmetry; apply Z.ltb_ge; lia).
    replace (y =? x)%Z with false by (symmetry; apply Z.eqb_neq; lia).
    reflexivity.
  - apply andb_true_iff in H as [E2 H]. apply Z.eqb_eq in E2. subst y.
    rewrite Z.ltb_irrefl, Z.eqb_refl. simpl. apply IH; assumption.
Qed.

Lemma datetime_ltb_asym (a b : datetime.t) :
  datetime.ltb a b = true -> datetime.ltb b a = false.
Proof. apply lex_ltb_asym. reflexivity. Qed.

Lemma string_ltb_asym (s t : string) :
  String.ltb s t = true -> String.ltb t s = false.
Proof.
  unfold String.ltb. rewrite (String.compare_antisym s t).
  destruct (String.compare t s); simpl; congruence.
Qed.

Lemma py_eqb_sym (a b : json) : py_eqb a b = py_eqb b a.
Proof.
  destruct a, b; simpl; try reflexivity;
    try apply String.eqb_sym; try apply Z.eqb_sym;
    repeat match goal with
    | |- context [Req_dec_T ?x ?y] => destruct (Req_dec_T x y)
    end; congruence.
Qed.

Lemma py_ltb_asym (a b : json) :
  py_ltb a b = Ok true -> py_ltb b a = Ok false.
Proof.
  destruct a, b; simpl; try discriminate;
    try (intros H; injection H as H; f_equal;
         first [ apply string_ltb_asym; exact H
               | apply Z.ltb_ge; apply Z.ltb_lt in H; lia ]);
    repeat match goal with
    | |- context [Rlt_dec ?x ?y] => destruct (Rlt_dec x y)
    end; try congruence; try (exfalso; lra).
Qed.

Lemma sort_key_ltb_asym (a b : Row.t) :
  sort_key_ltb a b = Ok true -> key_le a b.
Proof.
  unfold key_le, sort_key_ltb. rewrite (py_eqb_sym (Row.station b)).
  destruct (py_eqb (Row.station a) (Row.station b)).
  - intros H. injection H as H. f_equal. apply datetime_ltb_asym, H.
  - apply py_ltb_asym.
Qed.

Lemma sort_insert_spec (r : Row.t) (sorted : list Row.t) :
  forall out,
    Sorted key_le sorted ->
    sort_insert r sorted = Ok out ->
    Permutation (r :: sorted) out /\ Sorted key_le out /\
    (forall a, HdRel key_le a sorted -> key_le a r -> HdRel key_le a out).
Proof.
  induction sorted as [|x rest IH]; intros out Hs H; simpl in H.
  - injection H as <-. repeat split; auto.
  - apply bind_ok in H as (c & Hc & H). destruct c.
    + apply bind_ok in H as (rest' & Hrest & H). injection H as <-.
      inversion Hs as [|? ? Hs' Hhd]; subst.
      destruct (IH rest' Hs' Hrest) as (Hp & Hs'' & Hh).
      split; [|split].
      * rewrite perm_swap. apply perm_skip, Hp.
      * constructor; [exact Hs''|]. apply Hh; [exact Hhd|].
        apply sort_key_ltb_asym, Hc.
      * intros a Ha _. inversion Ha; subst. constructor. assumption.
    + injection H as <-. split; [reflexivity|]. split.
      * constructor; [exact Hs|]. constructor. exact Hc.
      * intros a _ Har. constructor. exact Har.
Qed.

Lemma rows_sort_spec (rows : list Row.t) :
  forall out, rows_sort rows = Ok out ->
              Permutation rows out /\ Sorted key_le out.
Proof.
  induction rows as [|r rows IH]; intros out H; simpl in H.
  - injection H as <-. split; constructor.
  - apply bind_ok in H as (sorted & Hsorted & H).
    destruct (IH sorted Hsorted) as [Hp Hs].
    destruct (sort_insert_spec r sorted out Hs H) as (Hp' & Hs' & _).
    split; [|exact Hs'].
    rewrite <- Hp'. apply perm_skip, Hp.
Qed.

(** The output of the normaliser is the sorted list of the rows of the
    providers. *)
Lemma cimis_json_to_records_inv
  (float_of : json -> result R) (str_of : json -> string)
  (fromisoformat : string -> option datetime.t)
  (raw_json : json) (rows : list Row.t) :
  cimis_json_to_records float_of str_of fromisoformat raw_json = Ok rows ->
  exists providers unsorted,
    providers_to_rows float_of str_of fromisoformat providers = Ok unsorted /\
    rows_sort unsorted = Ok rows.
Proof.
  unfold cimis_json_to_records. intros H.
  apply bind_ok in H as (data & _ & H).
  apply bind_ok in H as (ps & _ & H).
  apply bind_ok in H as (ps' & _ & H).
  apply bind_ok in H as (unsorted & Hu & H). eauto.
Qed.

(** The evaluation of the normaliser on the two unordered hours. *)
Lemma unordered_document_rows :
  cimis_json_to_records py_float py_str py_fromisoformat unordered_document
  = Ok [observation "03" 3 5.00 80; observation "04" 4 4.00 85].
Proof. reflexivity. Qed.

(** X11. The rows that the normaliser returns are sorted by station and
    timestamp: no row has a sort key smaller than the one of the row
    before it. *)
Theorem cimis_json_to_records_sorted
  (float_of : json -> result R) (str_of : json -> string)
  (fromisoformat : string -> option datetime.t)
  (raw_json : json) (rows : list Row.t) :
  cimis_json_to_records float_of str_of fromisoformat raw_json = Ok rows ->
  Sorted key_le rows.
Proof.
  intros H.
  destruct (cimis_json_to_records_inv _ _ _ _ _ H) as (ps & u & _ & Hu).
  apply (rows_sort_spec u rows Hu).
Qed.

Lemma cimis_json_to_records_sorted_witness :
  Sorted key_le [observation "03" 3 5.00 80; observation "04" 4 4.00 85].
Proof.
  apply (cimis_json_to_records_sorted py_float py_str py_fromisoformat
           unordered_document).
  exact unordered_document_rows.
Defined.

Lemma sort_insert_strings (r : Row.t) (sorted : list Row.t) :
  string_station r -> Forall string_station sorted ->
  exists out, sort_insert r sorted = Ok out.
Proof.
  intros [s Hs] Hf. induction Hf as [|x rest [t Ht] _ [out IH]]; simpl; [eauto|].
  assert (Hc : exists c, sort_key_ltb x r = Ok c).
  { unfold sort_key_ltb. rewrite Ht, Hs. simpl.
    destruct (t =? s)%string; eauto. }
  destruct Hc as [c ->]. simpl. destruct c; [|eauto].
  rewrite IH. simpl. eauto.
Qed.

(** On rows whose stations are strings the sort raises nothing and
    returns the rows in order. *)
Lemma rows_sort_string_stations (rows : list Row.t) :
  Forall string_station rows ->
  exists out, rows_sort rows = Ok out /\ Permutation rows out /\ Sorted key_le out.
Proof.
  intros Hf.
  assert (H : exists out, rows_sort rows = Ok out).
  { induction Hf as [|r rows Hr Hf [sorted IH]]; simpl; [eauto|].
    rewrite IH. simpl. apply sort_insert_strings; [exact Hr|].
    destruct (rows_sort_spec _ _ IH) as [Hp _].
    eapply Permutation_Forall; eassumption. }
  destruct H as [out H]. exists out. split; [exact H|].
  apply rows_sort_spec, H.
Qed.

(** ** The rows of the normaliser *)

Lemma hour_str_of_length (s : string) : (2 <= String.length (hour_str_of s))%nat.
Proof.
  unfold hour_str_of.
  destruct ((String.length s =? 4)%nat && endswith s "00") eqn:E.
  - apply andb_true_iff in E as [E _]. apply Nat.eqb_eq in E.
    destruct s as [|c1 [|c2 s]]; simpl in *; try discriminate. lia.
  - destruct s as [|c1 [|c2 s]]; simpl.
    + lia.
    + destruct (Ascii.eqb c1 "+" || Ascii.eqb c1 "-")%bool; simpl; lia.
    + lia.
Qed.

Section Rows.

Variable float_of : json -> result R.
Variable str_of : json -> string.
Variable fromisoformat : string -> option datetime.t.

Lemma record_to_row_consistent (provider rec : json) (r : Row.t) :
  record_to_row float_of str_of fromisoformat provider rec = Ok (Some r) ->
  consistent_row str_of fromisoformat r.
Proof.
  unfold record_to_row. intros H.
  apply bind_ok in H as (rs & _ & H).
  apply bind_ok in H as (station & _ & H).
  apply bind_ok in H as (date_str & _ & H).
  apply bind_ok in H as (hour_raw & _ & H).
  assert (Hgo : forall fields,
    match fromisoformat (str_of date_str ++ " " ++ hour_str_of (str_of hour_raw) ++ ":00")%string with
    | Some timestamp =>
        air_temp_c <- _get_cimis_value float_of fields ["HlyAirTmp"; "hly-air-tmp"]%string ;;
        rel_hum <- _get_cimis_value float_of fields ["HlyRelHum"; "hly-rel-hum"]%string ;;
        Ok (Some (Row.mk station date_str (hour_str_of (str_of hour_raw)) timestamp air_temp_c rel_hum))
    | None => Ok None
    end = Ok (Some r) ->
    date_str <> JNull -> consistent_row str_of fromisoformat r).
  { intros fields H' Hd.
    destruct (fromisoformat _) as [ts|] eqn:Hts; [|discriminate].
    apply bind_ok in H' as (a & _ & H').
    apply bind_ok in H' as (h & _ & H').
    injection H' as <-. unfold consistent_row. simpl.
    split; [exact Hd|]. split; [apply hour_str_of_length | exact Hts]. }
  destruct date_str; try discriminate;
    destruct hour_raw; try discriminate;
    destruct rec; try discriminate;
    (eapply Hgo; [exact H | discriminate]).
Qed.

Lemma records_to_rows_consistent (provider : json) (recs : list json) :
  forall rows,
    records_to_rows float_of str_of fromisoformat provider recs = Ok rows ->
    Forall (consistent_row str_of fromisoformat) rows /\
    (length rows <= length recs)%nat.
Proof.
  induction recs as [|rec recs IH]; intros rows H; simpl in H.
  - injection H as <-. split; [constructor | simpl; lia].
  - apply bind_ok in H as (row & Hrow & H).
    apply bind_ok in H as (rows' & Hrows & H). injection H as <-.
    destruct (IH rows' Hrows) as [Hf Hl].
    destruct row as [r|]; [|split; [exact Hf | simpl; lia]].
    split; [|simpl; lia].
    constructor; [|exact Hf]. eapply record_to_row_consistent, Hrow.
Qed.

Lemma providers_to_rows_consistent (providers : list json) :
  forall rows,
    providers_to_rows float_of str_of fromisoformat providers = Ok rows ->
    Forall (consistent_row str_of fromisoformat) rows.
Proof.
  induction providers as [|p ps IH]; intros rows H; simpl in H.
  - injection H as <-. constructor.
  - apply bind_ok in H as (recs & _ & H).
    apply bind_ok in H as (recs' & _ & H).
    apply bind_ok in H as (rows1 & H1 & H).
    apply bind_ok in H as (rows2 & H2 & H). injection H as <-.
    apply Forall_app. split.
    + eapply records_to_rows_consistent, H1.
    + apply IH, H2.
Qed.

(** X12. In every row that the normaliser returns the date is not null,
    the hour has at least two characters, and the timestamp is the one
    that [fromisoformat] reads from ["<date> <hour>:00"]. *)
Theorem cimis_json_to_records_rows_agree
  (raw_json : json) (rows : list Row.t) :
  cimis_json_to_records float_of str_of fromisoformat raw_json = Ok rows ->
  Forall (fun r =>
            Row.date r <> JNull /\
            (2 <= String.length (Row.hour r))%nat /\
            fromisoformat
              (str_of (Row.date r) ++ " " ++ Row.hour r ++ ":00")%string
            = Some (Row.timestamp r)) rows.
Proof.
  intros H.
  destruct (cimis_json_to_records_inv _ _ _ _ _ H) as (ps & u & Hu & Hs).
  destruct (rows_sort_spec _ _ Hs) as [Hp _].
  eapply Permutation_Forall; [exact Hp|].
  exact (providers_to_rows_consistent ps u Hu).
Qed.

(** X13. A record with a station but without date or without hour (the
    key absent or null) gives no row and raises nothing. *)
Theorem record_without_date_or_hour_is_dropped
  (provider : json) (fields : dict) (station : json) :
  dict_get fields "Station" = Some station -> truthy station = true ->
  dict_get fields "Date" = None \/ dict_get fields "Date" = Some JNull \/
  dict_get fields "Hour" = None \/ dict_get fields "Hour" = Some JNull ->
  record_to_row float_of str_of fromisoformat provider (JDict fields)
  = Ok None.
Proof.
  intros Hs Ht Hm. unfold record_to_row, py_get.
  rewrite Hs. cbn [bind]. rewrite Ht. cbn [bind].
  destruct Hm as [H | [H | [H | H]]]; rewrite H; try reflexivity;
    destruct (dict_get fields "Date") as [[]|]; reflexivity.
Qed.

(** X14. A record with station, date and hour whose timestamp text
    [fromisoformat] rejects gives no row and raises nothing. *)
Theorem record_with_malformed_timestamp_is_dropped
  (provider : json) (fields : dict) (station date_str hour_raw : json) :
  dict_get fields "Station" = Some station -> truthy station = true ->
  dict_get fields "Date" = Some date_str -> date_str <> JNull ->
  dict_get fields "Hour" = Some hour_raw -> hour_raw <> JNull ->
  fromisoformat
    (str_of date_str ++ " " ++ hour_str_of (str_of hour_raw) ++ ":00")%string
  = None ->
  record_to_row float_of str_of fromisoformat provider (JDict fields)
  = Ok None.
Proof.
  intros Hs Ht Hd Hdn Hh Hhn Hts. unfold record_to_row, py_get.
  rewrite Hs. cbn [bind]. rewrite Ht, Hd, Hh. cbn [bind].
  destruct date_str; try congruence; destruct hour_raw; try congruence;
    cbv zeta; rewrite Hts; reflexivity.
Qed.

(** X15. Missing containers give the empty list: a document without
    ["Data"], data without ["Providers"], providers without ["Records"].
    A document that is no dict raises AttributeError. *)
Theorem cimis_json_to_records_missing_containers :
  (forall d, dict_get d "Data" = None ->
     cimis_json_to_records float_of str_of fromisoformat (JDict d) = Ok []) /\
  (forall d data, dict_get d "Data" = Some (JDict data) ->
     dict_get data "Providers" = None ->
     cimis_json_to_records float_of str_of fromisoformat (JDict d) = Ok []) /\
  (forall d data ps, dict_get d "Data" = Some (JDict data) ->
     dict_get data "Providers" = Some (JList ps) ->
     Forall (fun p => exists pd, p = JDict pd /\ dict_get pd "Records" = None) ps ->
     cimis_json_to_records float_of str_of fromisoformat (JDict d) = Ok []) /\
  (forall v, (forall d, v <> JDict d) ->
     cimis_json_to_records float_of str_of fromisoformat v = Raise AttributeError).
Proof.
  unfold cimis_json_to_records. repeat split.
  - intros d H. simpl. rewrite H. reflexivity.
  - intros d data H1 H2. simpl. rewrite H1. simpl. rewrite H2. reflexivity.
  - intros d data ps H1 H2 Hf. simpl. rewrite H1. simpl. rewrite H2. simpl.
    assert (Hp : providers_to_rows float_of str_of fromisoformat ps = Ok []).
    { clear H1 H2. induction Hf as [|p ps (pd & -> & Hr) _ IH]; [reflexivity|].
      simpl. rewrite Hr. simpl. rewrite IH. reflexivity. }
    rewrite Hp. reflexivity.
  - intros v Hv. destruct v; try reflexivity. exfalso. eapply Hv. reflexivity.
Qed.

End Rows.

Lemma cimis_json_to_records_rows_agree_witness :
  Forall (fun r =>
            Row.date r <> JNull /\
            (2 <= String.length (Row.hour r))%nat /\
            py_fromisoformat
              (py_str (Row.date r) ++ " " ++ Row.hour r ++ ":00")%string
            = Some (Row.timestamp r))
         [observation "03" 3 5.00 80; observation "04" 4 4.00 85].
Proof.
  apply (cimis_json_to_records_rows_agree py_float py_str py_fromisoformat
           unordered_document).
  exact unordered_document_rows.
Defined.

Lemma record_without_date_or_hour_is_dropped_witness :
  record_to_row py_float py_str py_fromisoformat JNull
    (JDict [("Station", JStr "12"); ("Hour", JStr "0300")]%string) = Ok None.
Proof.
  apply (record_without_date_or_hour_is_dropped py_float py_str
           py_fromisoformat JNull
           [("Station", JStr "12"); ("Hour", JStr "0300")]%string (JStr "12")).
  - reflexivity.
  - reflexivity.
  - left. reflexivity.
Defined.

Lemma record_with_malformed_timestamp_is_dropped_witness :
  record_to_row py_float py_str py_fromisoformat JNull
    (JDict [("Station", JStr "12"); ("Date", JStr "2024-02-30");
            ("Hour", JStr "0300")]%string) = Ok None.
Proof.
  apply (record_with_malformed_timestamp_is_dropped py_float py_str
           py_fromisoformat JNull
           [("Station", JStr "12"); ("Date", JStr "2024-02-30");
            ("Hour", JStr "0300")]%string
           (JStr "12") (JStr "2024-02-30") (JStr "0300"));
    first [reflexivity | discriminate].
Defined.

(** ** The enriched records ([compute_frost_risk_from_cimis]) *)

Lemma py_eqb_refl (k : json) : hashable k = Ok tt -> py_eqb k k = true.
Proof.
  destruct k; simpl; try discriminate; intros _; try reflexivity.
  - destruct (Req_dec_T _ _); congruence.
  - apply Z.eqb_refl.
  - destruct (Req_dec_T x x); congruence.
  - apply String.eqb_refl.
Qed.

Lemma pd_get_set_same {V : Type} (d : list (json * V)) (k : json) (v : V) :
  py_eqb k k = true -> pd_get (pd_set d k v) k = Some v.
Proof.
  intros Hk. induction d as [|[k' v'] d IH]; simpl.
  - rewrite Hk. reflexivity.
  - destruct (py_eqb k' k) eqn:E; simpl; rewrite E; [reflexivity | exact IH].
Qed.

Lemma derived_quantities_inv (air rh : option R) (delta : R)
  (wb bt dp : option R) :
  derived_quantities air rh delta = Ok (wb, bt, dp) ->
  match air, rh with
  | Some a, Some h =>
      exists w b td, wet_bulb_temperature a h = Ok w /\
                     blossom_temp a h delta = Ok b /\
                     dew_point_temperature a h = Ok td /\
                     wb = Some w /\ bt = Some b /\ dp = Some td
  | _, _ => wb = None /\ bt = None /\ dp = None
  end.
Proof.
  unfold derived_quantities.
  destruct air as [a|], rh as [h|]; intros H;
    try (injection H as <- <- <-; auto).
  apply bind_ok in H as (w & Hw & H).
  apply bind_ok in H as (b & Hb & H).
  apply bind_ok in H as (td & Htd & H). injection H as <- <- <-.
  exists w, b, td. repeat split; assumption.
Qed.

Lemma pass_step_inv (delta : R) (st st' : pass_state) (r : Row.t) (o : Enriched.t) :
  pass_step delta st r = Ok (st', o) ->
  hashable (Row.station r) = Ok tt /\
  st' = mkState (pd_set (prev_temp st) (Row.station r) (Row.air_temp_c r))
                (pd_set (prev_time st) (Row.station r) (Row.timestamp r)) /\
  cooling_rate_vs_previous st (Row.station r) (Row.timestamp r)
    (Row.air_temp_c r) = Ok (Enriched.cooling_rate_c_per_hr o) /\
  carries_row r o /\ derived_fields delta o.
Proof.
  unfold pass_step. intros H.
  apply bind_ok in H as ([[wb bt] dp] & Hq & H).
  apply bind_ok in H as ([] & Hh & H).
  apply bind_ok in H as (c & Hc & H).
  apply bind_ok in H as (ps & Hps & H).
  injection H as <- <-.
  split; [exact Hh|]. split; [reflexivity|]. split; [exact Hc|].
  split; [repeat split|].
  unfold derived_fields. simpl.
  apply derived_quantities_inv in Hq.
  destruct (Row.air_temp_c r) as [a|], (Row.rel_hum r) as [h|];
    try (destruct Hq as (-> & -> & ->); injection Hps as <-; auto).
  destruct Hq as (w & b & td & Hw & Hb & Htd & -> & -> & ->).
  exists w, b, td. repeat split; try assumption.
  - destruct (stage_data_inv _ _ _ Hps) as [Hn _]. exact Hn.
  - destruct (stage_data_inv _ _ _ Hps) as [_ Hf].
    clear Hps.
    induction Hf as [|c0 e cfg l (Hn & _ & _ & Hd) _ IH]; constructor;
      [|exact IH].
    rewrite Hn. split; [exact Hd|].
    destruct (damage_curve_returns_probability _ _ _ Hd). lra.
Qed.

Lemma pass_inv (delta : R) (records : list Row.t) :
  forall st outs,
    pass delta st records = Ok outs ->
    Forall2 carries_row records outs /\ Forall (derived_fields delta) outs.
Proof.
  induction records as [|r records IH]; intros st outs H; simpl in H.
  - injection H as <-. split; constructor.
  - apply bind_ok in H as ([st' o] & Hstep & H).
    apply bind_ok in H as (results & Hrest & H). injection H as <-.
    apply pass_step_inv in Hstep as (_ & _ & _ & Hc & Hd).
    destruct (IH _ _ Hrest) as [H2 Hf].
    split; constructor; assumption.
Qed.

Lemma wet_bulb_lower_bound (t rh : R) :
  -100 <= t -> 0 <= rh <= 100 ->
  exists w, wet_bulb_temperature t rh = Ok w /\ -210 <= w.
Proof.
  intros Ht Hrh. eexists. split; [apply wet_bulb_value, Hrh|].
  pose proof PI_4 as Hpi.
  pose proof (atan_bound (0.151977 * sqrt (rh + 8.313659))) as [_ A1].
  pose proof (atan_bound (t + rh)) as [A2 _].
  pose proof (atan_bound (rh - 1.676331)) as [_ A3].
  assert (A0 : 0 < atan (0.151977 * sqrt (rh + 8.313659))).
  { rewrite <- atan_0. apply atan_increasing.
    assert (0 < sqrt (rh + 8.313659)) by (apply sqrt_lt_R0; lra). nra. }
  assert (A4 : 0 <= atan (0.023101 * rh)).
  { rewrite <- atan_0. destruct Hrh as [[H | <-] _].
    - left. apply atan_increasing. lra.
    - right. f_equal. lra. }
  assert (S0 : 0 <= rh * sqrt rh).
  { apply Rmult_le_pos; [lra | apply sqrt_pos]. }
  assert (P : 0 <= 0.00391838 * (rh * sqrt rh) * atan (0.023101 * rh)).
  { apply Rmult_le_pos; [|exact A4]. apply Rmult_le_pos; [lra | exact S0]. }
  revert A0 A1 A2 A3 P.
  generalize (atan (0.151977 * sqrt (rh + 8.313659))) as x1.
  generalize (atan (t + rh)) as x2. generalize (atan (rh - 1.676331)) as x3.
  generalize (0.00391838 * (rh * sqrt rh) * atan (0.023101 * rh)) as x4.
  intros x4 x3 x2 x1 A0 A1 A2 A3 P.
  assert (-200 <= t * x1) by nra. lra.
Qed.

Lemma dew_point_returns (t rh : R) :
  -100 <= t -> 0 <= rh <= 100 -> exists td, dew_point_temperature t rh = Ok td.
Proof.
  intros Ht [[H | <-] H1].
  - apply dew_point_defined; lra.
  - exists t. apply dew_point_fallback. lra.
Qed.

Lemma stage_data_returns (bt : R) :
  -400 <= bt -> exists l, stage_data bt (stages ALMOND_LT_CONFIG) = Ok l.
Proof.
  intros Hbt.
  assert (H : forall cfg,
             Forall (fun c => configured (fst c)) cfg ->
             exists l, stage_data bt cfg = Ok l).
  { induction 1 as [|[n lt] cfg Hc _ [l IH]]; simpl; [eauto|].
    destruct (damage_curve_physical_range n bt Hc Hbt) as (p & Hp & _).
    unfold estimate_damage_at_temperature. rewrite Hp. simpl. rewrite IH.
    simpl. eauto. }
  apply H. simpl. repeat constructor; is_configured.
Qed.

Lemma cooling_rate_vs_previous_returns (st : pass_state) (station : json)
  (timestamp : datetime.t) (air_temp : option R) :
  exists c, cooling_rate_vs_previous st station timestamp air_temp = Ok c.
Proof.
  unfold cooling_rate_vs_previous.
  destruct (pd_get (prev_temp st) station) as [[prev|]|]; eauto.
  destruct air_temp as [a|]; eauto.
  destruct (pd_get (prev_time st) station) as [t0|].
  - destruct (Rlt_dec _ _); rewrite truediv_ok by lra; eauto.
  - rewrite truediv_ok by lra. eauto.
Qed.

Lemma pass_step_returns (delta : R) (st : pass_state) (r : Row.t) :
  delta <= 100 -> physical_row r ->
  exists st' o, pass_step delta st r = Ok (st', o).
Proof.
  intros Hd [[s Hs] Hr]. unfold pass_step, derived_quantities.
  destruct (cooling_rate_vs_previous_returns st (Row.station r)
              (Row.timestamp r) (Row.air_temp_c r)) as [c Hc].
  rewrite Hs in *.
  destruct (Row.air_temp_c r) as [a|]; [destruct (Row.rel_hum r) as [h|]|].
  - assert (Ha : -100 <= a) by lra.
    assert (Hh : 0 <= h <= 100) by lra.
    destruct (wet_bulb_lower_bound a h Ha Hh) as (w & Hw & Hlow).
    destruct (dew_point_returns a h Ha Hh) as [td Htd].
    unfold blossom_temp. rewrite Hw, Htd. cbn [bind hashable]. rewrite Hc.
    destruct (stage_data_returns (a - delta - (a - w))) as [l Hl]; [lra|].
    cbn [bind]. rewrite Hl. cbn [bind]. eauto.
  - cbn [bind hashable]. rewrite Hc. cbn [bind]. eauto.
  - cbn [bind hashable]. rewrite Hc. cbn [bind]. eauto.
Qed.

Lemma pass_returns (delta : R) (records : list Row.t) :
  delta <= 100 -> Forall physical_row records ->
  forall st, exists outs, pass delta st records = Ok outs.
Proof.
  intros Hd Hf. induction Hf as [|r records Hr _ IH]; intros st; simpl; [eauto|].
  destruct (pass_step_returns delta st r Hd Hr) as (st' & o & ->). simpl.
  destruct (IH st') as [outs ->]. simpl. eauto.
Qed.

Lemma observations_string_stations :
  Forall string_station
    [observation "03" 3 5.00 80; observation "04" 4 4.00 85].
Proof.
  repeat (apply Forall_cons; [eexists; reflexivity|]). apply Forall_nil.
Qed.

Lemma observations_physical :
  Forall physical_row
    [observation "03" 3 5.00 80; observation "04" 4 4.00 85].
Proof.
  repeat (apply Forall_cons;
          [split; [eexists; reflexivity | simpl; split; [lra | right; lra]]|]).
  apply Forall_nil.
Qed.

Lemma unordered_document_computes :
  exists outs,
    compute_frost_risk_from_cimis py_float py_str py_fromisoformat
      unordered_document 1.0 = Ok outs.
Proof.
  unfold compute_frost_risk_from_cimis. rewrite unordered_document_rows.
  cbn [bind]. apply pass_returns; [lra | exact observations_physical].
Qed.

(** X16. The model returns one enriched record per normalised row, in the
    same order, with the station, the ISO text of the timestamp, the air
    temperature and the humidity of the row. *)
Theorem compute_frost_risk_enriches_each_row
  (float_of : json -> result R) (str_of : json -> string)
  (fromisoformat : string -> option datetime.t)
  (raw_json : json) (delta : R) (outs : list Enriched.t) :
  compute_frost_risk_from_cimis float_of str_of fromisoformat raw_json delta
    = Ok outs ->
  exists rows,
    cimis_json_to_records float_of str_of fromisoformat raw_json = Ok rows /\
    Forall2 carries_row rows outs.
Proof.
  unfold compute_frost_risk_from_cimis. intros H.
  apply bind_ok in H as (rows & Hrows & H). exists rows. split; [exact Hrows|].
  destruct rows as [|r rows]; [injection H as <-; constructor|].
  apply (pass_inv _ _ _ _ H).
Qed.

Lemma compute_frost_risk_enriches_each_row_witness :
  exists outs rows,
    cimis_json_to_records py_float py_str py_fromisoformat unordered_document
      = Ok rows /\
    Forall2 carries_row rows outs.
Proof.
  destruct unordered_document_computes as [outs H]. exists outs.
  apply (compute_frost_risk_enriches_each_row py_float py_str
           py_fromisoformat unordered_document 1.0 outs H).
Defined.



(** X18. The model raises nothing on plausible data: when the rows of
    the normaliser have string stations and, where both observations are
    present, a temperature between -100 and 100 and a humidity that is 0
    or between 0.001 and 100, and the orchard offset is at most 100, the
    model returns as many records as there are rows. *)
Theorem compute_frost_risk_returns_on_physical_rows
  (float_of : json -> result R) (str_of : json -> string)
  (fromisoformat : string -> option datetime.t)
  (raw_json : json) (delta : R) (rows : list Row.t) :
  cimis_json_to_records float_of str_of fromisoformat raw_json = Ok rows ->
  Forall physical_row rows -> delta <= 100 ->
  exists outs,
    compute_frost_risk_from_cimis float_of str_of fromisoformat raw_json delta
      = Ok outs /\
    length outs = length rows.
Proof.
  intros Hrows Hf Hd. unfold compute_frost_risk_from_cimis. rewrite Hrows.
  cbn [bind]. destruct rows as [|r rows]; [exists []; auto|].
  destruct (pass_returns delta (r :: rows) Hd Hf initial_state) as [outs H].
  exists outs. split; [exact H|].
  destruct (pass_inv _ _ _ _ H) as [H2 _].
  symmetry. eapply Forall2_length. exact H2.
Qed.

Lemma compute_frost_risk_returns_on_physical_rows_witness :
  exists outs,
    compute_frost_risk_from_cimis py_float py_str py_fromisoformat
      unordered_document 1.0 = Ok outs /\
    length outs = 2%nat.
Proof.
  apply (compute_frost_risk_returns_on_physical_rows py_float py_str
           py_fromisoformat unordered_document 1.0
           [observation "03" 3 5.00 80; observation "04" 4 4.00 85]).
  - exact unordered_document_rows.
  - exact observations_physical.
  - lra.
Defined.

(** ** The cooling rate along the pass *)

Lemma pd_get_set_str {V : Type} (d : list (json * V)) (k s : string) (v : V) :
  Forall (fun e => exists s', fst e = JStr s') d ->
  pd_get (pd_set d (JStr k) v) (JStr s)
  = if (k =? s)%string then Some v else pd_get d (JStr s).
Proof.
  induction 1 as [|[k' v'] d [s' Hk] _ IH]; simpl in *.
  - reflexivity.
  - subst k'. simpl.
    destruct (String.eqb_spec s' k) as [->|Hne]; simpl.
    + destruct (String.eqb_spec k s); reflexivity.
    + destruct (String.eqb_spec s' s) as [->|Hne'].
      * destruct (String.eqb_spec k s); [congruence | reflexivity].
      * exact IH.
Qed.

Lemma pd_set_str_keys {V : Type} (d : list (json * V)) (k : string) (v : V) :
  Forall (fun e => exists s', fst e = JStr s') d ->
  Forall (fun e => exists s', fst e = JStr s') (pd_set d (JStr k) v).
Proof.
  induction 1 as [|[k' v'] d Hk Hd IH]; simpl.
  - constructor; [eexists; reflexivity | constructor].
  - destruct (py_eqb k' (JStr k)); constructor; assumption.
Qed.

Lemma previous_of_snoc (s : string) (seen : list Row.t) (x : Row.t) (sx : string) :
  Row.station x = JStr sx ->
  previous_of (JStr s) (seen ++ [x])
  = if (sx =? s)%string then Some x else previous_of (JStr s) seen.
Proof.
  intros Hx. unfold previous_of. rewrite rev_unit. simpl. rewrite Hx. reflexivity.
Qed.

Lemma tracks_initial : tracks initial_state [].
Proof. repeat split; constructor. Qed.

Lemma tracks_step (delta : R) (st st' : pass_state) (seen : list Row.t)
  (r : Row.t) (o : Enriched.t) :
  tracks st seen -> string_station r ->
  pass_step delta st r = Ok (st', o) ->
  tracks st' (seen ++ [r]) /\
  Enriched.cooling_rate_c_per_hr o
    = cooling_rate_after (previous_of (Row.station r) seen) r.
Proof.
  intros (Hk1 & Hk2 & Hget) [s Hs] Hstep.
  apply pass_step_inv in Hstep as (_ & -> & Hc & _).
  split.
  - rewrite Hs. split; [apply pd_set_str_keys, Hk1|].
    split; [apply pd_set_str_keys, Hk2|].
    intros s'. simpl. rewrite !pd_get_set_str by assumption.
    rewrite (previous_of_snoc s' seen r s Hs).
    destruct (s =? s')%string; [split; reflexivity | apply Hget].
  - rewrite Hs in Hc |- *. unfold cooling_rate_vs_previous in Hc.
    destruct (Hget s) as [Ht Htime]. rewrite Ht, Htime in Hc.
    unfold cooling_rate_after.
    destruct (previous_of (JStr s) seen) as [x|]; simpl in Hc;
      [|injection Hc as <-; reflexivity].
    destruct (Row.air_temp_c x) as [p|]; [|injection Hc as <-; reflexivity].
    destruct (Row.air_temp_c r) as [a|]; [|injection Hc as <-; reflexivity].
    fold (elapsed_hours x r) in Hc.
    assert (Hpos : 0 < elapsed_hours x r).
    { unfold elapsed_hours. destruct (Rlt_dec 0 _); lra. }
    rewrite truediv_ok in Hc by lra. injection Hc as <-. reflexivity.
Qed.

Lemma pass_tracks (delta : R) (records : list Row.t) :
  forall st seen outs,
    tracks st seen -> Forall string_station records ->
    pass delta st records = Ok outs ->
    forall pre r post, records = pre ++ r :: post ->
      exists o, nth_error outs (length pre) = Some o /\
                Enriched.cooling_rate_c_per_hr o
                = cooling_rate_after (previous_of (Row.station r) (seen ++ pre)) r.
Proof.
  induction records as [|x records IH]; intros st seen outs Ht Hf Hrun pre r post Heq.
  - destruct pre; discriminate.
  - simpl in Hrun. apply bind_ok in Hrun as ([st' o] & Hstep & Hrun).
    apply bind_ok in Hrun as (results & Hrest & Hrun). injection Hrun as <-.
    inversion Hf as [|? ? Hx Hf']; subst.
    destruct (tracks_step delta st st' seen x o Ht Hx Hstep) as [Ht' Hrate].
    destruct pre as [|y pre]; simpl in Heq; injection Heq as -> ->.
    + exists o. rewrite app_nil_r. split; [reflexivity | exact Hrate].
    + simpl in Hrest.
      destruct (IH st' (seen ++ [y]) results Ht' Hf' Hrest pre r post eq_refl)
        as (o' & Hn & Hr).
      exists o'. split; [exact Hn|]. rewrite <- app_assoc in Hr. exact Hr.
Qed.

(** X19. Over rows with string stations, the cooling rate of each record
    is computed against the latest earlier row of the same station: 0.0
    when there is none or when one of the two temperatures is missing,
    otherwise the drop in temperature divided by the elapsed hours, with
    one hour in place of an elapsed time that is not positive. *)
Theorem pass_cooling_rate_from_previous_row
  (delta : R) (pre post : list Row.t) (r : Row.t) (outs : list Enriched.t) :
  Forall string_station (pre ++ r :: post) ->
  pass delta initial_state (pre ++ r :: post) = Ok outs ->
  exists o, nth_error outs (length pre) = Some o /\
            Enriched.cooling_rate_c_per_hr o
            = cooling_rate_after (previous_of (Row.station r) pre) r.
Proof.
  intros Hf Hrun.
  apply (pass_tracks delta _ initial_state [] outs tracks_initial Hf Hrun pre r post eq_refl).
Qed.

Lemma pass_cooling_rate_from_previous_row_witness :
  exists outs o,
    pass 1.0 initial_state
      ([observation "03" 3 5.00 80] ++ observation "04" 4 4.00 85 :: [])
      = Ok outs /\
    nth_error outs (length [observation "03" 3 5.00 80]) = Some o /\
    Enriched.cooling_rate_c_per_hr o
    = cooling_rate_after
        (previous_of (Row.station (observation "04" 4 4.00 85))
           [observation "03" 3 5.00 80])
        (observation "04" 4 4.00 85).
Proof.
  destruct (pass_returns 1.0
              ([observation "03" 3 5.00 80] ++ observation "04" 4 4.00 85 :: []))
    with (st := initial_state) as [outs H];
    [lra | exact observations_physical |].
  exists outs.
  destruct (pass_cooling_rate_from_previous_row 1.0
              [observation "03" 3 5.00 80] [] (observation "04" 4 4.00 85)
              outs observations_string_stations H) as (o & Hn & Hr).
  exists o. split; [exact H|]. split; [exact Hn | exact Hr].
Defined.

(** ** Chronological order within a station *)

Lemma ascii_compare_refl (c : ascii) : Ascii.compare c c = Eq.
Proof. unfold Ascii.compare. apply N.compare_refl. Qed.

Lemma ascii_compare_lt_trans (a b c : ascii) :
  Ascii.compare a b = Lt -> Ascii.compare b c = Lt -> Ascii.compare a c = Lt.
Proof.
  unfold Ascii.compare. rewrite !N.compare_lt_iff. apply N.lt_trans.
Qed.

Lemma string_compare_refl (s : string) : String.compare s s = Eq.
Proof.
  induction s as [|c s IH]; simpl; [reflexivity|].
  rewrite ascii_compare_refl. exact IH.
Qed.

Lemma string_compare_lt_trans (a : string) :
  forall b c, String.compare a b = Lt -> String.compare b c = Lt ->
              String.compare a c = Lt.
Proof.
  induction a as [|x a IH]; intros [|y b] [|z c]; simpl; try discriminate; auto.
  destruct (Ascii.compare x y) eqn:Exy; try discriminate;
    destruct (Ascii.compare y z) eqn:Eyz; try discriminate; intros H1 H2.
  - apply Ascii.compare_eq_iff in Exy, Eyz. subst. rewrite ascii_compare_refl.
    eapply IH; eassumption.
  - apply Ascii.compare_eq_iff in Exy. subst. rewrite Eyz. reflexivity.
  - apply Ascii.compare_eq_iff in Eyz. subst. rewrite Exy. reflexivity.
  - rewrite (ascii_compare_lt_trans x y z Exy Eyz). reflexivity.
Qed.

Lemma lex_nlt_trans (a : list Z) :
  forall b c, length a = length b -> length b = length c ->
    datetime.lex_ltb b a = false -> datetime.lex_ltb c b = false ->
    datetime.lex_ltb c a = false.
Proof.
  induction a as [|x a IH]; intros [|y b] [|z c] L1 L2; simpl in *;
    try discriminate; auto.
  injection L1 as L1. injection L2 as L2. intros H1 H2.
  apply orb_false_iff in H1 as [H1 H1']. apply orb_false_iff in H2 as [H2 H2'].
  apply Z.ltb_ge in H1, H2. apply orb_false_iff. split; [apply Z.ltb_ge; lia|].
  destruct (z =? x)%Z eqn:E; [|reflexivity]. apply Z.eqb_eq in E. subst z.
  assert (y = x) by lia. subst y. rewrite Z.eqb_refl in H1', H2'. simpl in *.
  eapply IH; eassumption.
Qed.

Lemma key_le_strings (a b : Row.t) (s t : string) :
  Row.station a = JStr s -> Row.station b = JStr t ->
  (key_le a b <->
   (s = t /\ datetime.ltb (Row.timestamp b) (Row.timestamp a) = false) \/
   String.compare s t = Lt).
Proof.
  intros Ha Hb. unfold key_le, sort_key_ltb. rewrite Ha, Hb. simpl.
  destruct (String.eqb_spec t s) as [->|Hne].
  - rewrite string_compare_refl. split.
    + intros H. injection H as H. left. auto.
    + intros [[_ H] | H]; [rewrite H; reflexivity | discriminate].
  - unfold String.ltb. rewrite (String.compare_antisym t s).
    destruct (String.compare s t) eqn:E; simpl.
    + apply String.compare_eq_iff in E. congruence.
    + split; [intros _; right; reflexivity | reflexivity].
    + split; [discriminate|]. intros [[H _] | H]; [congruence | discriminate].
Qed.

Lemma string_key_le_trans (a b c : Row.t) :
  string_key_le a b -> string_key_le b c -> string_key_le a c.
Proof.
  intros ([s Hs] & [t Ht] & Hab) (_ & [u Hu] & Hbc).
  split; [eexists; exact Hs|]. split; [eexists; exact Hu|].
  rewrite (key_le_strings a b s t Hs Ht) in Hab.
  rewrite (key_le_strings b c t u Ht Hu) in Hbc.
  rewrite (key_le_strings a c s u Hs Hu).
  destruct Hab as [[-> H1] | H1], Hbc as [[-> H2] | H2]; auto.
  - left. split; [reflexivity|].
    unfold datetime.ltb in *. eapply lex_nlt_trans; try eassumption; reflexivity.
  - right. eapply string_compare_lt_trans; eassumption.
Qed.

Lemma sorted_strongly (rows : list Row.t) :
  Sorted key_le rows -> Forall string_station rows ->
  StronglySorted string_key_le rows.
Proof.
  intros Hs Hf. apply Sorted_StronglySorted.
  - intros a b c. apply string_key_le_trans.
  - induction Hs as [|x rows Hs IH Hhd]; [constructor|].
    inversion Hf as [|? ? Hx Hf']; subst.
    constructor; [apply IH, Hf'|].
    destruct Hhd as [|y rows Hxy]; constructor.
    inversion Hf' as [|? ? Hy _]; subst. repeat split; assumption.
Qed.

Lemma earlier_row_of_station (rows pre post : list Row.t) (r x : Row.t) :
  Sorted key_le rows -> Forall string_station rows ->
  rows = pre ++ r :: post ->
  previous_of (Row.station r) pre = Some x ->
  In x pre /\ Row.station x = Row.station r /\
  datetime.ltb (Row.timestamp r) (Row.timestamp x) = false.
Proof.
  intros Hs Hf -> Hprev.
  unfold previous_of in Hprev. apply find_some in Hprev as [Hin Heq].
  apply in_rev in Hin.
  assert (Hss : StronglySorted string_key_le (pre ++ r :: post))
    by (apply sorted_strongly; assumption).
  assert (Hxr : string_key_le x r).
  { clear Heq Hs Hf. induction pre as [|y pre IH]; [contradiction|].
    simpl in Hss. inversion Hss as [|? ? Hss' Hall]; subst.
    destruct Hin as [<- | Hin]; [|apply IH; assumption].
    rewrite Forall_forall in Hall. apply Hall, in_or_app. right. left. reflexivity. }
  destruct Hxr as ([s Hsx] & [t Htr] & Hle).
  rewrite Hsx, Htr in Heq. simpl in Heq. apply String.eqb_eq in Heq. subst t.
  split; [exact Hin|]. split; [congruence|].
  rewrite (key_le_strings x r s s Hsx Htr) in Hle.
  destruct Hle as [[_ H] | H]; [exact H|].
  rewrite string_compare_refl in H. discriminate.
Qed.

Lemma days_before_year_succ (y : Z) :
  datetime.days_before_year (y + 1)
  = (datetime.days_before_year y + 365
     + (if datetime.is_leap y then 1 else 0))%Z.
Proof.
  unfold datetime.days_before_year, datetime.is_leap. cbv zeta.
  replace (y + 1 - 1)%Z with y by lia.
  destruct (y mod 4 =? 0)%Z eqn:E4; destruct (y mod 100 =? 0)%Z eqn:E100;
    destruct (y mod 400 =? 0)%Z eqn:E400; simpl;
    rewrite ?Z.eqb_eq, ?Z.eqb_neq in *;
    Z.div_mod_to_equations; lia.
Qed.

Lemma days_before_year_mono (y : Z) (n : nat) :
  (datetime.days_before_year (y + 1) + 365 * Z.of_nat n
   <= datetime.days_before_year (y + 1 + Z.of_nat n))%Z.
Proof.
  induction n as [|n IH].
  - replace (y + 1 + Z.of_nat 0)%Z with (y + 1)%Z by lia. lia.
  - replace (y + 1 + Z.of_nat (S n))%Z with ((y + 1 + Z.of_nat n) + 1)%Z by lia.
    rewrite (days_before_year_succ (y + 1 + Z.of_nat n)).
    destruct (datetime.is_leap (y + 1 + Z.of_nat n)); lia.
Qed.

Lemma month_cases (m : Z) :
  (1 <= m <= 12)%Z ->
  (m = 1 \/ m = 2 \/ m = 3 \/ m = 4 \/ m = 5 \/ m = 6 \/ m = 7 \/ m = 8 \/
   m = 9 \/ m = 10 \/ m = 11 \/ m = 12)%Z.
Proof. lia. Qed.

Ltac by_months :=
  repeat match goal with
         | H : (1 <= ?m <= 12)%Z |- _ =>
             apply month_cases in H;
             repeat (destruct H as [H | H]); subst m
         end.

Ltac month_tables :=
  cbv [nth Z.to_nat Pos.to_nat Pos.iter_op Init.Nat.add Z.ltb Z.eqb Z.compare
       Pos.compare Pos.compare_cont Pos.eqb andb orb] in *.

Lemma day_of_year_bound (y m d : Z) :
  (1 <= m <= 12)%Z -> (1 <= d <= datetime.days_in_month y m)%Z ->
  (1 <= datetime.days_before_month y m + d
   <= 365 + (if datetime.is_leap y then 1 else 0))%Z.
Proof.
  intros Hm Hd. by_months;
    unfold datetime.days_before_month, datetime.days_in_month in *;
    destruct (datetime.is_leap y); month_tables; lia.
Qed.

Lemma days_before_month_mono (y m m' : Z) :
  (1 <= m <= 12)%Z -> (1 <= m' <= 12)%Z -> (m < m')%Z ->
  (datetime.days_before_month y m + datetime.days_in_month y m
   <= datetime.days_before_month y m')%Z.
Proof.
  intros Hm Hm' Hlt. by_months; try lia;
    unfold datetime.days_before_month, datetime.days_in_month;
    destruct (datetime.is_leap y); month_tables; lia.
Qed.

Lemma toordinal_mono (a b : datetime.t) :
  valid_datetime a -> valid_datetime b ->
  ((datetime.year b < datetime.year a)%Z \/
   (datetime.year b = datetime.year a /\ (datetime.month b < datetime.month a)%Z) \/
   (datetime.year b = datetime.year a /\ datetime.month b = datetime.month a /\
    (datetime.day b < datetime.day a)%Z)) ->
  (datetime.toordinal b < datetime.toordinal a)%Z.
Proof.
  intros (Hma & Hda & _) (Hmb & Hdb & _) H. unfold datetime.toordinal.
  pose proof (day_of_year_bound _ _ _ Hma Hda) as Ba.
  pose proof (day_of_year_bound _ _ _ Hmb Hdb) as Bb.
  destruct H as [Hy | [[Hy Hm] | (Hy & Hm & Hd)]].
  - pose proof (days_before_year_succ (datetime.year b)) as Hs.
    pose proof (days_before_year_mono (datetime.year b)
                  (Z.to_nat (datetime.year a - datetime.year b - 1))) as Hmono.
    rewrite Z2Nat.id in Hmono by lia.
    replace (datetime.year b + 1 + (datetime.year a - datetime.year b - 1))%Z
      with (datetime.year a) in Hmono by lia.
    destruct (datetime.is_leap (datetime.year b)); lia.
  - rewrite Hy in *.
    pose proof (days_before_month_mono (datetime.year a) _ _ Hmb Hma Hm). lia.
  - rewrite Hy, Hm in *. lia.
Qed.

Lemma lex_ltb_cons_false (x y : Z) (a b : list Z) :
  datetime.lex_ltb (x :: a) (y :: b) = false ->
  (y < x)%Z \/ (x = y /\ datetime.lex_ltb a b = false).
Proof.
  simpl. intros H. apply orb_false_iff in H as [H1 H2].
  apply Z.ltb_ge in H1.
  destruct (Z.eqb_spec x y) as [->|Hne]; [right; auto | left; lia].
Qed.

(** A timestamp that is not earlier than another is on a later day, or
    on the same day at a time that is not earlier. *)
Lemma datetime_nlt_cases (a b : datetime.t) :
  datetime.ltb a b = false ->
  ((datetime.year b < datetime.year a)%Z \/
   (datetime.year b = datetime.year a /\
    (datetime.month b < datetime.month a)%Z) \/
   (datetime.year b = datetime.year a /\
    datetime.month b = datetime.month a /\
    (datetime.day b < datetime.day a)%Z)) \/
  (datetime.year b = datetime.year a /\ datetime.month b = datetime.month a /\
   datetime.day b = datetime.day a /\
   (datetime.hour b * 3600 + datetime.minute b * 60 + datetime.second b
    <= datetime.hour a * 3600 + datetime.minute a * 60 + datetime.second a
    \/ ~ (0 <= datetime.minute a < 60 /\ 0 <= datetime.second a < 60 /\
          0 <= datetime.minute b < 60 /\ 0 <= datetime.second b < 60))%Z).
Proof.
  destruct a as [ya ma da ha mia sa], b as [yb mb db hb mib sb].
  unfold datetime.ltb, datetime.cmp_key.
  cbn [datetime.year datetime.month datetime.day datetime.hour
       datetime.minute datetime.second].
  intros H.
  apply lex_ltb_cons_false in H as [H | [-> H]]; [lia|].
  apply lex_ltb_cons_false in H as [H | [-> H]]; [lia|].
  apply lex_ltb_cons_false in H as [H | [-> H]]; [lia|].
  apply lex_ltb_cons_false in H as [H | [-> H]]; [lia|].
  apply lex_ltb_cons_false in H as [H | [-> H]]; [lia|].
  apply lex_ltb_cons_false in H as [H | [-> H]]; lia.
Qed.

Lemma total_seconds_nonneg (a b : datetime.t) :
  valid_datetime a -> valid_datetime b ->
  datetime.ltb a b = false ->
  (0 <= datetime.total_seconds_between a b)%Z.
Proof.
  intros Va Vb H. unfold datetime.total_seconds_between.
  destruct (datetime_nlt_cases a b H) as [Hd | (Hy & Hm & Hd & Ht)].
  - pose proof (toordinal_mono a b Va Vb Hd).
    destruct Va as (_ & _ & ? & ? & ?), Vb as (_ & _ & ? & ? & ?). lia.
  - assert (datetime.toordinal a = datetime.toordinal b)
      by (unfold datetime.toordinal; congruence).
    destruct Va as (_ & _ & ? & ? & ?), Vb as (_ & _ & ? & ? & ?). lia.
Qed.

Lemma total_seconds_pos (a b : datetime.t) :
  valid_datetime a -> valid_datetime b ->
  datetime.ltb b a = true ->
  (0 < datetime.total_seconds_between a b)%Z.
Proof.
  intros Va Vb H.
  assert (Hn : datetime.ltb a b = false)
    by (apply datetime_ltb_asym; exact H).
  unfold datetime.total_seconds_between.
  destruct (datetime_nlt_cases a b Hn) as [Hd | (Hy & Hm & Hd & Ht)].
  - pose proof (toordinal_mono a b Va Vb Hd).
    destruct Va as (_ & _ & ? & ? & ?), Vb as (_ & _ & ? & ? & ?). lia.
  - assert (datetime.toordinal a = datetime.toordinal b)
      by (unfold datetime.toordinal; congruence).
    destruct a as [ya ma da ha mia sa], b as [yb mb db hb mib sb].
    unfold valid_datetime in *. simpl in *. subst.
    unfold datetime.ltb, datetime.cmp_key in H. simpl in H.
    rewrite !Z.ltb_irrefl, !Z.eqb_refl in H. simpl in H.
    repeat match type of H with
         | context [(?x <? ?y)%Z] => destruct (Z.ltb_spec x y)
         | context [(?x =? ?y)%Z] => destruct (Z.eqb_spec x y)
         end; simpl in H; try discriminate; lia.
Qed.

Lemma digits_nonneg (cs : list ascii) :
  forall acc len, (0 <= acc)%Z -> (0 <= fst (fst (digits acc len cs)))%Z.
Proof.
  induction cs as [|c cs IH]; intros acc len Hacc; simpl; [exact Hacc|].
  destruct (is_digit c); [|exact Hacc].
  apply IH. unfold digit_val. lia.
Qed.

Lemma field_nonneg (s : string) (start len : nat) (v : Z) :
  field s start len = Some v -> (0 <= v)%Z.
Proof.
  unfold field.
  destruct (_ && _)%bool; [|discriminate].
  intros H. injection H as <-. apply digits_nonneg. lia.
Qed.

Lemma py_fromisoformat_valid (s : string) (d : datetime.t) :
  py_fromisoformat s = Some d -> valid_datetime d.
Proof.
  unfold py_fromisoformat.
  destruct (field s 0 4) as [y|]; [|discriminate].
  destruct (field s 5 2) as [m|]; [|discriminate].
  destruct (field s 8 2) as [dd|]; [|discriminate].
  destruct (_ && _)%bool eqn:E; [|discriminate].
  repeat (apply andb_true_iff in E as [E ?]).
  repeat match goal with
         | H : (_ <=? _)%Z = true |- _ => apply Z.leb_le in H
         end.
  destruct (String.length s =? 10)%nat.
  { intros H'. injection H' as <-. unfold valid_datetime. simpl. lia. }
  destruct (field s 11 2) as [h|] eqn:Eh; [|discriminate].
  destruct (if (String.length s =? 13)%nat then Some 0%Z else field s 14 2)
    as [mi|] eqn:Emi; [|discriminate].
  destruct (if (String.length s <=? 16)%nat then Some 0%Z else field s 17 2)
    as [se|] eqn:Ese; [|discriminate].
  destruct (_ && _)%bool eqn:E'; [|discriminate].
  repeat (apply andb_true_iff in E' as [E' ?]).
  repeat match goal with
         | H : (_ <? _)%Z = true |- _ => apply Z.ltb_lt in H
         end.
  intros H'. injection H' as <-.
  assert (0 <= h)%Z by (eapply field_nonneg; exact Eh).
  assert (0 <= mi)%Z.
  { destruct (String.length s =? 13)%nat;
      [injection Emi as <-; lia | eapply field_nonneg; exact Emi]. }
  assert (0 <= se)%Z.
  { destruct (String.length s <=? 16)%nat;
      [injection Ese as <-; lia | eapply field_nonneg; exact Ese]. }
  unfold valid_datetime. simpl. lia.
Qed.

Lemma elapsed_hours_of_seconds (x r : Row.t) :
  (0 < datetime.total_seconds_between (Row.timestamp r) (Row.timestamp x))%Z ->
  elapsed_hours x r
  = IZR (datetime.total_seconds_between (Row.timestamp r) (Row.timestamp x)) / 3600.
Proof.
  intros H. unfold elapsed_hours. cbv zeta.
  apply IZR_lt in H.
  replace 3600.0 with 3600 by lra.
  destruct (Rlt_dec _ _) as [_|Hn]; [reflexivity|].
  exfalso. apply Hn. apply Rdiv_lt_0_compat; lra.
Qed.

(** X20. In the rows that the normaliser returns, read with
    [py_fromisoformat], the latest earlier row of the same station is
    never later in time: the elapsed time between the two is not
    negative.  So the default of one hour stands in only for two rows of
    one station with the same timestamp; between rows with different
    timestamps the elapsed hours are the seconds between them divided by
    3600. *)
Theorem normalised_rows_elapsed_time
  (float_of : json -> result R) (raw_json : json)
  (pre post : list Row.t) (r x : Row.t) :
  cimis_json_to_records float_of py_str py_fromisoformat raw_json
    = Ok (pre ++ r :: post) ->
  Forall string_station (pre ++ r :: post) ->
  previous_of (Row.station r) pre = Some x ->
  (0 <= datetime.total_seconds_between (Row.timestamp r) (Row.timestamp x))%Z /\
  (Row.timestamp x <> Row.timestamp r ->
   elapsed_hours x r
   = IZR (datetime.total_seconds_between (Row.timestamp r) (Row.timestamp x))
     / 3600) /\
  (Row.timestamp x = Row.timestamp r -> elapsed_hours x r = 1).
Proof.
  intros Hrun Hf Hprev.
  destruct (cimis_json_to_records_inv _ _ _ _ _ Hrun)
    as (ps & u & Hu & Hsort).
  destruct (rows_sort_spec _ _ Hsort) as [Hperm Hs].
  assert (Hc : Forall (consistent_row py_str py_fromisoformat)
                      (pre ++ r :: post)).
  { eapply Permutation_Forall; [exact Hperm|].
    exact (providers_to_rows_consistent _ _ _ ps u Hu). }
  destruct (earlier_row_of_station _ pre post r x Hs Hf eq_refl Hprev)
    as (Hin & _ & Hle).
  rewrite Forall_forall in Hc.
  assert (Vx : valid_datetime (Row.timestamp x)).
  { destruct (Hc x) as (_ & _ & H); [apply in_or_app; left; exact Hin|].
    eapply py_fromisoformat_valid; exact H. }
  assert (Vr : valid_datetime (Row.timestamp r)).
  { destruct (Hc r) as (_ & _ & H); [apply in_or_app; right; left; reflexivity|].
    eapply py_fromisoformat_valid; exact H. }
  split; [apply total_seconds_nonneg; assumption|]. split.
  - intros Hne. apply elapsed_hours_of_seconds.
    apply total_seconds_pos; try assumption.
    destruct (datetime.ltb (Row.timestamp x) (Row.timestamp r)) eqn:E; [reflexivity|].
    exfalso. apply Hne.
    destruct (datetime_nlt_cases _ _ Hle) as [H1 | H1];
      destruct (datetime_nlt_cases _ _ E) as [H2 | H2]; try lia.
    destruct Vx as (_ & _ & ? & ? & ?), Vr as (_ & _ & ? & ? & ?).
    destruct (Row.timestamp x) as [ya ma da ha mia sa],
             (Row.timestamp r) as [yb mb db hb mib sb]. simpl in *.
    assert (ha = hb /\ mia = mib /\ sa = sb) as (-> & -> & ->) by lia.
    f_equal; lia.
  - intros Heq. unfold elapsed_hours. cbv zeta. rewrite Heq.
    replace (datetime.total_seconds_between (Row.timestamp r) (Row.timestamp r))
      with 0%Z by (unfold datetime.total_seconds_between; lia).
    destruct (Rlt_dec _ _) as [Hp|_]; [|lra].
    exfalso. replace 3600.0 with 3600 in Hp by lra.
    unfold Rdiv in Hp. rewrite Rmult_0_l in Hp. lra.
Qed.

Lemma normalised_rows_elapsed_time_witness :
  (0 <= datetime.total_seconds_between
          (Row.timestamp (observation "04" 4 4.00 85))
          (Row.timestamp (observation "03" 3 5.00 80)))%Z /\
  (Row.timestamp (observation "03" 3 5.00 80)
   <> Row.timestamp (observation "04" 4 4.00 85) ->
   elapsed_hours (observation "03" 3 5.00 80) (observation "04" 4 4.00 85)
   = IZR (datetime.total_seconds_between
            (Row.timestamp (observation "04" 4 4.00 85))
            (Row.timestamp (observation "03" 3 5.00 80))) / 3600) /\
  (Row.timestamp (observation "03" 3 5.00 80)
   = Row.timestamp (observation "04" 4 4.00 85) ->
   elapsed_hours (observation "03" 3 5.00 80) (observation "04" 4 4.00 85) = 1).
Proof.
  apply (normalised_rows_elapsed_time py_float unordered_document
           [observation "03" 3 5.00 80] [] (observation "04" 4 4.00 85)
           (observation "03" 3 5.00 80)).
  - exact unordered_document_rows.
  - exact observations_string_stations.
  - reflexivity.
Defined.

(** * The daily aggregation ([get_frost_risk] in [server/app/main.py]) *)

Lemma py_max_spec (a b : R) : a <= py_max a b /\ b <= py_max a b /\
                              (py_max a b = a \/ py_max a b = b).
Proof. unfold py_max. destruct (Rlt_dec a b); lra. Qed.


Lemma fold_max_spec (l : list R) : forall x,
  x <= fold_left py_max l x /\
  (forall y, In y l -> y <= fold_left py_max l x) /\
  In (fold_left py_max l x) (x :: l).
Proof.
  induction l as [|a l IH]; intros x; simpl.
  - split; [lra|]. split; [tauto | auto].
  - destruct (IH (py_max x a)) as (H1 & H2 & H3).
    destruct (py_max_spec x a) as (Hx & Ha & Hc).
    split; [lra|]. split.
    + intros y [<- | Hy]; [lra | auto].
    + destruct H3 as [H3 | H3]; [|simpl; auto].
      simpl. destruct Hc as [Hc | Hc]; [left | right; left];
        (etransitivity; [symmetry; exact Hc | exact H3]).
Qed.





Lemma stage_max_spec (records : list Enriched.t) (stage_name : string) :
  (stage_probs records stage_name = [] /\ stage_max records stage_name = 0.0) \/
  (In (stage_max records stage_name) (stage_probs records stage_name) /\
   forall p, In p (stage_probs records stage_name) ->
             p <= stage_max records stage_name).
Proof.
  unfold stage_max.
  destruct (stage_probs records stage_name) as [|x l]; [left; auto | right].
  destruct (fold_max_spec l x) as (H1 & H2 & H3).
  split; [exact H3|]. intros y [<- | Hy]; auto.
Qed.

Lemma fold_stages_spec (records : list Enriched.t) (cfg : list (string * StageLT)) :
  forall m,
    let m' := fold_left (fun acc st => py_max acc (stage_max records (fst st))) cfg m in
    m <= m' /\
    (forall name, In name (map fst cfg) -> stage_max records name <= m') /\
    (m' = m \/ exists name, In name (map fst cfg) /\ m' = stage_max records name).
Proof.
  induction cfg as [|[n lt] cfg IH]; intros m; simpl.
  - split; [lra|]. split; [tauto | auto].
  - destruct (IH (py_max m (stage_max records n))) as (H1 & H2 & H3).
    destruct (py_max_spec m (stage_max records n)) as (Hm & Hn & Hc).
    split; [lra|]. split.
    + intros name [<- | Hin]; [lra | auto].
    + destruct H3 as [H3 | (name & Hin & H3)].
      * destruct Hc as [Hc | Hc].
        -- left. rewrite H3. exact Hc.
        -- right. exists n. split; [left; reflexivity | rewrite H3; exact Hc].
      * right. exists name. split; [right; exact Hin | exact H3].
Qed.

(** The overall damage is the largest probability that the records hold
    for a configured stage, and 0 when they hold none. *)
Lemma max_damage_overall_is_the_maximum (records : list Enriched.t) :
  0 <= max_damage_overall records /\
  (forall p, observed_prob records p -> p <= max_damage_overall records) /\
  (max_damage_overall records = 0 \/
   observed_prob records (max_damage_overall records)).
Proof.
  unfold max_damage_overall.
  destruct (fold_stages_spec records (stages ALMOND_LT_CONFIG) 0.0)
    as (H1 & H2 & H3).
  split; [lra|]. split.
  - intros p (name & Hin & Hp).
    apply Rle_trans with (stage_max records name); [|apply H2, Hin].
    destruct (stage_max_spec records name) as [[He _] | [_ Hmax]];
      [rewrite He in Hp; contradiction | apply Hmax, Hp].
  - destruct H3 as [H3 | (name & Hin & H3)]; [left; lra|].
    destruct (stage_max_spec records name) as [[_ He] | [Hmem _]].
    + left. rewrite H3, He. lra.
    + right. exists name. split; [exact Hin|]. rewrite H3. exact Hmem.
Qed.

(** X21. The risk level of a list of enriched records is "low" exactly
    when every damage probability they hold for a configured stage is
    below 0.3, and "high" exactly when one of them is at least 0.6. *)
Theorem risk_level_of_records (records : list Enriched.t) :
  (get_frost_risk_level records = "low"%string <->
   forall p, observed_prob records p -> p < 0.3) /\
  (get_frost_risk_level records = "high"%string <->
   exists p, observed_prob records p /\ 0.6 <= p).
Proof.
  unfold get_frost_risk_level.
  destruct (max_damage_overall_is_the_maximum records) as (H0 & Hub & Hatt).
  destruct (risk_level_cases (max_damage_overall records))
    as [[Hc E] | [[Hc E] | [Hc E]]]; rewrite E; split; split;
    try discriminate; try reflexivity.
  - intros _ p Hp. apply Hub in Hp. lra.
  - intros (p & Hp & H6). apply Hub in Hp. lra.
  - intros Hall. destruct Hatt as [Hz | Hobs]; [lra|].
    apply Hall in Hobs. lra.
  - intros (p & Hp & H6). apply Hub in Hp. lra.
  - intros Hall. destruct Hatt as [Hz | Hobs]; [lra|].
    apply Hall in Hobs. lra.
  - intros _. destruct Hatt as [Hz | Hobs]; [lra|]. eauto.
Qed.


(** * The database read ([server/app/CIMIS.py]) *)

Local Open Scope string_scope.

(** ** Text of dates and hours *)

Lemma range_check (P : Z -> bool) (n : Z) :
  forallb P (map Z.of_nat (seq 0 (Z.to_nat n))) = true ->
  forall z, (0 <= z < n)%Z -> P z = true.
Proof.
  intros H z Hz. rewrite forallb_forall in H. apply H.
  rewrite <- (Z2Nat.id z) by lia. apply in_map, in_seq. lia.
Qed.

Lemma field_is_spec (s : string) (len : nat) (v : Z) :
  field_is s len v = true -> String.length s = len /\ field s 0 len = Some v.
Proof.
  unfold field_is. intros H. apply andb_true_iff in H as [H1 H2].
  apply Nat.eqb_eq in H1. split; [exact H1|].
  destruct (field s 0 len); [|discriminate]. apply Z.eqb_eq in H2. congruence.
Qed.

Lemma pad4_field (y : Z) :
  (0 <= y <= 9999)%Z ->
  String.length (datetime.pad 4 y) = 4%nat /\ field (datetime.pad 4 y) 0 4 = Some y.
Proof.
  intros H. apply field_is_spec.
  apply (range_check (fun y => field_is (datetime.pad 4 y) 4 y) 10000%Z);
    [vm_compute; reflexivity | lia].
Qed.

Lemma pad2_field (n : Z) :
  (0 <= n <= 99)%Z ->
  String.length (datetime.pad 2 n) = 2%nat /\ field (datetime.pad 2 n) 0 2 = Some n.
Proof.
  intros H. apply field_is_spec.
  apply (range_check (fun n => field_is (datetime.pad 2 n) 2 n) 100%Z);
    [vm_compute; reflexivity | lia].
Qed.

(** The hour code that [get_cimis_data] writes, and the text of the
    hour itself, are read back as the hour on two digits. *)
Lemma hour_code_round_trip (h : Z) :
  (0 <= h <= 99)%Z ->
  hour_str_of (format_02d h ++ "00") = datetime.pad 2 h /\
  hour_str_of (py_str (JInt h)) = datetime.pad 2 h.
Proof.
  intros H.
  assert (Hb : (String.eqb (hour_str_of (format_02d h ++ "00")) (datetime.pad 2 h)
           && String.eqb (hour_str_of (py_str (JInt h))) (datetime.pad 2 h))%bool = true).
  { apply (range_check (fun h => (String.eqb (hour_str_of (format_02d h ++ "00")) (datetime.pad 2 h)
           && String.eqb (hour_str_of (py_str (JInt h))) (datetime.pad 2 h))%bool) 100%Z);
      [vm_compute; reflexivity | lia]. }
  apply andb_true_iff in Hb as [H1 H2].
  split; apply String.eqb_eq; assumption.
Qed.

Lemma humidity_parses (n : Z) :
  (0 <= n <= 100)%Z ->
  py_float (JStr (NilZero.string_of_int (Z.to_int n))) = Ok (IZR n).
Proof.
  intros H.
  assert (Hb : match decimal_parts (NilZero.string_of_int (Z.to_int n)) with
               | Some (false, m, 0%Z) => (m =? n)%Z
               | _ => false
               end = true).
  { apply (range_check (fun n =>
       match decimal_parts (NilZero.string_of_int (Z.to_int n)) with
       | Some (false, m, 0%Z) => (m =? n)%Z
       | _ => false
       end) 101%Z); [vm_compute; reflexivity | lia]. }
  simpl. unfold parse_decimal.
  destruct (decimal_parts _) as [[[[] m] [| |]]|]; try discriminate.
  apply Z.eqb_eq in Hb. subst m. simpl. rewrite Z.mul_1_r. reflexivity.
Qed.

Lemma fromisoformat_of_parts (Y M D H : string) (y m d : Z) :
  String.length Y = 4%nat -> String.length M = 2%nat ->
  String.length D = 2%nat -> String.length H = 2%nat ->
  field Y 0 4 = Some y -> field M 0 2 = Some m -> field D 0 2 = Some d ->
  (1 <= y)%Z -> (1 <= m <= 12)%Z -> (1 <= d <= datetime.days_in_month y m)%Z ->
  py_fromisoformat (Y ++ "-" ++ M ++ "-" ++ D ++ " " ++ H ++ ":00")
  = match field H 0 2 with
    | Some h => if (h <? 24)%Z then Some (datetime.mk y m d h 0 0) else None
    | None => None
    end.
Proof.
  intros HY HM HD HH Hy Hm Hd Hy1 Hm1 Hd1.
  destruct Y as [|a1 [|a2 [|a3 [|a4 [|? ?]]]]]; try discriminate.
  destruct M as [|b1 [|b2 [|? ?]]]; try discriminate.
  destruct D as [|c1 [|c2 [|? ?]]]; try discriminate.
  destruct H as [|d1 [|d2 [|? ?]]]; try discriminate.
  unfold py_fromisoformat.
  change (field (_ ++ _) 0 4) with (field (String a1 (String a2 (String a3 (String a4 "")))) 0 4).
  change (field (_ ++ _) 5 2) with (field (String b1 (String b2 "")) 0 2).
  change (field (_ ++ _) 8 2) with (field (String c1 (String c2 "")) 0 2).
  rewrite Hy, Hm, Hd.
  change (field (_ ++ _) 11 2) with (field (String d1 (String d2 "")) 0 2).
  cbn [append String.length char_at String.get is_char].
  simpl.
  replace (1 <=? y)%Z with true by (symmetry; apply Z.leb_le; lia).
  replace (1 <=? m)%Z with true by (symmetry; apply Z.leb_le; lia).
  replace (m <=? 12)%Z with true by (symmetry; apply Z.leb_le; lia).
  replace (1 <=? d)%Z with true by (symmetry; apply Z.leb_le; lia).
  replace (d <=? datetime.days_in_month y m)%Z with true by (symmetry; apply Z.leb_le; lia).
  simpl.
  destruct (field (String d1 (String d2 "")) 0 2) as [h|]; [|reflexivity].
  destruct (h <? 24)%Z; reflexivity.
Qed.

Lemma string_append_assoc (a b c : string) : (a ++ b) ++ c = a ++ (b ++ c).
Proof.
  induction a as [|x a IH]; simpl; [reflexivity | rewrite IH; reflexivity].
Qed.

Lemma fromisoformat_date_only (d : pydate.t) :
  pydate.valid d ->
  py_fromisoformat (pydate.isoformat d)
  = Some (datetime.mk (pydate.year d) (pydate.month d) (pydate.day d) 0 0 0).
Proof.
  intros (Hy & Hm & Hd).
  destruct (pad4_field (pydate.year d)) as [Ly Fy]; [lia|].
  destruct (pad2_field (pydate.month d)) as [Lm Fm]; [lia|].
  assert (Hdim : (datetime.days_in_month (pydate.year d) (pydate.month d) <= 31)%Z).
  { unfold datetime.days_in_month.
    repeat match goal with |- context [if ?b then _ else _] => destruct b end; lia. }
  destruct (pad2_field (pydate.day d)) as [Ld Fd]; [lia|].
  unfold pydate.isoformat.
  revert Ly Lm Ld Fy Fm Fd.
  generalize (datetime.pad 4 (pydate.year d)) as Y.
  generalize (datetime.pad 2 (pydate.month d)) as M.
  generalize (datetime.pad 2 (pydate.day d)) as D.
  intros D M Y Ly Lm Ld Fy Fm Fd.
  destruct Y as [|a1 [|a2 [|a3 [|a4 [|? ?]]]]]; try discriminate.
  destruct M as [|b1 [|b2 [|? ?]]]; try discriminate.
  destruct D as [|c1 [|c2 [|? ?]]]; try discriminate.
  unfold py_fromisoformat.
  change (field (_ ++ _) 0 4) with (field (String a1 (String a2 (String a3 (String a4 "")))) 0 4).
  change (field (_ ++ _) 5 2) with (field (String b1 (String b2 "")) 0 2).
  change (field (_ ++ _) 8 2) with (field (String c1 (String c2 "")) 0 2).
  rewrite Fy, Fm, Fd.
  cbn [append String.length char_at String.get is_char].
  simpl.
  replace (1 <=? pydate.year d)%Z with true by (symmetry; apply Z.leb_le; lia).
  replace (1 <=? pydate.month d)%Z with true by (symmetry; apply Z.leb_le; lia).
  replace (pydate.month d <=? 12)%Z with true by (symmetry; apply Z.leb_le; lia).
  replace (1 <=? pydate.day d)%Z with true by (symmetry; apply Z.leb_le; lia).
  replace (pydate.day d <=? datetime.days_in_month (pydate.year d) (pydate.month d))%Z
    with true by (symmetry; apply Z.leb_le; lia).
  reflexivity.
Qed.

(** X22. [_parse_iso_date] returns a date object as it is, and reads the
    ISO text of a calendar date back as that date. *)
Theorem parse_iso_date_round_trip (d : pydate.t) :
  pydate.valid d ->
  _parse_iso_date py_fromisoformat (DateStr (pydate.isoformat d)) = Ok d /\
  _parse_iso_date py_fromisoformat (DateObj d) = Ok d.
Proof.
  intros Hv. split; [|reflexivity]. unfold _parse_iso_date.
  rewrite (fromisoformat_date_only d Hv). destruct d. reflexivity.
Qed.

Lemma parse_iso_date_round_trip_witness :
  _parse_iso_date py_fromisoformat
    (DateStr (pydate.isoformat (pydate.mk 2024 2 29)))
    = Ok (pydate.mk 2024 2 29) /\
  _parse_iso_date py_fromisoformat (DateObj (pydate.mk 2024 2 29))
    = Ok (pydate.mk 2024 2 29).
Proof.
  apply (parse_iso_date_round_trip (pydate.mk 2024 2 29)).
  unfold pydate.valid. cbn. lia.
Defined.

(** ** The payload of [get_cimis_data] *)

Section Payload.

Variable format_2f : R -> string.

Lemma timestamp_of_stored_row (r : CimisHourly.t) (h : Z) :
  pydate.valid (CimisHourly.date r) -> (0 <= h <= 99)%Z ->
  py_fromisoformat
    (py_str (JStr (pydate.isoformat (CimisHourly.date r))) ++ " "
     ++ hour_str_of (py_str (JStr (format_02d h ++ "00"))) ++ ":00")
  = if (h <? 24)%Z then Some (stored_timestamp r h) else None.
Proof.
  intros (Hy & Hm & Hd) Hh. simpl py_str.
  destruct (hour_code_round_trip h Hh) as [-> _].
  destruct (pad4_field (pydate.year (CimisHourly.date r))) as [Ly Fy]; [lia|].
  destruct (pad2_field (pydate.month (CimisHourly.date r))) as [Lm Fm]; [lia|].
  assert (Hdim : (datetime.days_in_month (pydate.year (CimisHourly.date r))
                    (pydate.month (CimisHourly.date r)) <= 31)%Z).
  { unfold datetime.days_in_month.
    repeat match goal with |- context [if ?b then _ else _] => destruct b end; lia. }
  destruct (pad2_field (pydate.day (CimisHourly.date r))) as [Ld Fd]; [lia|].
  destruct (pad2_field h) as [Lh Fh]; [lia|].
  unfold pydate.isoformat.
  rewrite !string_append_assoc.
  rewrite (fromisoformat_of_parts _ _ _ _ _ _ _ Ly Lm Ld Lh Fy Fm Fd);
    try lia.
  rewrite Fh. reflexivity.
Qed.

Lemma record_to_row_of_strings
  (float_of : json -> result R) (str_of : json -> string)
  (fromisoformat : string -> option datetime.t)
  (provider : json) (fields : dict) (st ds hs : string) :
  dict_get fields "Station" = Some (JStr st) -> st <> "" ->
  dict_get fields "Date" = Some (JStr ds) ->
  dict_get fields "Hour" = Some (JStr hs) ->
  record_to_row float_of str_of fromisoformat provider (JDict fields)
  = match fromisoformat (str_of (JStr ds) ++ " "
                         ++ hour_str_of (str_of (JStr hs)) ++ ":00") with
    | None => Ok None
    | Some timestamp =>
        air_temp_c <- _get_cimis_value float_of fields ["HlyAirTmp"; "hly-air-tmp"] ;;
        rel_hum <- _get_cimis_value float_of fields ["HlyRelHum"; "hly-rel-hum"] ;;
        Ok (Some (Row.mk (JStr st) (JStr ds) (hour_str_of (str_of (JStr hs)))
                    timestamp air_temp_c rel_hum))
    end.
Proof.
  intros Hs Hne Hd Hh. unfold record_to_row, py_get.
  rewrite Hs, Hd, Hh. cbn [bind truthy].
  destruct (String.eqb_spec st ""); [contradiction|]. reflexivity.
Qed.

Lemma hourly_rec_fields (r : CimisHourly.t) (h : Z) :
  exists fields,
    hourly_rec format_2f r h = JDict fields /\
    dict_get fields "Station" = Some (JStr (CimisHourly.station_id r)) /\
    dict_get fields "Date" = Some (JStr (pydate.isoformat (CimisHourly.date r))) /\
    dict_get fields "Hour" = Some (JStr (format_02d h ++ "00")) /\
    dict_get fields "hly-air-tmp" = None /\
    dict_get fields "hly-rel-hum" = None /\
    dict_get fields "HlyAirTmp"
      = match CimisHourly.air_temp r with
        | Some x => Some (JDict [("Value", JStr (format_2f x));
                                 ("Qc", JStr "V"); ("Unit", JStr "(C)")])
        | None => None
        end /\
    dict_get fields "HlyRelHum"
      = match CimisHourly.humidity r with
        | Some n => Some (JDict [("Value", JStr (NilZero.string_of_int (Z.to_int n)));
                                 ("Qc", JStr "V"); ("Unit", JStr "(%)")])
        | None => None
        end.
Proof.
  destruct r as [sid date hr [x|] [n|]]; eexists; (split; [reflexivity|]);
    repeat split; reflexivity.
Qed.

Lemma get_value_of_stored (fields : dict) (key alias : string) (o : option string) :
  dict_get fields alias = None ->
  dict_get fields key
    = match o with
      | Some s => Some (JDict [("Value", JStr s); ("Qc", JStr "V"); ("Unit", JStr "(C)")])
      | None => None
      end \/
  dict_get fields key
    = match o with
      | Some s => Some (JDict [("Value", JStr s); ("Qc", JStr "V"); ("Unit", JStr "(%)")])
      | None => None
      end ->
  _get_cimis_value py_float fields [key; alias] = Ok (read_back o).
Proof.
  intros Ha Hk. simpl. rewrite Ha.
  destruct o as [s|]; destruct Hk as [-> | ->]; simpl; try reflexivity;
    destruct (String.eqb s ""); try reflexivity;
    destruct (parse_decimal s); reflexivity.
Qed.

(** The row that the record of a stored row gives. *)
Lemma stored_row_value (provider : json) (r : CimisHourly.t) (h : Z) :
  pydate.valid (CimisHourly.date r) ->
  CimisHourly.station_id r <> "" ->
  (0 <= h <= 99)%Z ->
  record_to_row py_float py_str py_fromisoformat provider
    (hourly_rec format_2f r h)
  = if (h <? 24)%Z
    then Ok (Some (Row.mk (JStr (CimisHourly.station_id r))
                     (JStr (pydate.isoformat (CimisHourly.date r)))
                     (datetime.pad 2 h) (stored_timestamp r h)
                     (read_back (option_map format_2f (CimisHourly.air_temp r)))
                     (read_back
                        (option_map
                           (fun n => NilZero.string_of_int (Z.to_int n))
                           (CimisHourly.humidity r)))))
    else Ok None.
Proof.
  intros Hv Hs Hh.
  pose proof (timestamp_of_stored_row r h Hv Hh) as Hts.
  destruct (hour_code_round_trip h Hh) as [Hhour _].
  destruct (hourly_rec_fields r h)
    as (fields & -> & HS & HD & HH & Hna & Hnh & Hair & Hhum).
  rewrite (record_to_row_of_strings _ _ _ provider fields _ _ _ HS Hs HD HH).
  rewrite Hts. destruct (h <? 24)%Z; [|reflexivity].
  rewrite (get_value_of_stored fields "HlyAirTmp" "hly-air-tmp"
             (option_map format_2f (CimisHourly.air_temp r)) Hna)
    by (left; rewrite Hair; destruct (CimisHourly.air_temp r); reflexivity).
  rewrite (get_value_of_stored fields "HlyRelHum" "hly-rel-hum"
             (option_map (fun n => NilZero.string_of_int (Z.to_int n))
                (CimisHourly.humidity r)) Hnh)
    by (right; rewrite Hhum; destruct (CimisHourly.humidity r); reflexivity).
  cbn [bind]. simpl py_str. rewrite Hhour. reflexivity.
Qed.

(** X23. A stored row goes through the payload and the normaliser
    unchanged: for a calendar date, a station name that is not empty and
    an hour from 0 to 23 the record built by [get_cimis_data] gives a row
    with that station, the ISO text of the date, the hour on two digits
    and the timestamp of that date and hour; a missing temperature or
    humidity stays missing and a humidity from 0 to 100 is read back as
    the same number.  For an hour from 24 to 99 the record gives no
    row. *)
Theorem stored_row_round_trip (provider : json) (r : CimisHourly.t) (h : Z) :
  pydate.valid (CimisHourly.date r) ->
  CimisHourly.station_id r <> "" ->
  (0 <= h <= 99)%Z ->
  (h <= 23 ->
   exists row,
     record_to_row py_float py_str py_fromisoformat provider
       (hourly_rec format_2f r h) = Ok (Some row) /\
     Row.station row = JStr (CimisHourly.station_id r) /\
     Row.date row = JStr (pydate.isoformat (CimisHourly.date r)) /\
     Row.hour row = datetime.pad 2 h /\
     Row.timestamp row = stored_timestamp r h /\
     (CimisHourly.air_temp r = None -> Row.air_temp_c row = None) /\
     (CimisHourly.humidity r = None -> Row.rel_hum row = None) /\
     (forall n, CimisHourly.humidity r = Some n -> 0 <= n <= 100 ->
                Row.rel_hum row = Some (IZR n)))%Z /\
  (24 <= h ->
   record_to_row py_float py_str py_fromisoformat provider
     (hourly_rec format_2f r h) = Ok None)%Z.
Proof.
  intros Hv Hs Hh. rewrite (stored_row_value provider r h Hv Hs Hh).
  split; intros Hr.
  - replace (h <? 24)%Z with true by (symmetry; apply Z.ltb_lt; lia).
    eexists. split; [reflexivity|].
    cbn [Row.station Row.date Row.hour Row.timestamp Row.air_temp_c
         Row.rel_hum].
    split; [reflexivity|]. split; [reflexivity|]. split; [reflexivity|].
    split; [reflexivity|].
    split; [intros ->; reflexivity|]. split; [intros ->; reflexivity|].
    intros n -> Hn. cbn [option_map read_back].
    pose proof (humidity_parses n Hn) as Hp. simpl in Hp.
    destruct (String.eqb_spec (NilZero.string_of_int (Z.to_int n)) "")
      as [E|_].
    + rewrite E in Hp. vm_compute in Hp. discriminate.
    + destruct (parse_decimal _); [injection Hp as ->; reflexivity
                                  | discriminate].
  - replace (h <? 24)%Z with false by (symmetry; apply Z.ltb_ge; lia).
    reflexivity.
Qed.

End Payload.

Lemma stored_hour_3_valid : pydate.valid (CimisHourly.date stored_hour_3).
Proof. unfold pydate.valid. cbn. lia. Qed.

Lemma stored_row_round_trip_witness :
  exists row,
    record_to_row py_float py_str py_fromisoformat JNull
      (hourly_rec format_5_00 stored_hour_3 3) = Ok (Some row) /\
    Row.station row = JStr "145" /\
    Row.hour row = datetime.pad 2 3 /\
    Row.timestamp row = datetime.mk 2024 1 1 3 0 0 /\
    Row.rel_hum row = Some 80.
Proof.
  destruct (stored_row_round_trip format_5_00 JNull stored_hour_3 3)
    as [Hkeep _]; [exact stored_hour_3_valid | discriminate | lia |].
  destruct (Hkeep ltac:(lia)) as (row & H & Hs & _ & Hh & Ht & _ & _ & Hn).
  exists row. split; [exact H|]. split; [exact Hs|]. split; [exact Hh|].
  split; [exact Ht|]. apply (Hn 80%Z); [reflexivity | lia].
Defined.

Section PayloadRows.

Variable format_2f : R -> string.

Lemma stored_rows_to_rows (provider : json) (rows : list CimisHourly.t) :
  Forall storable rows ->
  exists unsorted,
    records_to_rows py_float py_str py_fromisoformat provider
      (hourly_records format_2f rows) = Ok unsorted /\
    map row_key unsorted = clock_hour_keys rows /\
    Forall string_station unsorted.
Proof.
  induction 1 as [|r rows (Hv & Hs & Hh) _ (unsorted & IH & Hk & Hst)]; simpl.
  - exists []. repeat split; constructor.
  - destruct (CimisHourly.hour r) as [h|] eqn:E; [|exists unsorted; auto].
    simpl. specialize (Hh h eq_refl).
    rewrite (stored_row_value format_2f provider r h Hv Hs Hh).
    destruct (Z.leb_spec h 23) as [Hle | Hgt].
    + replace (h <? 24)%Z with true by (symmetry; apply Z.ltb_lt; lia).
      cbn [bind]. rewrite IH. cbn [bind]. eexists. split; [reflexivity|].
      split; [|constructor; [eexists; reflexivity | exact Hst]].
      simpl. rewrite Hk. reflexivity.
    + replace (h <? 24)%Z with false by (symmetry; apply Z.ltb_ge; lia).
      cbn [bind]. rewrite IH. cbn [bind]. exists unsorted. auto.
Qed.

(** The normaliser on a one-provider document. *)
Lemma normalise_document (records : list json) (unsorted : list Row.t) :
  records_to_rows py_float py_str py_fromisoformat (local_provider records)
    records = Ok unsorted ->
  cimis_json_to_records py_float py_str py_fromisoformat (document records)
  = rows_sort unsorted.
Proof.
  intros Hu. unfold cimis_json_to_records, document.
  cbn [py_get_default dict_get String.eqb Ascii.eqb Bool.eqb bind py_iter
       providers_to_rows].
  fold (local_provider records). rewrite Hu. cbn [bind].
  rewrite app_nil_r. reflexivity.
Qed.

(** X24. The payload built from stored rows is normalised without
    exception: for rows with a calendar date, a station name that is not
    empty and an hour, if any, from 0 to 99, the normaliser returns one
    row for each stored row with an hour from 0 to 23 and no other, with
    the station and the timestamp of the stored row, sorted by station
    and timestamp. *)
Theorem stored_rows_normalise (rows : list CimisHourly.t) :
  Forall storable rows ->
  exists out,
    cimis_json_to_records py_float py_str py_fromisoformat
      (document (hourly_records format_2f rows)) = Ok out /\
    Permutation (map row_key out) (clock_hour_keys rows) /\
    Sorted key_le out.
Proof.
  intros Hf.
  destruct (stored_rows_to_rows
              (local_provider (hourly_records format_2f rows)) rows Hf)
    as (unsorted & Hu & Hk & Hst).
  destruct (rows_sort_string_stations unsorted Hst) as (out & Hsort & Hp & Hs).
  exists out. split; [|split; [|exact Hs]].
  - rewrite (normalise_document _ _ Hu). exact Hsort.
  - rewrite <- Hk. apply Permutation_map. symmetry. exact Hp.
Qed.

(** X25. [get_cimis_data] raises nothing but ValueError: without a
    session, for a scope other than "hourly" and "both", and for a date
    text that [fromisoformat] rejects.  Otherwise it returns the
    one-provider document of the records built from the rows of the
    query for the normalised stations and the two parsed dates. *)
Theorem get_cimis_data_outcome
  (str_of : json -> string) (fromisoformat : string -> option datetime.t)
  (db : option Session) (stations : json) (start_date end_date : date_arg)
  (scope : string) :
  match get_cimis_data str_of fromisoformat format_2f db stations
          start_date end_date scope with
  | Ok payload =>
      exists query start end_,
        db = Some query /\ (scope = "hourly" \/ scope = "both") /\
        _parse_iso_date fromisoformat start_date = Ok start /\
        _parse_iso_date fromisoformat end_date = Ok end_ /\
        payload = document (hourly_records format_2f
                    (query (_normalize_station_list str_of stations) start end_))
  | Raise e => e = ValueError
  end.
Proof.
  unfold get_cimis_data. destruct db as [query|]; [|reflexivity].
  destruct (String.eqb_spec scope "hourly") as [Hs | Hs];
    [|destruct (String.eqb_spec scope "both") as [Hb | Hb]]; simpl;
    try reflexivity.
  all: destruct (_parse_iso_date fromisoformat start_date) as [s|e] eqn:E1;
    [|revert E1; unfold _parse_iso_date; destruct start_date;
      [destruct (fromisoformat s)|]; simpl; congruence].
  all: destruct (_parse_iso_date fromisoformat end_date) as [e'|e] eqn:E2;
    [|revert E2; unfold _parse_iso_date; destruct end_date;
      [destruct (fromisoformat s0)|]; simpl; congruence].
  all: simpl; exists query, s, e'; auto.
Qed.

End PayloadRows.

Lemma stored_hour_3_storable : Forall storable [stored_hour_3].
Proof.
  apply Forall_cons; [|apply Forall_nil].
  split; [exact stored_hour_3_valid|]. split; [discriminate|].
  intros h H. injection H as <-. lia.
Qed.

Lemma stored_rows_normalise_witness :
  exists out,
    cimis_json_to_records py_float py_str py_fromisoformat
      (document (hourly_records format_5_00 [stored_hour_3])) = Ok out /\
    Permutation (map row_key out) (clock_hour_keys [stored_hour_3]) /\
    Sorted key_le out.
Proof.
  apply (stored_rows_normalise format_5_00 [stored_hour_3]).
  exact stored_hour_3_storable.
Defined.

(** * The endpoint ([get_frost_risk] in [server/app/main.py]) *)




Lemma aggregate_stages_almond_value (records : list Enriched.t) (m : R) :
  aggregate_stages records (stages ALMOND_LT_CONFIG) m
  = Ok (fold_left (fun acc st => py_max acc (stage_max records (fst st)))
          (stages ALMOND_LT_CONFIG) m,
        [("Pinkbud", mkCropStage (stage_max records "pinkbud")
                       (stage_max records "pinkbud") (-3.5) (-5.5) 10.0 1.5);
         ("Fullbloom", mkCropStage (stage_max records "fullbloom")
                         (stage_max records "fullbloom") (-3.0) (-4.5) 9.0 1.4);
         ("Petalfall", mkCropStage (stage_max records "petalfall")
                         (stage_max records "petalfall") (-2.8) (-5.0) 8.0 1.3);
         ("Fruitset", mkCropStage (stage_max records "fruitset")
                        (stage_max records "fruitset") (-2.5) (-4.7) 7.0 1.2);
         ("Smallnut", mkCropStage (stage_max records "smallnut")
                        (stage_max records "smallnut") (-2.8) (-4.5) 6.0 1.1)]).
Proof. reflexivity. Qed.

Lemma derived_fields_probs (delta : R) (o : Enriched.t) :
  derived_fields delta o ->
  Forall (fun e => 0 < damage_prob (snd e) <= 1) (Enriched.stages o).
Proof.
  unfold derived_fields.
  destruct (Enriched.air_temperature_c o), (Enriched.relative_humidity o);
    try (intros (_ & _ & _ & ->); constructor).
  intros (wb & bt & td & _ & _ & _ & _ & _ & _ & _ & H).
  eapply Forall_impl; [|exact H]. intros e [_ He]. exact He.
Qed.

Lemma stage_lookup_In (d : list (string * StageInfo)) (k : string) (v : StageInfo) :
  stage_lookup d k = Some v -> In (k, v) d.
Proof.
  induction d as [|[k' v'] d IH]; simpl; [discriminate|].
  destruct (String.eqb_spec k' k) as [->|_].
  - intros H. injection H as ->. left. reflexivity.
  - intros H. right. apply IH, H.
Qed.

Lemma stage_probs_range (delta : R) (records : list Enriched.t) (name : string) (p : R) :
  Forall (derived_fields delta) records ->
  In p (stage_probs records name) -> 0 < p <= 1.
Proof.
  intros Hf Hp. unfold stage_probs in Hp. apply in_flat_map in Hp as (o & Ho & Hp).
  destruct (stage_lookup (Enriched.stages o) name) as [info|] eqn:E; [|contradiction].
  destruct Hp as [<- | []].
  rewrite Forall_forall in Hf. apply Hf, derived_fields_probs in Ho.
  rewrite Forall_forall in Ho. apply (Ho (name, info)), stage_lookup_In, E.
Qed.

Lemma stage_max_range (delta : R) (records : list Enriched.t) (name : string) :
  Forall (derived_fields delta) records ->
  0 <= stage_max records name <= 1.
Proof.
  intros Hf. destruct (stage_max_spec records name) as [[_ ->] | [Hin _]]; [lra|].
  apply (stage_probs_range delta) in Hin; [lra | exact Hf].
Qed.

Lemma compute_frost_risk_from_db_inv
  (float_of : json -> result R) (str_of : json -> string)
  (fromisoformat : string -> option datetime.t) (format_2f : R -> string)
  (db : option Session) (stations : json) (s e : date_arg) (delta : R)
  (outs : list Enriched.t) :
  compute_frost_risk_from_db float_of str_of fromisoformat format_2f db stations s e delta
    = Ok outs ->
  Forall (derived_fields delta) outs.
Proof.
  unfold compute_frost_risk_from_db, compute_frost_risk_from_cimis. intros H.
  apply bind_ok in H as (raw & _ & H).
  apply bind_ok in H as (rows & _ & H).
  destruct rows as [|r rows]; [injection H as <-; constructor|].
  apply (pass_inv _ _ _ _ H).
Qed.

Section EndpointFacts.

Variable float_of : json -> result R.
Variable str_of : json -> string.
Variable fromisoformat : string -> option datetime.t.
Variable format_2f : R -> string.

(** Everything a returned feature was built from. *)
Lemma get_frost_risk_returned
  (lat lon : R) (date_param : pydate.t) (crop variety : string)
  (station_id : option string) (db : Session) (f : FrostRiskFeature) :
  get_frost_risk float_of str_of fromisoformat format_2f
    lat lon date_param crop variety station_id db = Returned f ->
  let station := requested_station station_id in
  lower crop = "almond" /\
  exists all records m l,
    compute_frost_risk_from_db float_of str_of fromisoformat format_2f
      (Some db) (JList [JStr station]) (DateStr (pydate.isoformat date_param))
      (DateStr (pydate.isoformat date_param)) 1.0 = Ok all /\
    records = filter (fun r => str_of (Enriched.station r) =? str_of (JStr station)) all /\
    records <> [] /\
    aggregate_stages records (stages ALMOND_LT_CONFIG) 0.0 = Ok (m, l) /\
    f = mkFrostRiskFeature "Feature"
          (mkFeatureProperties
             (min_or 0.0 (present (map Enriched.air_temperature_c records)))
             (risk_level m) "Unknown" (mkCrop crop variety l)
             (mkCimisData (str_of (JStr station))
                ("CIMIS Station " ++ str_of (JStr station)) date_param
                (min_or 0.0 (present (map Enriched.air_temperature_c records)))
                (max_or 0.0 (present (map Enriched.air_temperature_c records)))
                (min_or 0.0 (present (map Enriched.dew_point_c records)))
                (max_or 0.0 (present (map Enriched.dew_point_c records)))
                (match present (map Enriched.relative_humidity records) with
                 | [] => 0%Z
                 | _ => py_int (min_or 0 (present (map Enriched.relative_humidity records)))
                 end)
                (match present (map Enriched.relative_humidity records) with
                 | [] => 0%Z
                 | _ => py_int (max_or 0 (present (map Enriched.relative_humidity records)))
                 end)
                0.0 0.0 records))
          (mkPointGeometry "Point" (lon, lat)).
Proof.
  intros H station. revert H.
  unfold get_frost_risk. fold (requested_station station_id). fold station.
  destruct (String.eqb_spec (lower crop) "almond") as [Hc|Hc]; [|discriminate].
  simpl negb. cbv iota.
  destruct (compute_frost_risk_from_db _ _ _ _ _ _ _ _ _) as [all|e]; [|discriminate].
  destruct all as [|o all]; [discriminate|].
  set (records := filter _ (o :: all)).
  destruct records as [|o' records'] eqn:Er; [discriminate|].
  destruct (aggregate_stages _ _ _) as [[m l]|e] eqn:Ea; [|discriminate].
  intros H. injection H as <-.
  split; [exact Hc|]. exists (o :: all), (o' :: records'), m, l.
  split; [reflexivity|]. split; [symmetry; exact Er|].
  split; [discriminate|]. split; [exact Ea | reflexivity].
Qed.

(** The endpoint answers with a feature when the model returns a record
    of the requested station. *)
Lemma get_frost_risk_returns
  (lat lon : R) (date_param : pydate.t) (crop_name variety_name : string)
  (station_id : option string) (db : Session) (all : list Enriched.t) :
  lower crop_name = "almond" ->
  compute_frost_risk_from_db float_of str_of fromisoformat format_2f
    (Some db) (JList [JStr (requested_station station_id)])
    (DateStr (pydate.isoformat date_param))
    (DateStr (pydate.isoformat date_param)) 1.0 = Ok all ->
  filter (fun r => str_of (Enriched.station r)
                   =? str_of (JStr (requested_station station_id))) all <> [] ->
  exists f,
    get_frost_risk float_of str_of fromisoformat format_2f
      lat lon date_param crop_name variety_name station_id db = Returned f.
Proof.
  intros Hc Hall Hne. unfold get_frost_risk. rewrite Hc.
  cbn [String.eqb Ascii.eqb Bool.eqb negb]. rewrite Hall.
  destruct all as [|o all']; [exfalso; apply Hne; reflexivity|].
  destruct (filter _ (o :: all')) as [|o' rs];
    [exfalso; apply Hne; reflexivity|].
  rewrite aggregate_stages_almond_value. eauto.
Qed.

(** X26. The endpoint answers 400 exactly when the crop, compared
    without regard to case, is not "almond". *)
Theorem get_frost_risk_crop_gate
  (lat lon : R) (date_param : pydate.t) (crop variety : string)
  (station_id : option string) (db : Session) :
  (exists detail,
     get_frost_risk float_of str_of fromisoformat format_2f
       lat lon date_param crop variety station_id db
     = HTTPException 400 detail) <->
  lower crop <> "almond".
Proof.
  unfold get_frost_risk.
  destruct (String.eqb_spec (lower crop) "almond") as [Hc|Hc]; simpl negb; cbv iota.
  - split; [|contradiction]. intros [d H]. exfalso.
    destruct (compute_frost_risk_from_db _ _ _ _ _ _ _ _ _) as [[|o all]|e];
      try discriminate.
    destruct (filter _ _) as [|o' rs]; [discriminate|].
    destruct (aggregate_stages _ _ _) as [[m cs]|e]; discriminate.
  - split; [intros _; exact Hc | eauto].
Qed.


(** X28. A returned feature has one stage entry per configured stage, in
    the order of the table, under the capitalised name, with the logistic
    parameters of the stage; in each entry the frost probability index
    equals the probability, the probability is at least 0 and at most 1
    (the float can be exactly 1.0 on a warm hour), and LT90 is below
    LT10. *)
Theorem get_frost_risk_stage_entries
  (lat lon : R) (date_param : pydate.t) (crop_name variety_name : string)
  (station_id : option string) (db : Session) (f : FrostRiskFeature) :
  get_frost_risk float_of str_of fromisoformat format_2f
    lat lon date_param crop_name variety_name station_id db = Returned f ->
  let entries := crop_stages (crop (properties f)) in
  map fst entries = ["Pinkbud"; "Fullbloom"; "Petalfall"; "Fruitset"; "Smallnut"] /\
  map (fun e => (parameterA (snd e), parameterB (snd e))) entries
    = [(10.0, 1.5); (9.0, 1.4); (8.0, 1.3); (7.0, 1.2); (6.0, 1.1)] /\
  Forall (fun e => frostProbabilityIndex (snd e) = probability (snd e) /\
                   0 <= probability (snd e) <= 1 /\
                   lt90 (snd e) < lt10 (snd e)) entries.
Proof.
  intros H entries.
  apply get_frost_risk_returned in H
    as (_ & all & records & m & l & Hall & Hr & _ & Ha & Hf).
  assert (He : entries = l) by (unfold entries; rewrite Hf; reflexivity).
  rewrite He. clear He entries Hf.
  assert (Hd : Forall (derived_fields 1.0) records).
  { rewrite Hr. apply Forall_forall. intros o Ho. apply filter_In in Ho as [Ho _].
    apply compute_frost_risk_from_db_inv in Hall.
    rewrite Forall_forall in Hall. apply Hall, Ho. }
  rewrite aggregate_stages_almond_value in Ha. injection Ha as _ <-.
  pose proof (fun n => stage_max_range 1.0 records n Hd) as Hrange.
  split; [reflexivity|]. split; [reflexivity|].
  repeat (apply Forall_cons;
          [simpl; split; [reflexivity | split; [apply Hrange | lra]]|]).
  apply Forall_nil.
Qed.

(** X29. In a returned feature the risk level is "high" exactly when the
    probability of some stage entry is at least 0.6, "low" exactly when
    the probability of every stage entry is below 0.3, and it is the
    level of the raw records of the feature. *)
Theorem get_frost_risk_level_matches_stages
  (lat lon : R) (date_param : pydate.t) (crop_name variety_name : string)
  (station_id : option string) (db : Session) (f : FrostRiskFeature) :
  get_frost_risk float_of str_of fromisoformat format_2f
    lat lon date_param crop_name variety_name station_id db = Returned f ->
  let entries := crop_stages (crop (properties f)) in
  (riskLevel (properties f) = "high" <->
   Exists (fun e => 0.6 <= probability (snd e)) entries) /\
  (riskLevel (properties f) = "low" <->
   Forall (fun e => probability (snd e) < 0.3) entries) /\
  riskLevel (properties f) = get_frost_risk_level (raw (cimis (properties f))).
Proof.
  intros H entries.
  apply get_frost_risk_returned in H
    as (_ & all & records & m & l & _ & _ & _ & Ha & Hf).
  rewrite aggregate_stages_almond_value in Ha.
  assert (Hlevel : risk_level m = get_frost_risk_level records).
  { unfold get_frost_risk_level, max_damage_overall. congruence. }
  destruct (fold_stages_spec records (stages ALMOND_LT_CONFIG) 0.0) as (H0 & Hub & Hatt).
  revert Ha H0 Hub Hatt.
  generalize (fold_left (fun acc st => py_max acc (stage_max records (fst st)))
                (stages ALMOND_LT_CONFIG) 0.0).
  intros m0 Ha H0 Hub Hatt. injection Ha as -> <-.
  assert (He : entries = crop_stages (crop (properties f))) by reflexivity.
  rewrite Hf in He |- *. cbn [properties crop crop_stages riskLevel cimis raw] in He |- *.
  rewrite He. clear He entries Hf.
  simpl in Hub, Hatt.
  assert (Hp1 := Hub "pinkbud" (or_introl eq_refl)).
  assert (Hp2 := Hub "fullbloom" (or_intror (or_introl eq_refl))).
  assert (Hp3 := Hub "petalfall" (or_intror (or_intror (or_introl eq_refl)))).
  assert (Hp4 := Hub "fruitset" (or_intror (or_intror (or_intror (or_introl eq_refl))))).
  assert (Hp5 := Hub "smallnut" (or_intror (or_intror (or_intror (or_intror (or_introl eq_refl)))))).
  split; [|split].
  - destruct (risk_level_cases m) as [[Hc E] | [[Hc E] | [Hc E]]]; rewrite E; split;
      try discriminate; try reflexivity.
    + intros Hex. exfalso.
      repeat (apply Exists_cons in Hex as [Hex | Hex]; [simpl in Hex; lra|]).
      inversion Hex.
    + intros Hex. exfalso.
      repeat (apply Exists_cons in Hex as [Hex | Hex]; [simpl in Hex; lra|]).
      inversion Hex.
    + intros _.
      destruct Hatt as [Hz | (name & Hin & Hz)]; [lra|].
      destruct Hin as [<- | [<- | [<- | [<- | [<- | []]]]]].
      * apply Exists_cons_hd. simpl. lra.
      * apply Exists_cons_tl, Exists_cons_hd. simpl. lra.
      * do 2 apply Exists_cons_tl. apply Exists_cons_hd. simpl. lra.
      * do 3 apply Exists_cons_tl. apply Exists_cons_hd. simpl. lra.
      * do 4 apply Exists_cons_tl. apply Exists_cons_hd. simpl. lra.
  - destruct (risk_level_cases m) as [[Hc E] | [[Hc E] | [Hc E]]]; rewrite E; split;
      try discriminate; try reflexivity.
    + intros _. repeat (apply Forall_cons; [simpl; lra|]). apply Forall_nil.
    + intros Hall. exfalso.
      destruct Hatt as [Hz | (name & Hin & Hz)]; [lra|].
      do 5 (apply Forall_cons_iff in Hall as [?Hq Hall]). simpl in *.
      destruct Hin as [<- | [<- | [<- | [<- | [<- | []]]]]]; lra.
    + intros Hall. exfalso.
      destruct Hatt as [Hz | (name & Hin & Hz)]; [lra|].
      do 5 (apply Forall_cons_iff in Hall as [?Hq Hall]). simpl in *.
      destruct Hin as [<- | [<- | [<- | [<- | [<- | []]]]]]; lra.
  - exact Hlevel.
Qed.

End EndpointFacts.

Section NotFound.

Variable format_2f : R -> string.

Lemma compute_frost_risk_from_db_stored
  (db : Session) (station : string) (d : pydate.t) (delta : R) :
  pydate.valid d ->
  compute_frost_risk_from_db py_float py_str py_fromisoformat format_2f
    (Some db) (JList [JStr station]) (DateStr (pydate.isoformat d))
    (DateStr (pydate.isoformat d)) delta
  = compute_frost_risk_from_cimis py_float py_str py_fromisoformat
      (document (hourly_records format_2f (db [station] d d))) delta.
Proof.
  intros Hv. unfold compute_frost_risk_from_db, get_cimis_data.
  cbn [String.eqb Ascii.eqb Bool.eqb orb negb].
  unfold _parse_iso_date. rewrite (fromisoformat_date_only d Hv).
  destruct d. reflexivity.
Qed.

(** X30. For the almond crop and a calendar date, when the rows that the
    database returns for the requested station are storable and none of
    them has an hour from 0 to 23, the endpoint answers 404 with "No CIMIS
    data found for requested station/date.". *)
Theorem get_frost_risk_not_found
  (lat lon : R) (date_param : pydate.t) (crop_name variety_name : string)
  (station_id : option string) (db : Session) :
  lower crop_name = "almond" ->
  pydate.valid date_param ->
  Forall storable (db [requested_station station_id] date_param date_param) ->
  clock_hour_keys (db [requested_station station_id] date_param date_param)
    = [] ->
  get_frost_risk py_float py_str py_fromisoformat format_2f
    lat lon date_param crop_name variety_name station_id db
  = HTTPException 404 "No CIMIS data found for requested station/date.".
Proof.
  intros Hc Hv Hst Hk. unfold get_frost_risk. rewrite Hc.
  cbn [String.eqb Ascii.eqb Bool.eqb negb].
  rewrite (compute_frost_risk_from_db_stored _ _ _ _ Hv).
  destruct (stored_rows_to_rows format_2f
              (local_provider
                 (hourly_records format_2f
                    (db [requested_station station_id] date_param date_param)))
              _ Hst) as (unsorted & Hu & Hkeys & _).
  rewrite Hk in Hkeys. apply map_eq_nil in Hkeys. subst unsorted.
  unfold compute_frost_risk_from_cimis.
  rewrite (normalise_document _ _ Hu). reflexivity.
Qed.

End NotFound.

(** The request for the one stored hour of station 145. *)
Lemma one_hour_request_returns :
  exists f,
    get_frost_risk py_float py_str py_fromisoformat format_5_00
      36.6 (-119.5) (pydate.mk 2024 1 1) "Almond" "nonpareil" None
      one_hour_db = Returned f.
Proof.
  assert (Hrows :
            cimis_json_to_records py_float py_str py_fromisoformat
              (document (hourly_records format_5_00 [stored_hour_3]))
            = Ok [Row.mk (JStr "145") (JStr "2024-01-01") "03"
                    (datetime.mk 2024 1 1 3 0 0) (Some 5.00) (Some 80)])
    by reflexivity.
  destruct (pass_returns 1.0
              [Row.mk (JStr "145") (JStr "2024-01-01") "03"
                 (datetime.mk 2024 1 1 3 0 0) (Some 5.00) (Some 80)])
    with (st := initial_state) as [outs Houts].
  { lra. }
  { apply Forall_cons; [|apply Forall_nil].
    split; [eexists; reflexivity | simpl; split; [lra | right; lra]]. }
  destruct (pass_inv _ _ _ _ Houts) as [H2 _].
  inversion H2 as [|r o rs os (Hst & _) Hrest]; subst.
  inversion Hrest; subst. simpl in Hst.
  apply get_frost_risk_returns with (all := [o]).
  - reflexivity.
  - change (requested_station None) with "145".
    rewrite (compute_frost_risk_from_db_stored format_5_00 one_hour_db "145"
               (pydate.mk 2024 1 1) 1.0)
      by (unfold pydate.valid; cbn; lia).
    unfold compute_frost_risk_from_cimis.
    change (one_hour_db ["145"] (pydate.mk 2024 1 1) (pydate.mk 2024 1 1))
      with [stored_hour_3].
    rewrite Hrows. exact Houts.
  - simpl. rewrite Hst. simpl. discriminate.
Qed.


Lemma get_frost_risk_stage_entries_witness :
  exists f,
    get_frost_risk py_float py_str py_fromisoformat format_5_00
      36.6 (-119.5) (pydate.mk 2024 1 1) "Almond" "nonpareil" None
      one_hour_db = Returned f /\
    map fst (crop_stages (crop (properties f)))
    = ["Pinkbud"; "Fullbloom"; "Petalfall"; "Fruitset"; "Smallnut"].
Proof.
  destruct one_hour_request_returns as [f Hf]. exists f.
  split; [exact Hf|].
  destruct (get_frost_risk_stage_entries py_float py_str py_fromisoformat
              format_5_00 _ _ _ _ _ _ _ f Hf) as (H1 & _).
  exact H1.
Defined.

Lemma get_frost_risk_level_matches_stages_witness :
  exists f,
    get_frost_risk py_float py_str py_fromisoformat format_5_00
      36.6 (-119.5) (pydate.mk 2024 1 1) "Almond" "nonpareil" None
      one_hour_db = Returned f /\
    riskLevel (properties f)
    = get_frost_risk_level (raw (cimis (properties f))).
Proof.
  destruct one_hour_request_returns as [f Hf]. exists f.
  split; [exact Hf|].
  destruct (get_frost_risk_level_matches_stages py_float py_str
              py_fromisoformat format_5_00 _ _ _ _ _ _ _ f Hf)
    as (_ & _ & H3).
  exact H3.
Defined.

Lemma get_frost_risk_not_found_witness :
  get_frost_risk py_float py_str py_fromisoformat format_5_00
    36.6 (-119.5) (pydate.mk 2024 1 1) "almond" "nonpareil" (Some "145")
    hour_24_db
  = HTTPException 404 "No CIMIS data found for requested station/date.".
Proof.
  apply (get_frost_risk_not_found format_5_00).
  - reflexivity.
  - unfold pydate.valid. cbn. lia.
  - apply Forall_cons; [|apply Forall_nil].
    split; [unfold pydate.valid; cbn; lia|]. split; [discriminate|].
    intros h H. injection H as <-. lia.
  - reflexivity.
Defined.
